(** * Image sanitizing of tool results: src/agents/pi-tools.ts and
      src/media/image-ops.ts

    A shallow embedding of the MIME sniffer, the read-result normaliser, the
    metadata probe, the backend selection, the resizer and the content block
    sanitizer, followed by the properties of the specification.

    Conventions of the embedding.
    - A JavaScript string is a [string]: one [ascii] per UTF-16 code unit, for
      code units below 256.
    - A [Buffer] is a list of bytes.
    - A JavaScript number is a [number]: an integer or one of the three
      non-finite values.  Pixel counts, thresholds and qualities are integers,
      so fractions are left out and [Num.round] is the identity.
    - A function that can throw returns a [Result]; an [async] function
      returns an [Eff]: its [Result] and the list of the calls it made to the
      two image back ends, in order.
    - Everything the two files import from outside (the runtime's base64
      codec, [detectMime] of ../media/mime.js, the sharp library, the sips
      tool started through [runExec], the process environment) is a field of
      [Runtime], and every theorem holds for all runtimes. *)

From Stdlib Require Import List String Ascii ZArith NArith Bool Lia Arith.
From Stdlib Require Import Strings.Byte DecimalString.
Import ListNotations.

Set Implicit Arguments.

(* ================================================================== *)
(** ** JavaScript strings *)

Module JS.

Local Open Scope string_scope.

(** WhiteSpace and LineTerminator code units below 256: TAB, LF, VT, FF, CR,
    SP and NBSP.  [String.prototype.trim] and the regular expression class
    [\s] use this set. *)
Definition isWhiteSpace (c : ascii) : bool :=
  let n := nat_of_ascii c in
  ((9 <=? n)%nat && (n <=? 13)%nat) || (n =? 32)%nat || (n =? 160)%nat.

Definition reverse (s : string) : string :=
  string_of_list_ascii (rev (list_ascii_of_string s)).

Fixpoint trimStart (s : string) : string :=
  match s with
  | EmptyString => EmptyString
  | String c s' => if isWhiteSpace c then trimStart s' else s
  end.

Definition trimEnd (s : string) : string := reverse (trimStart (reverse s)).

(** [s.trim()] *)
Definition trim (s : string) : string := trimEnd (trimStart s).

(** A string is falsy exactly when it is empty: [!s]. *)
Definition isEmpty (s : string) : bool :=
  match s with EmptyString => true | String _ _ => false end.

(** [s.startsWith(p)] and [s.endsWith(p)] *)
Definition startsWith (s p : string) : bool := String.prefix p s.
Definition endsWith (s p : string) : bool :=
  String.prefix (reverse p) (reverse s).

(** [s.slice(0, n)] for [0 <= n] *)
Definition slice0 (n : nat) (s : string) : string := String.substring 0 n s.

(** [s.toLowerCase()] on code units below 256: A-Z, and the Latin-1 capitals
    0xC0-0xDE without the multiplication sign 0xD7, move up by 32. *)
Definition lowerChar (c : ascii) : ascii :=
  let n := nat_of_ascii c in
  if ((65 <=? n)%nat && (n <=? 90)%nat)
     || ((192 <=? n)%nat && (n <=? 222)%nat && negb (n =? 215)%nat)
  then ascii_of_nat (n + 32) else c.

Fixpoint toLowerCase (s : string) : string :=
  match s with
  | EmptyString => EmptyString
  | String c s' => String (lowerChar c) (toLowerCase s')
  end.

(** Every code unit of [s] is white space (true of the empty string). *)
Fixpoint allWhiteSpace (s : string) : bool :=
  match s with
  | EmptyString => true
  | String c s' => isWhiteSpace c && allWhiteSpace s'
  end.

(** [t] occurs inside [s]: [s.includes(t)]. *)
Definition includes (s t : string) : Prop :=
  exists pre post, s = pre ++ t ++ post.

End JS.

(* ================================================================== *)
(** ** JavaScript numbers *)

Inductive number : Type :=
| Fin (z : Z)
| PosInf
| NegInf
| NaN.

Module Num.

Definition isFinite (n : number) : bool :=
  match n with Fin _ => true | _ => false end.

(** [a <= b]; false as soon as one side is NaN. *)
Definition leb (a b : number) : bool :=
  match a, b with
  | NaN, _ => false
  | _, NaN => false
  | Fin x, Fin y => (x <=? y)%Z
  | NegInf, _ => true
  | _, PosInf => true
  | _, _ => false
  end.

(** [a < b] *)
Definition ltb (a b : number) : bool :=
  match a, b with
  | NaN, _ => false
  | _, NaN => false
  | Fin x, Fin y => (x <? y)%Z
  | NegInf, NegInf => false
  | NegInf, _ => true
  | PosInf, _ => false
  | _, PosInf => true
  | _, NegInf => false
  end.

(** [Math.max(a, b)] and [Math.min(a, b)]: NaN when one argument is. *)
Definition max (a b : number) : number :=
  match a, b with
  | NaN, _ => NaN
  | _, NaN => NaN
  | _, _ => if leb a b then b else a
  end.

Definition min (a b : number) : number :=
  match a, b with
  | NaN, _ => NaN
  | _, NaN => NaN
  | _, _ => if leb a b then a else b
  end.

(** [Math.round(a)]: the numbers of the model have no fractional part. *)
Definition round (a : number) : number := a.

End Num.

(* ================================================================== *)
(** ** Exceptions, buffers and the calls to the image back ends *)

(** A thrown value, as far as the code looks at it: [new Error(msg)] has the
    name "Error"; a thrown string is a value with an empty name. *)
Record JsError : Type := mkJsError { err_name : string; err_message : string }.

(** [new Error(msg)] *)
Definition Error (msg : string) : JsError :=
  {| err_name := "Error"; err_message := msg |}.

(** [String(err)], that is Error.prototype.toString. *)
Definition String_of_error (e : JsError) : string :=
  if JS.isEmpty (err_name e) then err_message e
  else if JS.isEmpty (err_message e) then err_name e
  else (err_name e ++ ": " ++ err_message e)%string.

Inductive Result (A : Type) : Type :=
| Ok (a : A)
| Throw (e : JsError).

Arguments Ok {A} a.
Arguments Throw {A} e.

Definition Buffer : Type := list byte.

(** [sharp(...).resize({ width, height, fit: "inside", withoutEnlargement })] *)
Record ResizeOptions : Type := mkResizeOptions {
  resize_width : number;
  resize_height : number;
  resize_withoutEnlargement : bool
}.

(** The encoder put at the end of a sharp pipeline: [.jpeg({ quality,
    mozjpeg })], [.webp({ quality })] or [.png()]. *)
Inductive OutputFormat : Type :=
| Jpeg (quality : number) (mozjpeg : bool)
| Webp (quality : number)
| Png.

(** [meta.width] and [meta.height] of sharp's metadata, each possibly
    undefined. *)
Record SharpMetadata : Type := mkSharpMetadata {
  meta_width : option number;
  meta_height : option number
}.

(** One call to a back end.  [SipsQuery] is the run of
    [/usr/bin/sips -g pixelWidth -g pixelHeight in.img] on a temporary copy of
    the buffer; [SipsResize b side q] is the run of
    [/usr/bin/sips -Z side -s format jpeg -s formatOptions q in.img --out out.jpg]. *)
Inductive Call : Type :=
| ImportSharp
| SharpMetadataCall (buffer : Buffer)
| SharpToBuffer (buffer : Buffer) (resize : ResizeOptions) (format : OutputFormat)
| SipsQuery (buffer : Buffer)
| SipsResize (buffer : Buffer) (side : number) (quality : number).

(** What the code takes from outside the two files. *)
Record Runtime : Type := mkRuntime {
  (** [process.env.CLAWDIS_IMAGE_BACKEND] *)
  env_CLAWDIS_IMAGE_BACKEND : option string;
  (** [typeof process.versions.bun === "string"] *)
  versions_bun_is_string : bool;
  (** [process.platform] *)
  platform : string;
  (** [Buffer.from(s, "base64")] and [buf.toString("base64")] *)
  Buffer_from_base64 : string -> Buffer;
  Buffer_toString_base64 : Buffer -> string;
  (** [detectMime({ buffer })] of ../media/mime.js *)
  detectMime : Buffer -> Result (option string);
  (** [await import("sharp")] *)
  import_sharp : Result unit;
  (** [await sharp(buffer, { failOnError: false }).metadata()] *)
  sharp_metadata : Buffer -> Result SharpMetadata;
  (** [await sharp(buffer, { failOnError: false }).resize(r).<format>.toBuffer()] *)
  sharp_toBuffer : Buffer -> ResizeOptions -> OutputFormat -> Result Buffer;
  (** the standard output of the sips query inside [withTempDir], or what
      [mkdtemp], [writeFile] or [runExec] threw *)
  sips_query : Buffer -> Result string;
  (** the bytes of out.jpg after the sips resize inside [withTempDir], or what
      [mkdtemp], [writeFile], [runExec] or [readFile] threw *)
  sips_resize : Buffer -> number -> number -> Result Buffer
}.

(** An asynchronous computation: the back-end calls it made, oldest first,
    and how it settled. *)
Definition Eff (A : Type) : Type := (list Call * Result A)%type.

Module Eff.

Definition ret {A} (a : A) : Eff A := ([], Ok a).

Definition throw {A} (e : JsError) : Eff A := ([], Throw e).

Definition bind {A B} (m : Eff A) (k : A -> Eff B) : Eff B :=
  match m with
  | (t, Ok a) => let (t', r) := k a in (t ++ t', r)
  | (t, Throw e) => (t, Throw e)
  end.

(** [try { m } catch (err) { h(err) }] *)
Definition tryCatch {A} (m : Eff A) (h : JsError -> Eff A) : Eff A :=
  match m with
  | (t, Ok a) => (t, Ok a)
  | (t, Throw e) => let (t', r) := h e in (t ++ t', r)
  end.

(** One awaited call to a back end. *)
Definition call {A} (c : Call) (r : Result A) : Eff A := ([c], r).

Definition calls {A} (m : Eff A) : list Call := fst m.
Definition result {A} (m : Eff A) : Result A := snd m.

End Eff.

Declare Scope eff_scope.
Delimit Scope eff_scope with eff.
Notation "x <- m ;; k" := (Eff.bind m (fun x => k))
  (at level 61, m at next level, right associativity) : eff_scope.
Open Scope eff_scope.

(* ================================================================== *)
(** ** src/media/image-ops.ts *)

Module ImageOps.

Local Open Scope string_scope.

Record ImageMetadata : Type := mkImageMetadata {
  width : number;
  height : number
}.

Definition isBun (rt : Runtime) : bool := versions_bun_is_string rt.

(** [v === s] for [v : string | undefined] *)
Definition strictEq (v : option string) (s : string) : bool :=
  match v with
  | Some x => String.eqb x s
  | None => false
  end.

Definition prefersSips (rt : Runtime) : bool :=
  strictEq (env_CLAWDIS_IMAGE_BACKEND rt) "sips"
  || (negb (strictEq (env_CLAWDIS_IMAGE_BACKEND rt) "sharp")
      && isBun rt
      && String.eqb (platform rt) "darwin").

Definition loadSharp (rt : Runtime) : Eff unit :=
  Eff.call ImportSharp (import_sharp rt).

(** *** The two patterns [/pixelWidth:\s*([0-9]+)/] and
    [/pixelHeight:\s*([0-9]+)/] *)

Definition isDigit (c : ascii) : bool :=
  let n := nat_of_ascii c in (48 <=? n)%nat && (n <=? 57)%nat.

Fixpoint takeDigits (s : string) : string :=
  match s with
  | EmptyString => EmptyString
  | String c s' => if isDigit c then String c (takeDigits s') else EmptyString
  end.

Fixpoint drop (n : nat) (s : string) : string :=
  match n, s with
  | O, _ => s
  | S n', String _ s' => drop n' s'
  | S _, EmptyString => EmptyString
  end.

(** The pattern [key\s*([0-9]+)] anchored at the start of [s]: the greedy
    [\s*] takes all the white space, and the group then needs a digit. *)
Definition matchHere (key s : string) : option string :=
  if String.prefix key s then
    let digits := takeDigits (JS.trimStart (drop (String.length key) s)) in
    if JS.isEmpty digits then None else Some digits
  else None.

(** [s.match(/key\s*([0-9]+)/)?.[1]]: group 1 of the leftmost match. *)
Fixpoint matchGroup1 (key s : string) : option string :=
  match matchHere key s with
  | Some d => Some d
  | None =>
      match s with
      | EmptyString => None
      | String _ s' => matchGroup1 key s'
      end
  end.

(** [Number.parseInt(s, 10)] on a string of decimal digits; NaN when [s] does
    not start with one.  The value is the exact integer: that is what the
    engine gives for up to 15 digits, while a longer string may be rounded
    to the nearest double there. *)
Fixpoint parseDigits (acc : Z) (s : string) : Z :=
  match s with
  | EmptyString => acc
  | String c s' =>
      if isDigit c
      then parseDigits (10 * acc + Z.of_nat (nat_of_ascii c - 48)) s'
      else acc
  end.

Definition parseInt10 (s : string) : number :=
  match s with
  | EmptyString => NaN
  | String c _ => if isDigit c then Fin (parseDigits 0 s) else NaN
  end.

Definition sipsMetadataFromBuffer (rt : Runtime) (buffer : Buffer)
  : Eff (option ImageMetadata) :=
  stdout <- Eff.call (SipsQuery buffer) (sips_query rt buffer) ;;
  match matchGroup1 "pixelWidth:" stdout, matchGroup1 "pixelHeight:" stdout with
  | Some w1, Some h1 =>
      if JS.isEmpty w1 || JS.isEmpty h1 then Eff.ret None
      else
        let width := parseInt10 w1 in
        let height := parseInt10 h1 in
        if negb (Num.isFinite width) || negb (Num.isFinite height)
        then Eff.ret None
        else if Num.leb width (Fin 0) || Num.leb height (Fin 0)
        then Eff.ret None
        else Eff.ret (Some {| width := width; height := height |})
  | _, _ => Eff.ret None
  end.

Record SipsResizeParams : Type := mkSipsResizeParams {
  sr_buffer : Buffer;
  sr_maxSide : number;
  sr_quality : number
}.

Definition sipsResizeToJpeg (rt : Runtime) (params : SipsResizeParams)
  : Eff Buffer :=
  let side := Num.max (Fin 1) (Num.round (sr_maxSide params)) in
  let q := Num.max (Fin 1) (Num.min (Fin 100) (Num.round (sr_quality params))) in
  Eff.call (SipsResize (sr_buffer params) side q)
           (sips_resize rt (sr_buffer params) side q).

(** [Number(v ?? 0)] for [v : number | undefined] *)
Definition orZero (v : option number) : number :=
  match v with
  | Some n => n
  | None => Fin 0
  end.

Definition getImageMetadata (rt : Runtime) (buffer : Buffer)
  : Eff (option ImageMetadata) :=
  if prefersSips rt then
    Eff.tryCatch (sipsMetadataFromBuffer rt buffer) (fun _ => Eff.ret None)
  else
    Eff.tryCatch
      (_ <- loadSharp rt ;;
       meta <- Eff.call (SharpMetadataCall buffer) (sharp_metadata rt buffer) ;;
       let width := orZero (meta_width meta) in
       let height := orZero (meta_height meta) in
       if negb (Num.isFinite width) || negb (Num.isFinite height)
       then Eff.ret None
       else if Num.leb width (Fin 0) || Num.leb height (Fin 0)
       then Eff.ret None
       else Eff.ret (Some {| width := width; height := height |}))
      (fun _ => Eff.ret None).

Record ResizeToJpegParams : Type := mkResizeToJpegParams {
  buffer : Buffer;
  maxSide : number;
  quality : number;
  (** [withoutEnlargement?: boolean] *)
  withoutEnlargement : option bool
}.

(** [v !== false] for [v : boolean | undefined] *)
Definition notFalse (v : option bool) : bool :=
  match v with
  | Some false => false
  | _ => true
  end.

Definition resizeToJpeg (rt : Runtime) (params : ResizeToJpegParams)
  : Eff Buffer :=
  if prefersSips rt then
    let requested :=
      sipsResizeToJpeg rt
        {| sr_buffer := buffer params;
           sr_maxSide := maxSide params;
           sr_quality := quality params |} in
    if notFalse (withoutEnlargement params) then
      meta <- getImageMetadata rt (buffer params) ;;
      match meta with
      | Some m =>
          let maxDim := Num.max (width m) (height m) in
          if Num.ltb (Fin 0) maxDim && Num.leb maxDim (maxSide params) then
            sipsResizeToJpeg rt
              {| sr_buffer := buffer params;
                 sr_maxSide := maxDim;
                 sr_quality := quality params |}
          else requested
      | None => requested
      end
    else requested
  else
    _ <- loadSharp rt ;;
    let r := {| resize_width := maxSide params;
                resize_height := maxSide params;
                resize_withoutEnlargement := notFalse (withoutEnlargement params) |} in
    let f := Jpeg (quality params) true in
    Eff.call (SharpToBuffer (buffer params) r f)
             (sharp_toBuffer rt (buffer params) r f).

End ImageOps.

(* ================================================================== *)
(** ** src/agents/pi-tools.ts *)

Module PiTools.

Import ImageOps.
Local Open Scope string_scope.

(** *** Content blocks as the code inspects them

    The code trusts no static type: it checks [typeof] and the [type], [data],
    [mimeType] and [text] properties at run time.  A property is undefined, a
    string, or something else the code never looks into. *)
Inductive JsValue : Type :=
| Undefined
| Str (s : string)
| Opaque (tag : nat).

Record BlockObject : Type := mkBlockObject {
  type : JsValue;
  data : JsValue;
  mimeType : JsValue;
  text : JsValue;
  (** every other property, carried along by the spread [{ ...block }] *)
  others : list (string * JsValue)
}.

(** An element of [content]: an object, or a value for which
    [!!b && typeof b === "object"] is false. *)
Inductive ToolContentBlock : Type :=
| Obj (o : BlockObject)
| NotObject (v : JsValue).

(** [result.content] is [None] when [Array.isArray] rejects it. *)
Record AgentToolResult : Type := mkAgentToolResult {
  content : option (list ToolContentBlock);
  details : list (string * JsValue)
}.

(** A block narrowed to [ImageContentBlock]: the object and its two string
    properties. *)
Record ImageContentBlock : Type := mkImageContentBlock {
  img_block : BlockObject;
  img_data : string;
  img_mimeType : string
}.

Definition MAX_IMAGE_DIMENSION_PX : number := Fin 2000.

(** [v === s] for a property value *)
Definition propEq (v : JsValue) (s : string) : bool :=
  match v with
  | Str x => String.eqb x s
  | _ => false
  end.

Definition sniffMimeFromBase64 (rt : Runtime) (base64 : string) : option string :=
  let trimmed := JS.trim base64 in
  if JS.isEmpty trimmed then None
  else
    let take := Nat.min 256 (String.length trimmed) in
    let sliceLen := take - (take mod 4) in
    if (sliceLen <? 8)%nat then None
    else
      let head := Buffer_from_base64 rt (JS.slice0 sliceLen trimmed) in
      match detectMime rt head with
      | Ok r => r
      | Throw _ => None
      end.

Definition rewriteReadImageHeader (text mimeType : string) : string :=
  if JS.startsWith text "Read image file [" && JS.endsWith text "]"
  then "Read image file [" ++ mimeType ++ "]"
  else text.

(** The type guard [isImageBlock], with what it narrows to; the predicate
    given to [content.find] in [normalizeReadImageResult] is the same test. *)
Definition asImageBlock (block : ToolContentBlock) : option ImageContentBlock :=
  match block with
  | NotObject _ => None
  | Obj rec =>
      if propEq (type rec) "image" then
        match data rec, mimeType rec with
        | Str d, Str m =>
            Some {| img_block := rec; img_data := d; img_mimeType := m |}
        | _, _ => None
        end
      else None
  end.

Definition isImageBlock (block : ToolContentBlock) : bool :=
  match asImageBlock block with Some _ => true | None => false end.

Definition isTextBlock (block : ToolContentBlock) : bool :=
  match block with
  | NotObject _ => false
  | Obj rec =>
      propEq (type rec) "text"
      && match text rec with Str _ => true | _ => false end
  end.

(** [content.find(isImage)] *)
Fixpoint findImage (content : list ToolContentBlock) : option ImageContentBlock :=
  match content with
  | [] => None
  | b :: rest =>
      match asImageBlock b with
      | Some image => Some image
      | None => findImage rest
      end
  end.

(** [{ ...b, mimeType: m }] *)
Definition withMimeType (b : BlockObject) (m : string) : BlockObject :=
  {| type := type b; data := data b; mimeType := Str m; text := text b;
     others := others b |}.

(** [{ ...b, text: t }] *)
Definition withText (b : BlockObject) (t : string) : BlockObject :=
  {| type := type b; data := data b; mimeType := mimeType b; text := Str t;
     others := others b |}.

(** [{ ...block, data: d, mimeType: m }] *)
Definition withDataMimeType (b : BlockObject) (d m : string) : BlockObject :=
  {| type := type b; data := Str d; mimeType := Str m; text := text b;
     others := others b |}.

(** [{ type: "text", text: t }] *)
Definition textBlock (t : string) : ToolContentBlock :=
  Obj {| type := Str "text"; data := Undefined; mimeType := Undefined;
         text := Str t; others := [] |}.

(** The callback of [content.map] in [normalizeReadImageResult]. *)
Definition relabel (sniffed : string) (block : ToolContentBlock) : ToolContentBlock :=
  match block with
  | NotObject _ => block
  | Obj b =>
      if propEq (type b) "image" then Obj (withMimeType b sniffed)
      else if propEq (type b) "text" then
        match text b with
        | Str t => Obj (withText b (rewriteReadImageHeader t sniffed))
        | _ => block
        end
      else block
  end.

(** [Array.isArray(result.content) ? result.content : []] *)
Definition contentOf (result : AgentToolResult) : list ToolContentBlock :=
  match content result with
  | Some c => c
  | None => []
  end.

Definition normalizeReadImageResult (rt : Runtime) (result : AgentToolResult)
    (filePath : string) : Result AgentToolResult :=
  let content := contentOf result in
  match findImage content with
  | None => Ok result
  | Some image =>
      if JS.isEmpty (JS.trim (img_data image)) then
        Throw (Error ("read: image payload is empty (" ++ filePath ++ ")"))
      else
        match sniffMimeFromBase64 rt (img_data image) with
        | None => Ok result
        | Some sniffed =>
            if JS.isEmpty sniffed then Ok result
            else if negb (JS.startsWith sniffed "image/") then
              Throw (Error ("read: file looks like " ++ sniffed
                            ++ " but was treated as " ++ img_mimeType image
                            ++ " (" ++ filePath ++ ")"))
            else if String.eqb sniffed (img_mimeType image) then Ok result
            else
              let nextContent := map (relabel sniffed) content in
              Ok {| content := Some nextContent; details := details result |}
        end
  end.

Record ResizeParams : Type := mkResizeParams {
  base64 : string;
  rp_mimeType : string;
  maxDimensionPx : number
}.

Record Resized : Type := mkResized {
  out_base64 : string;
  out_mimeType : string;
  resized : bool
}.

(** The body of the [try] in [resizeImageBase64IfNeeded]: sharp, with the
    encoder picked from the lower-cased declared type. *)
Definition sharpResize (rt : Runtime) (buf : Buffer) (mime : string)
    (maxDimensionPx : number) : Eff Buffer :=
  _ <- Eff.call ImportSharp (import_sharp rt) ;;
  let img := {| resize_width := maxDimensionPx;
                resize_height := maxDimensionPx;
                resize_withoutEnlargement := true |} in
  if String.eqb mime "image/jpeg" || String.eqb mime "image/jpg" then
    Eff.call (SharpToBuffer buf img (Jpeg (Fin 85) false))
             (sharp_toBuffer rt buf img (Jpeg (Fin 85) false))
  else if String.eqb mime "image/webp" then
    Eff.call (SharpToBuffer buf img (Webp (Fin 85)))
             (sharp_toBuffer rt buf img (Webp (Fin 85)))
  else if String.eqb mime "image/png" then
    Eff.call (SharpToBuffer buf img Png) (sharp_toBuffer rt buf img Png)
  else
    Eff.call (SharpToBuffer buf img Png) (sharp_toBuffer rt buf img Png).

Definition resizeImageBase64IfNeeded (rt : Runtime) (params : ResizeParams)
  : Eff Resized :=
  let buf := Buffer_from_base64 rt (base64 params) in
  meta <- getImageMetadata rt buf ;;
  let keep :=
    match meta with
    | None => true
    | Some m =>
        Num.leb (width m) (maxDimensionPx params)
        && Num.leb (height m) (maxDimensionPx params)
    end in
  if keep then
    Eff.ret {| out_base64 := base64 params;
               out_mimeType := rp_mimeType params;
               resized := false |}
  else
    let mime := JS.toLowerCase (rp_mimeType params) in
    out <- Eff.tryCatch
             (sharpResize rt buf mime (maxDimensionPx params))
             (fun _ =>
                resizeToJpeg rt
                  {| buffer := buf;
                     maxSide := maxDimensionPx params;
                     quality := Fin 85;
                     withoutEnlargement := Some true |}) ;;
    match detectMime rt (firstn 256 out) with
    | Throw e => Eff.throw e
    | Ok sniffed =>
        let nextMime :=
          match sniffed with
          | Some s => if JS.startsWith s "image/" then s else rp_mimeType params
          | None => rp_mimeType params
          end in
        Eff.ret {| out_base64 := Buffer_toString_base64 rt out;
                   out_mimeType := nextMime;
                   resized := true |}
    end.

(** [opts: { maxDimensionPx?: number } = {}] *)
Record SanitizeOpts : Type := mkSanitizeOpts {
  opt_maxDimensionPx : option number
}.

Definition noOpts : SanitizeOpts := {| opt_maxDimensionPx := None |}.

(** [Math.max(opts.maxDimensionPx ?? MAX_IMAGE_DIMENSION_PX, 1)] *)
Definition effectiveMax (opts : SanitizeOpts) : number :=
  Num.max
    (match opt_maxDimensionPx opts with
     | Some n => n
     | None => MAX_IMAGE_DIMENSION_PX
     end)
    (Fin 1).

Definition emptyPayloadText (label : string) : string :=
  "[" ++ label ++ "] omitted empty image payload".

Definition failedPayloadText (label : string) (err : JsError) : string :=
  "[" ++ label ++ "] omitted image payload: " ++ String_of_error err.

(** The [for (const block of blocks)] loop; [out] is the array being pushed
    to. *)
Fixpoint sanitizeLoop (rt : Runtime) (label : string) (maxDimensionPx : number)
    (blocks out : list ToolContentBlock) : Eff (list ToolContentBlock) :=
  match blocks with
  | [] => Eff.ret out
  | block :: rest =>
      match asImageBlock block with
      | None => sanitizeLoop rt label maxDimensionPx rest (out ++ [block])%list
      | Some image =>
          let data := JS.trim (img_data image) in
          if JS.isEmpty data then
            sanitizeLoop rt label maxDimensionPx rest
              (out ++ [textBlock (emptyPayloadText label)])%list
          else
            out' <- Eff.tryCatch
                      (r <- resizeImageBase64IfNeeded rt
                              {| base64 := data;
                                 rp_mimeType := img_mimeType image;
                                 maxDimensionPx := maxDimensionPx |} ;;
                       Eff.ret (out ++ [Obj (withDataMimeType (img_block image)
                                               (out_base64 r) (out_mimeType r))])%list)
                      (fun err =>
                         Eff.ret (out ++ [textBlock (failedPayloadText label err)])%list) ;;
            sanitizeLoop rt label maxDimensionPx rest out'
      end
  end.

Definition sanitizeContentBlocksImages (rt : Runtime)
    (blocks : list ToolContentBlock) (label : string) (opts : SanitizeOpts)
  : Eff (list ToolContentBlock) :=
  sanitizeLoop rt label (effectiveMax opts) blocks [].

Definition sanitizeToolResultImages (rt : Runtime) (result : AgentToolResult)
    (label : string) (opts : SanitizeOpts) : Eff AgentToolResult :=
  let content := contentOf result in
  if negb (existsb (fun b => isImageBlock b || isTextBlock b) content)
  then Eff.ret result
  else
    next <- sanitizeContentBlocksImages rt content label opts ;;
    Eff.ret {| content := Some next; details := details result |}.

End PiTools.

(* ================================================================== *)
(** ** Two concrete runtimes

    The examples run the code in a Node process on Linux with sharp
    installed, and in a Bun process on macOS without it.  Images are PNG
    headers: the 8 signature bytes and the IHDR chunk with its width and
    height. *)

Module Demo.

Import ImageOps PiTools.
Local Open Scope string_scope.

(** *** The runtime's base64 codec *)

Definition sextet (c : ascii) : option N :=
  let n := N_of_ascii c in
  if ((65 <=? n) && (n <=? 90))%N then Some (n - 65)%N
  else if ((97 <=? n) && (n <=? 122))%N then Some (n - 71)%N
  else if ((48 <=? n) && (n <=? 57))%N then Some (n + 4)%N
  else if ((n =? 43) || (n =? 45))%N then Some 62%N
  else if ((n =? 47) || (n =? 95))%N then Some 63%N
  else None.

(** The 6-bit values up to the first [=]; white space and any other code unit
    outside the alphabet is skipped. *)
Fixpoint sextets (s : string) : list N :=
  match s with
  | EmptyString => []
  | String c s' =>
      if (N_of_ascii c =? 61)%N then []
      else match sextet c with
           | Some v => v :: sextets s'
           | None => sextets s'
           end
  end.

Definition byteOfN (n : N) : byte :=
  match Byte.of_N (n mod 256) with
  | Some b => b
  | None => x00
  end.

Fixpoint packSextets (l : list N) : Buffer :=
  match l with
  | a :: b :: c :: d :: rest =>
      byteOfN (a * 4 + b / 16)
      :: byteOfN ((b mod 16) * 16 + c / 4)
      :: byteOfN ((c mod 4) * 64 + d)
      :: packSextets rest
  | [a; b; c] => [byteOfN (a * 4 + b / 16); byteOfN ((b mod 16) * 16 + c / 4)]
  | [a; b] => [byteOfN (a * 4 + b / 16)]
  | _ => []
  end%N.

Definition fromBase64 (s : string) : Buffer := packSextets (sextets s).

Definition alphabet (n : N) : ascii :=
  if (n <? 26)%N then ascii_of_N (n + 65)
  else if (n <? 52)%N then ascii_of_N (n + 71)
  else if (n <? 62)%N then ascii_of_N (n - 4)
  else if (n =? 62)%N then "+"%char
  else "/"%char.

Fixpoint toBase64 (l : Buffer) : string :=
  match l with
  | [] => EmptyString
  | [a] =>
      let x := Byte.to_N a in
      String (alphabet (x / 4)) (String (alphabet ((x mod 4) * 16)) "==")
  | [a; b] =>
      let x := Byte.to_N a in
      let y := Byte.to_N b in
      String (alphabet (x / 4))
        (String (alphabet ((x mod 4) * 16 + y / 16))
           (String (alphabet ((y mod 16) * 4)) "="))
  | a :: b :: c :: rest =>
      let x := Byte.to_N a in
      let y := Byte.to_N b in
      let z := Byte.to_N c in
      String (alphabet (x / 4))
        (String (alphabet ((x mod 4) * 16 + y / 16))
           (String (alphabet ((y mod 16) * 4 + z / 64))
              (String (alphabet (z mod 64)) (toBase64 rest))))
  end%N.

(** *** Magic bytes *)

Fixpoint startsWithBytes (sig buf : Buffer) : bool :=
  match sig, buf with
  | [], _ => true
  | _ :: _, [] => false
  | s :: sig', b :: buf' => Byte.eqb s b && startsWithBytes sig' buf'
  end.

Definition pngSignature : Buffer := [x89; x50; x4e; x47; x0d; x0a; x1a; x0a].
Definition jpegSignature : Buffer := [xff; xd8; xff].
Definition gif87a : Buffer := [x47; x49; x46; x38; x37; x61].
Definition gif89a : Buffer := [x47; x49; x46; x38; x39; x61].
Definition riff : Buffer := [x52; x49; x46; x46].
Definition webp : Buffer := [x57; x45; x42; x50].
Definition pdf : Buffer := [x25; x50; x44; x46; x2d].
Definition ihdr : Buffer := [x49; x48; x44; x52].

(** Modelled from the spec: [detectMime] of ../media/mime.js is not among the
    sources.  The spec (4.1, 8) describes it as a classifier of a byte buffer
    by magic-byte signatures that answers unknown when no signature matches,
    "image/jpeg" on JPEG magic bytes and "image/png" on a PNG file's bytes;
    the signatures below are the formats' published ones. *)
Definition detectMimeByMagic (buf : Buffer) : option string :=
  if startsWithBytes jpegSignature buf then Some "image/jpeg"
  else if startsWithBytes pngSignature buf then Some "image/png"
  else if startsWithBytes gif87a buf || startsWithBytes gif89a buf
  then Some "image/gif"
  else if startsWithBytes riff buf && startsWithBytes webp (skipn 8 buf)
  then Some "image/webp"
  else if startsWithBytes pdf buf then Some "application/pdf"
  else None.

(** *** A stand-in for the two back ends, on PNG headers *)

Definition be32 (l : Buffer) : Z :=
  fold_left (fun acc b => acc * 256 + Z.of_N (Byte.to_N b))%Z l 0%Z.

Definition be32Bytes (z : Z) : Buffer :=
  let n := Z.to_N z in
  [byteOfN (n / 16777216); byteOfN (n / 65536); byteOfN (n / 256); byteOfN n]%N.

Definition pngDimensions (buf : Buffer) : option (Z * Z) :=
  if startsWithBytes pngSignature buf
     && startsWithBytes ihdr (skipn 12 buf)
     && (24 <=? List.length buf)%nat
  then Some (be32 (firstn 4 (skipn 16 buf)), be32 (firstn 4 (skipn 20 buf)))
  else None.

Definition pngHeader (w h : Z) : Buffer :=
  (pngSignature ++ [x00; x00; x00; x0d] ++ ihdr ++ be32Bytes w ++ be32Bytes h)%list.

Definition jpegHeader : Buffer :=
  [xff; xd8; xff; xe0; x00; x10; x4a; x46; x49; x46; x00; x01].

Definition webpHeader : Buffer :=
  (riff ++ [x1a; x00; x00; x00] ++ webp ++ [x56; x50; x38; x20])%list.

Definition unsupported : JsError :=
  Error "Input buffer contains unsupported image format".

Definition decodeMetadata (buf : Buffer) : Result SharpMetadata :=
  match pngDimensions buf with
  | Some (w, h) =>
      Ok {| meta_width := Some (Fin w); meta_height := Some (Fin h) |}
  | None => Throw unsupported
  end.

(** The size after [fit: "inside"]. *)
Definition fitInside (w h : Z) (r : ResizeOptions) : Z * Z :=
  match resize_width r with
  | Fin m =>
      if ((w <=? m) && (h <=? m))%Z && resize_withoutEnlargement r then (w, h)
      else (Z.max 1 (w * m / Z.max w h), Z.max 1 (h * m / Z.max w h))
  | _ => (w, h)
  end.

Definition encode (buf : Buffer) (r : ResizeOptions) (f : OutputFormat)
  : Result Buffer :=
  match pngDimensions buf with
  | None => Throw unsupported
  | Some (w, h) =>
      match f with
      | Png => let (w', h') := fitInside w h r in Ok (pngHeader w' h')
      | Jpeg _ _ => Ok jpegHeader
      | Webp _ => Ok webpHeader
      end
  end.

Definition newline : string := String "010"%char EmptyString.

Definition decimal (z : Z) : string :=
  DecimalString.NilZero.string_of_uint (N.to_uint (Z.to_N z)).

Definition sipsReport (buf : Buffer) : Result string :=
  match pngDimensions buf with
  | Some (w, h) =>
      Ok ("/tmp/clawdis-img-x/in.img" ++ newline
          ++ "  pixelWidth: " ++ decimal w ++ newline
          ++ "  pixelHeight: " ++ decimal h ++ newline)
  | None => Throw (Error "Command failed: /usr/bin/sips")
  end.

Definition noSips : JsError := Error "spawn /usr/bin/sips ENOENT".

(** Node on Linux, sharp installed, no sips. *)
Definition nodeLinux : Runtime :=
  {| env_CLAWDIS_IMAGE_BACKEND := None;
     versions_bun_is_string := false;
     platform := "linux";
     Buffer_from_base64 := fromBase64;
     Buffer_toString_base64 := toBase64;
     detectMime := fun buf => Ok (detectMimeByMagic buf);
     import_sharp := Ok tt;
     sharp_metadata := decodeMetadata;
     sharp_toBuffer := encode;
     sips_query := fun _ => Throw noSips;
     sips_resize := fun _ _ _ => Throw noSips |}.

(** Bun on macOS: sharp does not load, sips is there. *)
Definition bunDarwin : Runtime :=
  {| env_CLAWDIS_IMAGE_BACKEND := None;
     versions_bun_is_string := true;
     platform := "darwin";
     Buffer_from_base64 := fromBase64;
     Buffer_toString_base64 := toBase64;
     detectMime := fun buf => Ok (detectMimeByMagic buf);
     import_sharp := Throw (Error "Cannot find module sharp");
     sharp_metadata := fun _ => Throw (Error "Cannot find module sharp");
     sharp_toBuffer := fun _ _ _ => Throw (Error "Cannot find module sharp");
     sips_query := sipsReport;
     sips_resize := fun _ _ _ => Ok jpegHeader |}.

(** Node on Linux with [CLAWDIS_IMAGE_BACKEND=sips] in the environment. *)
Definition nodeLinuxForcedSips : Runtime :=
  {| env_CLAWDIS_IMAGE_BACKEND := Some "sips";
     versions_bun_is_string := false;
     platform := "linux";
     Buffer_from_base64 := fromBase64;
     Buffer_toString_base64 := toBase64;
     detectMime := fun buf => Ok (detectMimeByMagic buf);
     import_sharp := Ok tt;
     sharp_metadata := decodeMetadata;
     sharp_toBuffer := encode;
     sips_query := fun _ => Throw noSips;
     sips_resize := fun _ _ _ => Throw noSips |}.

(** Bun on macOS with a sips whose resize run fails. *)
Definition sipsFailed : JsError := Error "Command failed: /usr/bin/sips -Z".

Definition bunDarwinSipsFails : Runtime :=
  {| env_CLAWDIS_IMAGE_BACKEND := None;
     versions_bun_is_string := true;
     platform := "darwin";
     Buffer_from_base64 := fromBase64;
     Buffer_toString_base64 := toBase64;
     detectMime := fun buf => Ok (detectMimeByMagic buf);
     import_sharp := Throw (Error "Cannot find module sharp");
     sharp_metadata := fun _ => Throw (Error "Cannot find module sharp");
     sharp_toBuffer := fun _ _ _ => Throw (Error "Cannot find module sharp");
     sips_query := sipsReport;
     sips_resize := fun _ _ _ => Throw sipsFailed |}.

(** *** Payloads and blocks *)

(** The base64 text of a PNG header of 10 x 10, 640 x 480 and 4000 x 3000
    pixels, of the six bytes "GIF89a", and of a text file. *)
Definition png10x10 : string := "iVBORw0KGgoAAAANSUhEUgAAAAoAAAAK".
Definition png640x480 : string := "iVBORw0KGgoAAAANSUhEUgAAAoAAAAHg".
Definition png4000x3000 : string := "iVBORw0KGgoAAAANSUhEUgAAD6AAAAu4".
Definition gif6 : string := "R0lGODlh".
Definition pdfText : string := "JVBERi0xLjcKJWFiYw==".
Definition plainText : string := "aGVsbG8gd29ybGQsIHBsYWluIHRleHQ=".

Definition imageBlock (d m : string) : ToolContentBlock :=
  Obj {| type := Str "image"; data := Str d; mimeType := Str m;
         text := Undefined; others := [] |}.

End Demo.

(* ================================================================== *)
(** ** Notions used by the statements *)

Module Props.

Import ImageOps PiTools.
Local Open Scope string_scope.

(** What one turn of the loop of [sanitizeContentBlocksImages] pushes onto
    [out], with the back-end calls the turn makes: the loop body, read off
    [sanitizeLoop]. *)
Definition turn (rt : Runtime) (label : string) (maxDimensionPx : number)
    (block : ToolContentBlock) : list Call * ToolContentBlock :=
  match asImageBlock block with
  | None => ([], block)
  | Some image =>
      let data := JS.trim (img_data image) in
      if JS.isEmpty data then ([], textBlock (emptyPayloadText label))
      else
        match resizeImageBase64IfNeeded rt
                {| base64 := data;
                   rp_mimeType := img_mimeType image;
                   maxDimensionPx := maxDimensionPx |} with
        | (t, Ok r) =>
            (t, Obj (withDataMimeType (img_block image)
                       (out_base64 r) (out_mimeType r)))
        | (t, Throw err) => (t, textBlock (failedPayloadText label err))
        end
  end.

(** The request [sanitizeLoop] makes for an image block. *)
Definition requestFor (image : ImageContentBlock) (maxDimensionPx : number)
  : ResizeParams :=
  {| base64 := JS.trim (img_data image);
     rp_mimeType := img_mimeType image;
     maxDimensionPx := maxDimensionPx |}.

(** The re-encoding inside [resizeImageBase64IfNeeded]: sharp first, and
    [resizeToJpeg] when that throws. *)
Definition reencode (rt : Runtime) (buf : Buffer) (declared : string)
    (maxDimensionPx : number) : Eff Buffer :=
  Eff.tryCatch
    (sharpResize rt buf (JS.toLowerCase declared) maxDimensionPx)
    (fun _ =>
       resizeToJpeg rt
         {| buffer := buf;
            maxSide := maxDimensionPx;
            quality := Fin 85;
            withoutEnlargement := Some true |}).

(** A call that re-encodes an image. *)
Definition isEncode (c : Call) : bool :=
  match c with
  | SharpToBuffer _ _ _ => true
  | SipsResize _ _ _ => true
  | _ => false
  end.

(** The probe the sanitizer runs on an image block: the metadata of the
    decoded, trimmed payload. *)
Definition probe (rt : Runtime) (image : ImageContentBlock)
  : Result (option ImageMetadata) :=
  Eff.result
    (getImageMetadata rt (Buffer_from_base64 rt (JS.trim (img_data image)))).

(** Both sides of [m] are at most [limit]. *)
Definition within (m : ImageMetadata) (limit : number) : bool :=
  Num.leb (width m) limit && Num.leb (height m) limit.

(** The image block forwarded as it came, but for the white space around its
    payload. *)
Definition forwarded (image : ImageContentBlock) : ToolContentBlock :=
  Obj (withDataMimeType (img_block image) (JS.trim (img_data image))
         (img_mimeType image)).

(** An output block is verified: if it is an image block, its mimeType is the
    one sniffed from its payload and the probe finds both sides within the
    limit. *)
Definition verified (rt : Runtime) (limit : number) (b : ToolContentBlock)
  : Prop :=
  forall image,
    asImageBlock b = Some image ->
    sniffMimeFromBase64 rt (img_data image) = Some (img_mimeType image)
    /\ exists m, probe rt image = Ok (Some m) /\ within m limit = true.

(** The sniffer classifies the payload as [s]: a non-empty answer, since
    [!sniffed] takes the empty string for undefined. *)
Definition classifiedAs (rt : Runtime) (payload s : string) : Prop :=
  sniffMimeFromBase64 rt payload = Some s /\ s <> "".

(** The three encoders of the native path, and the family the claim assigns
    to a lower-cased declared type. *)
Inductive Family : Type := JPEG | WEBP | PNG.

Definition familyOf (f : OutputFormat) : Family :=
  match f with
  | Jpeg _ _ => JPEG
  | Webp _ => WEBP
  | Png => PNG
  end.

Definition declaredFamily (lower : string) : Family :=
  if String.eqb lower "image/jpeg" then JPEG
  else if String.eqb lower "image/jpg" then JPEG
  else if String.eqb lower "image/webp" then WEBP
  else PNG.

(** The header text the read tool writes for a MIME type. *)
Definition readHeader (mime : string) : string :=
  "Read image file [" ++ mime ++ "]".

(** The three inputs of the backend policy. *)
Definition policyInputs (rt : Runtime) : option string * bool * string :=
  (env_CLAWDIS_IMAGE_BACKEND rt, versions_bun_is_string rt, platform rt).

End Props.

(* ================================================================== *)
(** ** src/agents/pi-tools.ts: the tool wrappers *)

Module Tools.

Import PiTools.
Local Open Scope string_scope.

(** [params] as [execute] looks at it: a value for which
    [params && typeof params === "object"] is false, or an object with its
    [path] property. *)
Inductive ToolParams : Type :=
| ParamsNotObject (v : JsValue)
| ParamsObject (path : JsValue) (rest : list (string * JsValue)).

Record AnyAgentTool : Type := mkAnyAgentTool {
  name : string;
  (** [execute(toolCallId, params, signal)] *)
  execute : string -> ToolParams -> JsValue -> Eff AgentToolResult;
  (** every other property, carried along by the spread [{ ...base }] *)
  tool_rest : list (string * JsValue)
}.

(** [typeof record?.path === "string" ? String(record.path) : "<unknown>"] *)
Definition filePathOf (params : ToolParams) : string :=
  match params with
  | ParamsObject (Str p) _ => p
  | _ => "<unknown>"
  end.

(** A synchronous call inside an [async] function: a throw rejects. *)
Definition liftResult {A} (r : Result A) : Eff A := ([], r).

Definition createClawdisReadTool (rt : Runtime) (base : AnyAgentTool)
  : AnyAgentTool :=
  {| name := name base;
     execute := fun toolCallId params signal =>
       result <- execute base toolCallId params signal ;;
       let filePath := filePathOf params in
       normalized <- liftResult (normalizeReadImageResult rt result filePath) ;;
       sanitizeToolResultImages rt normalized ("read:" ++ filePath) noOpts;
     tool_rest := tool_rest base |}.

Definition createClawdisBashTool (rt : Runtime) (base : AnyAgentTool)
  : AnyAgentTool :=
  {| name := name base;
     execute := fun toolCallId params signal =>
       result <- execute base toolCallId params signal ;;
       sanitizeToolResultImages rt result "bash" noOpts;
     tool_rest := tool_rest base |}.

(** [codingTools], [readTool] and [bashTool] come from
    @mariozechner/pi-coding-agent. *)
Definition createClawdisCodingTools (rt : Runtime)
    (codingTools : list AnyAgentTool) (readTool bashTool : AnyAgentTool)
  : list AnyAgentTool :=
  map (fun tool =>
         if String.eqb (name tool) (name readTool)
         then createClawdisReadTool rt tool
         else if String.eqb (name tool) (name bashTool)
         then createClawdisBashTool rt tool
         else tool)
      codingTools.

End Tools.

(* ================================================================== *)
(** ** src/media/image-ops.ts: the temporary directory and the sips runs

    [ImageOps] takes a sips run as one answer of the runtime.  Here the two
    sips functions are embedded with the file operations they are made of.
    The host answers an operation from the operations performed before it, so
    that what sips prints can depend on the file written. *)

Module TempFiles.

Import ImageOps.
Local Open Scope string_scope.

Inductive FsOp : Type :=
| Mkdtemp (prefix : string)
| WriteFile (path : string) (data : Buffer)
| RunExec (command : string) (args : list string) (timeoutMs maxBuffer : Z)
| ReadFile (path : string)
(** [fs.rm(path, { recursive: true, force: true })] *)
| Rm (path : string).

Record Host : Type := mkHost {
  (** [os.tmpdir()] and [path.join(a, b)] *)
  os_tmpdir : string;
  path_join : string -> string -> string;
  (** [String(n)] *)
  String_of_number : number -> string;
  fs_mkdtemp : list FsOp -> string -> Result string;
  fs_writeFile : list FsOp -> string -> Buffer -> Result unit;
  (** the [stdout] of [runExec(command, args, { timeoutMs, maxBuffer })] *)
  runExec : list FsOp -> string -> list string -> Z -> Z -> Result string;
  fs_readFile : list FsOp -> string -> Result Buffer;
  fs_rm : list FsOp -> string -> Result unit
}.

(** An asynchronous computation over the file system: from the operations
    performed so far, oldest first, to the operations performed after it and
    how it settled. *)
Definition Fs (A : Type) : Type := list FsOp -> list FsOp * Result A.

Definition ret {A} (a : A) : Fs A := fun past => (past, Ok a).

Definition bind {A B} (m : Fs A) (k : A -> Fs B) : Fs B :=
  fun past =>
    match m past with
    | (past', Ok a) => k a past'
    | (past', Throw e) => (past', Throw e)
    end.

(** One awaited operation. *)
Definition perform {A} (op : FsOp) (answer : list FsOp -> Result A) : Fs A :=
  fun past => ((past ++ [op])%list, answer past).

(** [try { return await m } finally { await f }] *)
Definition tryFinally {A} (m : Fs A) (f : Fs unit) : Fs A :=
  fun past =>
    let (past', r) := m past in
    match f past' with
    | (past'', Ok _) => (past'', r)
    | (past'', Throw e) => (past'', Throw e)
    end.

(** [m.catch(() => {})] *)
Definition swallow (m : Fs unit) : Fs unit :=
  fun past => let (past', _) := m past in (past', Ok tt).

Definition tempPrefix (h : Host) : string :=
  path_join h (os_tmpdir h) "clawdis-img-".

Definition withTempDir {T} (h : Host) (fn : string -> Fs T) : Fs T :=
  bind (perform (Mkdtemp (tempPrefix h))
          (fun past => fs_mkdtemp h past (tempPrefix h)))
       (fun dir =>
          tryFinally (fn dir)
            (swallow (perform (Rm dir) (fun past => fs_rm h past dir)))).

(** What [sipsMetadataFromBuffer] makes of the standard output. *)
Definition parseReport (stdout : string) : option ImageMetadata :=
  match matchGroup1 "pixelWidth:" stdout, matchGroup1 "pixelHeight:" stdout with
  | Some w1, Some h1 =>
      if JS.isEmpty w1 || JS.isEmpty h1 then None
      else
        let width := parseInt10 w1 in
        let height := parseInt10 h1 in
        if negb (Num.isFinite width) || negb (Num.isFinite height) then None
        else if Num.leb width (Fin 0) || Num.leb height (Fin 0) then None
        else Some {| width := width; height := height |}
  | _, _ => None
  end.

Definition queryArgs (input : string) : list string :=
  ["-g"; "pixelWidth"; "-g"; "pixelHeight"; input].

(** The callback given to [withTempDir] in [sipsMetadataFromBuffer], up to
    the standard output. *)
Definition runQuery (h : Host) (buffer : Buffer) (dir : string) : Fs string :=
  let input := path_join h dir "in.img" in
  bind (perform (WriteFile input buffer)
          (fun past => fs_writeFile h past input buffer))
       (fun _ =>
          perform (RunExec "/usr/bin/sips" (queryArgs input) 10000 (512 * 1024))
            (fun past =>
               runExec h past "/usr/bin/sips" (queryArgs input)
                 10000 (512 * 1024))).

Definition sipsMetadataFromBuffer (h : Host) (buffer : Buffer)
  : Fs (option ImageMetadata) :=
  withTempDir h (fun dir =>
    bind (runQuery h buffer dir) (fun stdout => ret (parseReport stdout))).

Definition resizeArgs (h : Host) (params : SipsResizeParams)
    (input output : string) : list string :=
  ["-Z";
   String_of_number h (Num.max (Fin 1) (Num.round (sr_maxSide params)));
   "-s"; "format"; "jpeg";
   "-s"; "formatOptions";
   String_of_number h
     (Num.max (Fin 1) (Num.min (Fin 100) (Num.round (sr_quality params))));
   input; "--out"; output].

Definition sipsResizeToJpeg (h : Host) (params : SipsResizeParams)
  : Fs Buffer :=
  withTempDir h (fun dir =>
    let input := path_join h dir "in.img" in
    let output := path_join h dir "out.jpg" in
    bind (perform (WriteFile input (sr_buffer params))
            (fun past => fs_writeFile h past input (sr_buffer params)))
         (fun _ =>
            bind (perform (RunExec "/usr/bin/sips"
                             (resizeArgs h params input output)
                             20000 (1024 * 1024))
                    (fun past =>
                       runExec h past "/usr/bin/sips"
                         (resizeArgs h params input output)
                         20000 (1024 * 1024)))
                 (fun _ =>
                    perform (ReadFile output)
                      (fun past => fs_readFile h past output)))).

(** The operations of [ops] that name a path, with the path. *)
Definition touched (op : FsOp) : list string :=
  match op with
  | WriteFile p _ => [p]
  | ReadFile p => [p]
  | Rm p => [p]
  | _ => []
  end.

End TempFiles.

(* ================================================================== *)
(** ** src/version.ts *)

Module Version.

Local Open Scope string_scope.

Record BuildInputs : Type := mkBuildInputs {
  (** the define [__CLAWDIS_VERSION__], when [typeof] says it is a string *)
  define_CLAWDIS_VERSION : option string;
  (** [process.env.CLAWDIS_BUNDLED_VERSION] *)
  env_CLAWDIS_BUNDLED_VERSION : option string;
  (** [require("../package.json").version], or what [createRequire] or
      [require] threw *)
  package_version : Result (option string)
}.

Definition readVersionFromPackageJson (b : BuildInputs) : option string :=
  match package_version b with
  | Ok v => v
  | Throw _ => None
  end.

(** [a || b], for values that are a string or one of undefined, null and
    false: the empty string is falsy too. *)
Definition orElse (a b : option string) : option string :=
  match a with
  | Some s => if JS.isEmpty s then b else Some s
  | None => b
  end.

(** [a || d] for a string [d] *)
Definition orDefault (a : option string) (d : string) : string :=
  match a with
  | Some s => if JS.isEmpty s then d else s
  | None => d
  end.

Definition VERSION (b : BuildInputs) : string :=
  orDefault
    (orElse (orElse (define_CLAWDIS_VERSION b) (env_CLAWDIS_BUNDLED_VERSION b))
       (readVersionFromPackageJson b))
    "0.0.0".

End Version.

(* ================================================================== *)
(** ** src/macos/gateway-daemon.ts: reading the command line *)

Module GatewayDaemon.

Local Open Scope string_scope.

(** [args.indexOf(flag)]; [None] stands for -1. *)
Fixpoint indexOf (args : list string) (flag : string) : option nat :=
  match args with
  | [] => None
  | a :: rest =>
      if String.eqb a flag then Some 0
      else match indexOf rest flag with
           | Some i => Some (S i)
           | None => None
           end
  end.

Definition argValue (args : list string) (flag : string) : option string :=
  match indexOf args flag with
  | None => None
  | Some idx =>
      match nth_error args (idx + 1) with
      | Some value =>
          if negb (JS.isEmpty value) && negb (JS.startsWith value "-")
          then Some value
          else None
      | None => None
      end
  end.

(** [args.includes(flag)] *)
Definition hasFlag (args : list string) (flag : string) : bool :=
  existsb (fun a => String.eqb a flag) args.

(** [argValue(args, "--port") ?? process.env.CLAWDIS_GATEWAY_PORT ?? "18789"] *)
Definition portRaw (args : list string) (env_CLAWDIS_GATEWAY_PORT : option string)
  : string :=
  match argValue args "--port" with
  | Some v => v
  | None =>
      match env_CLAWDIS_GATEWAY_PORT with
      | Some v => v
      | None => "18789"
      end
  end.

End GatewayDaemon.

(* ================================================================== *)
(** ** More concrete inputs *)

Module Samples.

Import ImageOps PiTools Tools.
Local Open Scope string_scope.

(** A read tool that answers every call with the same result. *)
Definition readToolOf (result : AgentToolResult) : AnyAgentTool :=
  {| name := "read";
     execute := fun _ _ _ => Eff.ret result;
     tool_rest := [] |}.

Definition bashToolOf (result : AgentToolResult) : AnyAgentTool :=
  {| name := "bash";
     execute := fun _ _ _ => Eff.ret result;
     tool_rest := [] |}.

Definition editTool : AnyAgentTool :=
  {| name := "edit";
     execute := fun _ _ _ => Eff.ret {| content := Some []; details := [] |};
     tool_rest := [] |}.

(** The last buffer written before now. *)
Fixpoint lastWritten (past : list TempFiles.FsOp) (found : Buffer) : Buffer :=
  match past with
  | [] => found
  | TempFiles.WriteFile _ data :: rest => lastWritten rest data
  | _ :: rest => lastWritten rest found
  end.

(** A macOS host: sips reports the size of the PNG header it finds in the
    file written last, and its resize leaves a JPEG. *)
Definition macHost : TempFiles.Host :=
  {| TempFiles.os_tmpdir := "/tmp";
     TempFiles.path_join := fun a b => a ++ "/" ++ b;
     TempFiles.String_of_number :=
       fun n => match n with
                | Fin z => Demo.decimal z
                | PosInf => "Infinity"
                | NegInf => "-Infinity"
                | NaN => "NaN"
                end;
     TempFiles.fs_mkdtemp := fun _ prefix => Ok (prefix ++ "x7Gk2q");
     TempFiles.fs_writeFile := fun _ _ _ => Ok tt;
     TempFiles.runExec := fun past _ _ _ _ => Demo.sipsReport (lastWritten past []);
     TempFiles.fs_readFile := fun _ _ => Ok Demo.jpegHeader;
     TempFiles.fs_rm := fun _ _ => Throw (Error "EBUSY: resource busy or locked") |}.

(** Bun on Linux: sharp does not load and sips is not there. *)
Definition bunLinux : Runtime :=
  {| env_CLAWDIS_IMAGE_BACKEND := None;
     versions_bun_is_string := true;
     platform := "linux";
     Buffer_from_base64 := Demo.fromBase64;
     Buffer_toString_base64 := Demo.toBase64;
     detectMime := fun buf => Ok (Demo.detectMimeByMagic buf);
     import_sharp := Throw (Error "Cannot find module sharp");
     sharp_metadata := fun _ => Throw (Error "Cannot find module sharp");
     sharp_toBuffer := fun _ _ _ => Throw (Error "Cannot find module sharp");
     sips_query := fun _ => Throw Demo.noSips;
     sips_resize := fun _ _ _ => Throw Demo.noSips |}.

End Samples.

(* ================================================================== *)
(** ** Notions used by the further statements *)

Module MoreProps.

Import ImageOps PiTools.
Local Open Scope string_scope.

(** Every code unit of [s] is a decimal digit. *)
Fixpoint allDigits (s : string) : bool :=
  match s with
  | EmptyString => true
  | String c s' => isDigit c && allDigits s'
  end.

(** The number a string of decimal digits stands for. *)
Definition decimalValue (d : string) : Z :=
  fold_left (fun acc c => (10 * acc + (Z.of_nat (nat_of_ascii c) - 48))%Z)
            (list_ascii_of_string d) 0%Z.

(** [s] does not begin with a digit. *)
Definition noDigitAhead (s : string) : bool :=
  match s with
  | EmptyString => true
  | String c _ => negb (isDigit c)
  end.

(** The pattern [key\s*([0-9]+)] matches at the start of [q] with [d] as its
    group: [q] is [key], then white space, then the digits [d], and no digit
    follows them. *)
Definition fieldHere (key q d : string) : Prop :=
  exists sp post,
    q = key ++ sp ++ d ++ post
    /\ JS.allWhiteSpace sp = true
    /\ d <> ""
    /\ allDigits d = true
    /\ noDigitAhead post = true.

(** [d] is group 1 of the leftmost match of [key\s*([0-9]+)] in [s]: the
    pattern matches where [q] starts, and at no position before it. *)
Definition firstField (key s d : string) : Prop :=
  exists pre q,
    s = pre ++ q
    /\ fieldHere key q d
    /\ forall p1 p2 d',
         pre = p1 ++ p2 -> p2 <> "" -> ~ fieldHere key (p2 ++ q) d'.

(** A call to sharp, and a call to sips. *)
Definition isSharpCall (c : Call) : bool :=
  match c with
  | ImportSharp => true
  | SharpMetadataCall _ => true
  | SharpToBuffer _ _ _ => true
  | _ => false
  end.

Definition isSipsCall (c : Call) : bool :=
  match c with
  | SipsQuery _ => true
  | SipsResize _ _ _ => true
  | _ => false
  end.

(** An encoding call that asks for a JPEG: every sips resize does
    ([-s format jpeg]), and a sharp pipeline that ends in [.jpeg(...)]. *)
Definition isJpegEncode (c : Call) : bool :=
  match c with
  | SipsResize _ _ _ => true
  | SharpToBuffer _ _ (Jpeg _ _) => true
  | _ => false
  end.

(** The mimeType [resizeImageBase64IfNeeded] gives to re-encoded bytes. *)
Definition relabelled (sniffed : option string) (declared : string) : string :=
  match sniffed with
  | Some s => if JS.startsWith s "image/" then s else declared
  | None => declared
  end.

(** What the sanitizer makes of a block when no image can be measured: the
    block itself, the placeholder for a blank payload, or the image block
    forwarded with its payload trimmed. *)
Definition failOpen (label : string) (b : ToolContentBlock) : ToolContentBlock :=
  match asImageBlock b with
  | None => b
  | Some image =>
      if JS.allWhiteSpace (img_data image)
      then textBlock (emptyPayloadText label)
      else Props.forwarded image
  end.

(** Every block whose [type] is "image" is a well-formed image block. *)
Definition imagesWellFormed (content : list ToolContentBlock) : Prop :=
  forall b o,
    In b content -> b = Obj o -> type o = Str "image" ->
    isImageBlock b = true.

(** The first of the candidates that is a non-empty string. *)
Fixpoint firstNonEmpty (candidates : list (option string)) : option string :=
  match candidates with
  | [] => None
  | Some s :: rest => if JS.isEmpty s then firstNonEmpty rest else Some s
  | None :: rest => firstNonEmpty rest
  end.

End MoreProps.

(* ================================================================== *)
(** ** The code on small inputs *)

Import ImageOps PiTools Props.
Open Scope string_scope.
Open Scope list_scope.

Example trim_example :
  JS.trim ("  ab c " ++ Demo.newline) = "ab c".
Proof. reflexivity. Qed.

Example toLowerCase_example : JS.toLowerCase "Image/JPEG" = "image/jpeg".
Proof. reflexivity. Qed.

Example rewrite_header_example :
  rewriteReadImageHeader "Read image file [image/jpeg]" "image/png"
  = "Read image file [image/png]"
  /\ rewriteReadImageHeader "Read image file" "image/png" = "Read image file".
Proof. split; reflexivity. Qed.

Example sips_report_example :
  let stdout := ("/tmp/in.img" ++ Demo.newline ++ "  pixelWidth: 640"
                 ++ Demo.newline ++ "  pixelHeight:480")%string in
  matchGroup1 "pixelWidth:" stdout = Some "640"
  /\ matchGroup1 "pixelHeight:" stdout = Some "480"
  /\ matchGroup1 "pixelDepth:" stdout = None
  /\ parseInt10 "640" = Fin 640.
Proof. repeat split. Qed.

Example base64_example :
  Demo.fromBase64 "iVBORw0KGgo=" = Demo.pngSignature
  /\ Demo.toBase64 (Demo.pngHeader 10 10) = Demo.png10x10
  /\ Demo.pngDimensions (Demo.fromBase64 Demo.png4000x3000) = Some (4000, 3000)%Z.
Proof. repeat split. Qed.

Example prefersSips_example :
  prefersSips Demo.nodeLinux = false /\ prefersSips Demo.bunDarwin = true.
Proof. split; reflexivity. Qed.

Example probe_example :
  getImageMetadata Demo.bunDarwin (Demo.fromBase64 Demo.png640x480)
  = ([SipsQuery (Demo.fromBase64 Demo.png640x480)],
     Ok (Some {| width := Fin 640; height := Fin 480 |}))
  /\ Eff.result (getImageMetadata Demo.nodeLinux (Demo.pngHeader 0 480)) = Ok None.
Proof. split; vm_compute; reflexivity. Qed.

(** The read-tool scenario of the specification: PNG bytes declared
    "image/jpeg" under the header "Read image file [image/jpeg]". *)
Example read_tool_example :
  normalizeReadImageResult Demo.nodeLinux
    {| content := Some [textBlock "Read image file [image/jpeg]";
                        Demo.imageBlock Demo.png10x10 "image/jpeg"];
       details := [] |} "shot.jpg"
  = Ok {| content := Some [textBlock "Read image file [image/png]";
                           Demo.imageBlock Demo.png10x10 "image/png"];
          details := [] |}.
Proof. vm_compute. reflexivity. Qed.

(** The fallback scenario: sharp does not load, the resize goes through sips
    and the block comes back as a JPEG. *)
Example fallback_example :
  Eff.result
    (sanitizeContentBlocksImages Demo.bunDarwin
       [Demo.imageBlock Demo.png4000x3000 "image/png"] "bash" noOpts)
  = Ok [Demo.imageBlock (Demo.toBase64 Demo.jpegHeader) "image/jpeg"].
Proof. vm_compute. reflexivity. Qed.

(* ================================================================== *)
(** ** Proof steps used throughout *)

Ltac split_match :=
  match goal with
  | |- context [match ?x with _ => _ end] => destruct x eqn:?
  | H : context [match ?x with _ => _ end] |- _ => destruct x eqn:?
  end.

Ltac pair_eq :=
  repeat match goal with
         | H : (_, _) = (_, _) |- _ => inversion H; clear H; subst
         end.

Ltac split_all := repeat (split_match; simpl in *; pair_eq).

Ltac eff_simpl :=
  unfold Eff.result, Eff.calls, Eff.tryCatch, Eff.bind, Eff.call, Eff.ret,
    Eff.throw in *; simpl in *.

(* ================================================================== *)
(** ** Lemmas on strings *)

Section StringFacts.

Lemma isEmpty_true (s : string) : JS.isEmpty s = true <-> s = "".
Proof.
  destruct s; simpl; split; intro H; try reflexivity; discriminate.
Qed.

Lemma isEmpty_false (s : string) : JS.isEmpty s = false <-> s <> "".
Proof.
  destruct s; simpl; split; intro H; congruence.
Qed.

Lemma allWhiteSpace_forallb (s : string) :
  JS.allWhiteSpace s = forallb JS.isWhiteSpace (list_ascii_of_string s).
Proof.
  induction s as [|c s IH]; simpl; [reflexivity | now rewrite IH].
Qed.

Lemma forallb_rev {A} (p : A -> bool) (l : list A) :
  forallb p (rev l) = forallb p l.
Proof.
  induction l as [|x l IH]; simpl; [reflexivity|].
  rewrite forallb_app, IH. simpl. rewrite andb_true_r. apply andb_comm.
Qed.

Lemma allWhiteSpace_reverse (s : string) :
  JS.allWhiteSpace (JS.reverse s) = JS.allWhiteSpace s.
Proof.
  unfold JS.reverse. rewrite !allWhiteSpace_forallb.
  rewrite list_ascii_of_string_of_list_ascii. apply forallb_rev.
Qed.

Lemma reverse_empty (s : string) : JS.reverse s = "" <-> s = "".
Proof.
  unfold JS.reverse. split; intro H.
  - apply (f_equal list_ascii_of_string) in H.
    rewrite list_ascii_of_string_of_list_ascii in H. simpl in H.
    destruct s as [|c s]; [reflexivity|]. simpl in H.
    destruct (rev (list_ascii_of_string s)); discriminate.
  - subst. reflexivity.
Qed.

Lemma trimStart_empty (s : string) :
  JS.trimStart s = "" <-> JS.allWhiteSpace s = true.
Proof.
  induction s as [|c s IH]; simpl.
  - split; reflexivity.
  - destruct (JS.isWhiteSpace c); simpl; [exact IH|].
    split; discriminate.
Qed.

Lemma trimStart_fixed (s : string) :
  JS.allWhiteSpace (JS.trimStart s) = true -> JS.trimStart s = "".
Proof.
  induction s as [|c s IH]; simpl; [reflexivity|].
  destruct (JS.isWhiteSpace c) eqn:E; [exact IH|].
  simpl. rewrite E. discriminate.
Qed.

Lemma trimEnd_empty (s : string) :
  JS.trimEnd s = "" <-> JS.allWhiteSpace s = true.
Proof.
  unfold JS.trimEnd. rewrite reverse_empty, trimStart_empty.
  now rewrite allWhiteSpace_reverse.
Qed.

(** [s.trim()] is empty exactly when [s] is empty or all white space. *)
Lemma trim_empty (s : string) :
  JS.trim s = "" <-> JS.allWhiteSpace s = true.
Proof.
  unfold JS.trim. rewrite trimEnd_empty. split; intro H.
  - apply trimStart_fixed in H. now apply trimStart_empty.
  - apply trimStart_empty in H. rewrite H. reflexivity.
Qed.

Lemma trim_isEmpty (s : string) :
  JS.isEmpty (JS.trim s) = JS.allWhiteSpace s.
Proof.
  destruct (JS.allWhiteSpace s) eqn:E.
  - apply isEmpty_true, trim_empty, E.
  - apply isEmpty_false. intro H. apply trim_empty in H. congruence.
Qed.

End StringFacts.

(* ================================================================== *)
(** ** Lemmas on the metadata probe *)

Section ProbeFacts.

Variable rt : Runtime.
Variable buf : Buffer.

Lemma sipsMetadata_calls :
  Eff.calls (sipsMetadataFromBuffer rt buf) = [SipsQuery buf].
Proof.
  unfold sipsMetadataFromBuffer. eff_simpl.
  destruct (sips_query rt buf); [|reflexivity].
  split_all; reflexivity.
Qed.

Lemma getImageMetadata_never_throws :
  exists r, Eff.result (getImageMetadata rt buf) = Ok r.
Proof.
  unfold getImageMetadata.
  destruct (prefersSips rt).
  - destruct (sipsMetadataFromBuffer rt buf) as [t [a|e]]; eff_simpl; eauto.
  - unfold loadSharp. eff_simpl.
    destruct (import_sharp rt); simpl; eauto.
    destruct (sharp_metadata rt buf); simpl; eauto.
    split_all; eauto.
Qed.

Lemma getImageMetadata_calls_sips :
  prefersSips rt = true ->
  Eff.calls (getImageMetadata rt buf) = [SipsQuery buf].
Proof.
  intro P. unfold getImageMetadata. rewrite P.
  pose proof sipsMetadata_calls as C.
  destruct (sipsMetadataFromBuffer rt buf) as [t [a|e]]; eff_simpl; subst;
    reflexivity.
Qed.

Lemma getImageMetadata_calls_sharp :
  prefersSips rt = false ->
  Eff.calls (getImageMetadata rt buf) = [ImportSharp]
  \/ Eff.calls (getImageMetadata rt buf) = [ImportSharp; SharpMetadataCall buf].
Proof.
  intro P. unfold getImageMetadata, loadSharp. rewrite P. eff_simpl.
  destruct (import_sharp rt); simpl; auto.
  destruct (sharp_metadata rt buf); simpl; auto.
  split_all; auto.
Qed.

Lemma getImageMetadata_no_encode :
  existsb isEncode (Eff.calls (getImageMetadata rt buf)) = false.
Proof.
  destruct (prefersSips rt) eqn:P.
  - rewrite getImageMetadata_calls_sips by assumption. reflexivity.
  - destruct (getImageMetadata_calls_sharp P) as [-> | ->]; reflexivity.
Qed.

(** The check both back ends' probes end with. *)
Lemma dims_checked (w h : number) (m : ImageMetadata) :
  (if negb (Num.isFinite w) || negb (Num.isFinite h)
   then None
   else if Num.leb w (Fin 0) || Num.leb h (Fin 0)
        then None
        else Some {| width := w; height := h |}) = Some m ->
  exists x y, width m = Fin x /\ height m = Fin y /\ (0 < x)%Z /\ (0 < y)%Z.
Proof.
  destruct w as [x| | |], h as [y| | |]; simpl; try discriminate.
  destruct (x <=? 0)%Z eqn:Ex; simpl; [discriminate|].
  destruct (y <=? 0)%Z eqn:Ey; simpl; [discriminate|].
  intro H. inversion H; subst; simpl.
  exists x, y. repeat split; lia.
Qed.

Lemma getImageMetadata_positive (m : ImageMetadata) :
  Eff.result (getImageMetadata rt buf) = Ok (Some m) ->
  exists x y, width m = Fin x /\ height m = Fin y /\ (0 < x)%Z /\ (0 < y)%Z.
Proof.
  unfold getImageMetadata.
  destruct (prefersSips rt).
  - unfold sipsMetadataFromBuffer. eff_simpl.
    destruct (sips_query rt buf) as [stdout|]; simpl; [|discriminate].
    destruct (matchGroup1 "pixelWidth:" stdout) as [w1|]; simpl; [|discriminate].
    destruct (matchGroup1 "pixelHeight:" stdout) as [h1|]; simpl; [|discriminate].
    destruct (JS.isEmpty w1 || JS.isEmpty h1); simpl; [discriminate|].
    intro H. apply (dims_checked (parseInt10 w1) (parseInt10 h1)).
    split_all; congruence.
  - unfold loadSharp. eff_simpl.
    destruct (import_sharp rt); simpl; [|discriminate].
    destruct (sharp_metadata rt buf) as [meta|]; simpl; [|discriminate].
    intro H.
    apply (dims_checked (orZero (meta_width meta)) (orZero (meta_height meta))).
    split_all; congruence.
Qed.

(** A non-null answer carries the sizes the selected back end reported. *)
Lemma getImageMetadata_reports (m : ImageMetadata) :
  Eff.result (getImageMetadata rt buf) = Ok (Some m) ->
  (prefersSips rt = false
   /\ exists meta,
        sharp_metadata rt buf = Ok meta
        /\ width m = orZero (meta_width meta)
        /\ height m = orZero (meta_height meta))
  \/ (prefersSips rt = true
      /\ exists stdout w h,
           sips_query rt buf = Ok stdout
           /\ matchGroup1 "pixelWidth:" stdout = Some w
           /\ matchGroup1 "pixelHeight:" stdout = Some h
           /\ width m = parseInt10 w
           /\ height m = parseInt10 h).
Proof.
  unfold getImageMetadata.
  destruct (prefersSips rt).
  - intro H. right. split; [reflexivity|].
    unfold sipsMetadataFromBuffer in H. eff_simpl.
    destruct (sips_query rt buf) as [stdout|]; simpl in H; [|discriminate].
    destruct (matchGroup1 "pixelWidth:" stdout) as [w1|] eqn:Mw; simpl in H;
      [|discriminate].
    destruct (matchGroup1 "pixelHeight:" stdout) as [h1|] eqn:Mh; simpl in H;
      [|discriminate].
    exists stdout, w1, h1.
    split; [reflexivity|]. split; [exact Mw|]. split; [exact Mh|].
    split; split_all; try discriminate; inversion H; reflexivity.
  - intro H. left. split; [reflexivity|].
    unfold loadSharp in H. eff_simpl.
    destruct (import_sharp rt); simpl in H; [|discriminate].
    destruct (sharp_metadata rt buf) as [meta|]; simpl in H; [|discriminate].
    exists meta. repeat split.
    all: split_all; try discriminate; inversion H; reflexivity.
Qed.

End ProbeFacts.

(* ================================================================== *)
(** ** Backend selection and the external-tool resize *)

Section NumFacts.

Lemma max_of_positive (x y : Z) :
  (0 < x)%Z -> (0 < y)%Z ->
  exists z, Num.max (Fin x) (Fin y) = Fin z /\ (0 < z)%Z
            /\ (x <= z)%Z /\ (y <= z)%Z /\ (z = x \/ z = y).
Proof.
  intros Hx Hy. simpl. destruct (x <=? y)%Z eqn:E.
  - exists y. repeat split; try reflexivity; lia.
  - exists x. repeat split; try reflexivity; lia.
Qed.

Lemma leb_max (x y : Z) (limit : number) :
  Num.leb (Fin x) limit = true -> Num.leb (Fin y) limit = true ->
  Num.leb (Num.max (Fin x) (Fin y)) limit = true.
Proof.
  intros Hx Hy. simpl. destruct (x <=? y)%Z; assumption.
Qed.

Lemma at_least_one (z : Z) :
  (0 < z)%Z -> Num.max (Fin 1) (Num.round (Fin z)) = Fin z.
Proof.
  intro H. unfold Num.round. simpl.
  destruct (1 <=? z)%Z eqn:E; [reflexivity | lia].
Qed.

End NumFacts.

(** C8, as the code has it: the choice of back end depends on nothing but the
    override, the runtime flag and the platform, and the external tool is
    preferred exactly when the override asks for it ("sips"), or when the
    override does not ask for the native library ("sharp"), the runtime is Bun
    and the platform is darwin.  In every other configuration the native back
    end is preferred. *)
Theorem prefersSips_policy :
  (forall rt rt', policyInputs rt = policyInputs rt' ->
                  prefersSips rt = prefersSips rt')
  /\ (forall rt,
        prefersSips rt = true <->
        (env_CLAWDIS_IMAGE_BACKEND rt = Some "sips"%string
         \/ (env_CLAWDIS_IMAGE_BACKEND rt <> Some "sharp"%string
             /\ versions_bun_is_string rt = true
             /\ platform rt = "darwin"%string))).
Proof.
  split.
  - intros rt rt' H. unfold policyInputs in H. inversion H as [[He Hb Hp]].
    unfold prefersSips, isBun. now rewrite He, Hb, Hp.
  - intro rt. unfold prefersSips, isBun, strictEq.
    destruct (env_CLAWDIS_IMAGE_BACKEND rt) as [v|]; simpl.
    + rewrite orb_true_iff, !andb_true_iff, negb_true_iff, !String.eqb_eq,
        String.eqb_neq.
      split.
      * intros [-> | [[Hn Hb] Hp]]; [left; reflexivity|].
        right. repeat split; try assumption. congruence.
      * intros [Hs | [Hn [Hb Hp]]].
        -- left. congruence.
        -- right. repeat split; try assumption. congruence.
    + rewrite andb_true_iff, String.eqb_eq. split.
      * intros [Hb Hp]. right. repeat split; try assumption. discriminate.
      * intros [Hs | [_ [Hb Hp]]]; [discriminate | now split].
Qed.

Lemma prefersSips_policy_witness :
  policyInputs Demo.bunDarwin = policyInputs Demo.bunDarwin
  /\ (env_CLAWDIS_IMAGE_BACKEND Demo.bunDarwin <> Some "sharp"%string
      /\ versions_bun_is_string Demo.bunDarwin = true
      /\ platform Demo.bunDarwin = "darwin"%string)
  /\ prefersSips Demo.bunDarwin = prefersSips Demo.bunDarwin
  /\ prefersSips Demo.bunDarwin = true.
Proof.
  assert (H : env_CLAWDIS_IMAGE_BACKEND Demo.bunDarwin <> Some "sharp"%string
              /\ versions_bun_is_string Demo.bunDarwin = true
              /\ platform Demo.bunDarwin = "darwin"%string).
  { repeat split; simpl; try reflexivity. discriminate. }
  split; [reflexivity|]. split; [exact H|]. split.
  - apply (proj1 prefersSips_policy Demo.bunDarwin Demo.bunDarwin).
    reflexivity.
  - apply (proj2 prefersSips_policy Demo.bunDarwin). right. exact H.
Defined.

(** C8 as the claim states it fails: with [CLAWDIS_IMAGE_BACKEND=sips], under
    Node on Linux, the external tool is preferred although the runtime is not
    Bun and the platform is not darwin. *)
Lemma prefersSips_override_counterexample :
  prefersSips Demo.nodeLinuxForcedSips = true
  /\ ~ (env_CLAWDIS_IMAGE_BACKEND Demo.nodeLinuxForcedSips <> Some "sharp"%string
        /\ isBun Demo.nodeLinuxForcedSips = true
        /\ platform Demo.nodeLinuxForcedSips = "darwin"%string).
Proof.
  split; [reflexivity|].
  intros [_ [H _]]. discriminate H.
Qed.

(** C9: with the external tool selected and [withoutEnlargement] not false,
    [resizeToJpeg] first probes the buffer, and when the probe finds both
    sides at most [maxSide] it runs the tool exactly once, with the larger
    side of the image as the target, which is at most [maxSide], and not
    [maxSide] itself; the outcome is the outcome of that run. *)
Theorem resizeToJpeg_sips_keeps_size (rt : Runtime) (p : ResizeToJpegParams)
    (m : ImageMetadata) :
  prefersSips rt = true ->
  notFalse (withoutEnlargement p) = true ->
  Eff.result (getImageMetadata rt (buffer p)) = Ok (Some m) ->
  Num.leb (width m) (maxSide p) = true ->
  Num.leb (height m) (maxSide p) = true ->
  let target := Num.max (width m) (height m) in
  let q := Num.max (Fin 1) (Num.min (Fin 100) (Num.round (quality p))) in
  resizeToJpeg rt p
  = ([SipsQuery (buffer p); SipsResize (buffer p) target q],
     sips_resize rt (buffer p) target q)
  /\ (target = width m \/ target = height m)
  /\ Num.leb target (maxSide p) = true.
Proof.
  intros P NF M Hw Hh target q.
  destruct (getImageMetadata_positive _ _ M) as (x & y & Ex & Ey & Hx & Hy).
  destruct (max_of_positive Hx Hy) as (z & Ez & Hz & _ & _ & Hxy).
  assert (Et : target = Fin z) by (unfold target; now rewrite Ex, Ey).
  assert (Hle : Num.leb target (maxSide p) = true).
  { unfold target. rewrite Ex, Ey in *. now apply leb_max. }
  split; [|split].
  - unfold resizeToJpeg. rewrite P, NF.
    pose proof (getImageMetadata_calls_sips rt (buffer p) P) as C.
    destruct (getImageMetadata rt (buffer p)) as [t r].
    unfold Eff.calls, Eff.result in C, M. cbn [fst snd] in C, M. subst t r.
    unfold Eff.bind. fold target. rewrite Hle, Et.
    assert (Hpos : Num.ltb (Fin 0) (Fin z) = true)
      by (cbn [Num.ltb]; apply Z.ltb_lt; lia).
    rewrite Hpos. cbn [andb].
    unfold sipsResizeToJpeg, Eff.call.
    cbn [sr_buffer sr_maxSide sr_quality].
    rewrite (at_least_one Hz). reflexivity.
  - rewrite Et. rewrite Ex, Ey. destruct Hxy; subst; auto.
  - exact Hle.
Qed.

Lemma resizeToJpeg_sips_keeps_size_witness :
  let rt := Demo.bunDarwin in
  let p := {| buffer := Buffer_from_base64 rt Demo.png640x480;
              maxSide := Fin 2000;
              quality := Fin 85;
              withoutEnlargement := None |} in
  let m := {| width := Fin 640; height := Fin 480 |} in
  (prefersSips rt = true
   /\ notFalse (withoutEnlargement p) = true
   /\ Eff.result (getImageMetadata rt (buffer p)) = Ok (Some m)
   /\ Num.leb (width m) (maxSide p) = true
   /\ Num.leb (height m) (maxSide p) = true)
  /\ resizeToJpeg rt p
     = ([SipsQuery (buffer p); SipsResize (buffer p) (Fin 640) (Fin 85)],
        Ok Demo.jpegHeader).
Proof.
  intros rt p m.
  assert (P : prefersSips rt = true) by reflexivity.
  assert (NF : notFalse (withoutEnlargement p) = true) by reflexivity.
  assert (M : Eff.result (getImageMetadata rt (buffer p)) = Ok (Some m))
    by (vm_compute; reflexivity).
  assert (Hw : Num.leb (width m) (maxSide p) = true) by reflexivity.
  assert (Hh : Num.leb (height m) (maxSide p) = true) by reflexivity.
  split; [repeat split; assumption|].
  exact (proj1 (@resizeToJpeg_sips_keeps_size rt p m P NF M Hw Hh)).
Defined.

(* ================================================================== *)
(** ** Lemmas on the resize decision and the sanitizer loop *)

Section ResizeFacts.

Variable rt : Runtime.

Lemma probe_cases (image : ImageContentBlock) :
  probe rt image = Ok None \/ exists m, probe rt image = Ok (Some m).
Proof.
  unfold probe.
  destruct (getImageMetadata_never_throws rt
              (Buffer_from_base64 rt (JS.trim (img_data image)))) as [[m|] E];
    rewrite E; eauto.
Qed.

(** No dimensions, or both within the limit: the request comes back as it
    was, after the probe's calls and nothing else. *)
Lemma resize_keep (params : ResizeParams) :
  let buf := Buffer_from_base64 rt (base64 params) in
  (Eff.result (getImageMetadata rt buf) = Ok None
   \/ exists m, Eff.result (getImageMetadata rt buf) = Ok (Some m)
                /\ within m (maxDimensionPx params) = true) ->
  resizeImageBase64IfNeeded rt params
  = (Eff.calls (getImageMetadata rt buf),
     Ok {| out_base64 := base64 params;
           out_mimeType := rp_mimeType params;
           resized := false |}).
Proof.
  intros buf H. unfold resizeImageBase64IfNeeded. fold buf.
  destruct (getImageMetadata rt buf) as [t r].
  unfold Eff.result, Eff.calls in *. cbn [fst snd] in *.
  destruct H as [-> | (m & -> & W)]; unfold Eff.bind, Eff.ret.
  - now rewrite app_nil_r.
  - unfold within in W. rewrite W. now rewrite app_nil_r.
Qed.

(** One side over the limit: the request is re-encoded, and the type is the
    one sniffed from the new bytes when that is an image type. *)
Lemma resize_over (params : ResizeParams) (m : ImageMetadata) :
  let buf := Buffer_from_base64 rt (base64 params) in
  Eff.result (getImageMetadata rt buf) = Ok (Some m) ->
  within m (maxDimensionPx params) = false ->
  forall r, Eff.result (resizeImageBase64IfNeeded rt params) = Ok r ->
  exists out,
    Eff.result (reencode rt buf (rp_mimeType params) (maxDimensionPx params))
    = Ok out
    /\ out_base64 r = Buffer_toString_base64 rt out
    /\ resized r = true
    /\ ((detectMime rt (firstn 256 out) = Ok (Some (out_mimeType r))
         /\ JS.startsWith (out_mimeType r) "image/" = true)
        \/ (out_mimeType r = rp_mimeType params
            /\ (detectMime rt (firstn 256 out) = Ok None
                \/ exists s, detectMime rt (firstn 256 out) = Ok (Some s)
                             /\ JS.startsWith s "image/" = false))).
Proof.
  intros buf M W r. unfold resizeImageBase64IfNeeded, reencode. fold buf.
  destruct (getImageMetadata rt buf) as [t0 r0].
  unfold Eff.result in M. cbn [snd] in M. subst r0.
  unfold within in W. unfold Eff.bind at 1. rewrite W.
  match goal with
  | |- context [Eff.tryCatch ?a ?b] => destruct (Eff.tryCatch a b) as [t1 [out|e]]
  end; unfold Eff.bind, Eff.result; cbn [snd].
  - destruct (detectMime rt (firstn 256 out)) as [[s|]|e] eqn:D;
      unfold Eff.ret, Eff.throw; cbn [snd]; intro H; inversion H; subst;
      clear H; cbn [out_base64 out_mimeType resized].
    + exists out. repeat split.
      destruct (JS.startsWith s "image/") eqn:S; [left; now split|].
      right. split; [reflexivity|]. right. exists s. now split.
    + exists out. repeat split. right. split; [reflexivity|]. now left.
  - discriminate.
Qed.

End ResizeFacts.

Section LoopFacts.

Variable rt : Runtime.
Variable label : string.
Variable limit : number.

Lemma sanitizeLoop_turns (blocks out : list ToolContentBlock) :
  sanitizeLoop rt label limit blocks out
  = (flat_map (fun b => fst (turn rt label limit b)) blocks,
     Ok (out ++ map (fun b => snd (turn rt label limit b)) blocks)).
Proof.
  revert out. induction blocks as [|block rest IH]; intro out.
  - simpl. unfold Eff.ret. now rewrite app_nil_r.
  - cbn [sanitizeLoop flat_map map]. unfold turn at 1 3.
    destruct (asImageBlock block) as [image|].
    + destruct (JS.isEmpty (JS.trim (img_data image))).
      * rewrite IH. cbn [fst snd]. now rewrite <- app_assoc.
      * destruct (resizeImageBase64IfNeeded rt _) as [t [r|e]];
          unfold Eff.tryCatch, Eff.bind, Eff.ret; rewrite IH;
          cbn [fst snd]; rewrite !app_nil_r, <- app_assoc; reflexivity.
    + rewrite IH. cbn [fst snd]. now rewrite <- app_assoc.
Qed.

End LoopFacts.

Lemma sanitize_result (rt : Runtime) (blocks : list ToolContentBlock)
    (label : string) (opts : SanitizeOpts) :
  Eff.result (sanitizeContentBlocksImages rt blocks label opts)
  = Ok (map (fun b => snd (turn rt label (effectiveMax opts) b)) blocks).
Proof.
  unfold sanitizeContentBlocksImages. now rewrite sanitizeLoop_turns.
Qed.

Lemma sanitize_nth (rt : Runtime) (blocks : list ToolContentBlock)
    (label : string) (opts : SanitizeOpts) (out : list ToolContentBlock)
    (i : nat) :
  Eff.result (sanitizeContentBlocksImages rt blocks label opts) = Ok out ->
  nth_error out i
  = option_map (fun b => snd (turn rt label (effectiveMax opts) b))
      (nth_error blocks i).
Proof.
  rewrite sanitize_result. intro H. inversion H; subst.
  apply nth_error_map.
Qed.

(* ================================================================== *)
(** ** The content block sanitizer *)

Lemma asImageBlock_shape (block : ToolContentBlock) (image : ImageContentBlock) :
  asImageBlock block = Some image ->
  block = Obj (img_block image)
  /\ type (img_block image) = Str "image"
  /\ data (img_block image) = Str (img_data image)
  /\ mimeType (img_block image) = Str (img_mimeType image).
Proof.
  destruct block as [rec|v]; simpl; [|discriminate].
  destruct (type rec) as [|t|] eqn:T; simpl; try discriminate.
  destruct (String.eqb t "image") eqn:E; [|discriminate].
  apply String.eqb_eq in E. subst t.
  destruct (data rec) eqn:D; try discriminate.
  destruct (mimeType rec) eqn:M; try discriminate.
  intro H. inversion H; subst; simpl. auto.
Qed.

Lemma forwarded_untrimmed (block : ToolContentBlock) (image : ImageContentBlock) :
  asImageBlock block = Some image ->
  JS.trim (img_data image) = img_data image ->
  forwarded image = block.
Proof.
  intros A T. destruct (asImageBlock_shape _ A) as (-> & _ & D & M).
  unfold forwarded, withDataMimeType. rewrite T, <- D, <- M.
  destruct (img_block image); reflexivity.
Qed.

(** C2: [sanitizeContentBlocksImages] always returns; its output has one block
    per input block, each at the position of the block it comes from;
    anything but an image block is passed on; an image block whose payload is
    empty or all white space becomes the text block
    "[<label>] omitted empty image payload"; and when probing or resizing an
    image block throws [err], the block becomes the text block
    "[<label>] omitted image payload: <String(err)>". *)
Theorem sanitize_never_raises (rt : Runtime) (blocks : list ToolContentBlock)
    (label : string) (opts : SanitizeOpts) :
  exists out,
    Eff.result (sanitizeContentBlocksImages rt blocks label opts) = Ok out
    /\ List.length out = List.length blocks
    /\ forall i block,
         nth_error blocks i = Some block ->
         (asImageBlock block = None -> nth_error out i = Some block)
         /\ (forall image,
               asImageBlock block = Some image ->
               (JS.allWhiteSpace (img_data image) = true ->
                nth_error out i
                = Some (textBlock ("[" ++ label ++ "] omitted empty image payload")))
               /\ (forall err,
                     JS.allWhiteSpace (img_data image) = false ->
                     Eff.result
                       (resizeImageBase64IfNeeded rt
                          (requestFor image (effectiveMax opts)))
                     = Throw err ->
                     nth_error out i
                     = Some (textBlock ("[" ++ label ++ "] omitted image payload: "
                                        ++ String_of_error err)))).
Proof.
  eexists. split; [apply sanitize_result|]. split; [apply length_map|].
  intros i block Hi. rewrite nth_error_map, Hi. cbn [option_map].
  unfold turn. split.
  - intros ->. reflexivity.
  - intros image ->. rewrite trim_isEmpty. split.
    + intros ->. reflexivity.
    + intros err -> T. unfold requestFor in T.
      destruct (resizeImageBase64IfNeeded rt _) as [t r].
      unfold Eff.result in T. cbn [snd] in T. subst r. reflexivity.
Qed.

Lemma sanitize_never_raises_witness :
  let blocks := [Demo.imageBlock " " "image/png";
                 textBlock "before";
                 Demo.imageBlock Demo.png4000x3000 "image/png";
                 textBlock "after"] in
  exists out,
    Eff.result
      (sanitizeContentBlocksImages Demo.bunDarwinSipsFails blocks "bash" noOpts)
    = Ok out
    /\ nth_error out 0 = Some (textBlock "[bash] omitted empty image payload")
    /\ nth_error out 1 = Some (textBlock "before")
    /\ nth_error out 2
       = Some (textBlock
                 "[bash] omitted image payload: Error: Command failed: /usr/bin/sips -Z")
    /\ nth_error out 3 = Some (textBlock "after").
Proof.
  intro blocks.
  destruct (sanitize_never_raises Demo.bunDarwinSipsFails blocks "bash" noOpts)
    as (out & R & _ & H).
  exists out. split; [exact R|].
  split; [|split; [|split]].
  - refine (proj1 (proj2 (H 0 _ eq_refl) _ eq_refl) _). reflexivity.
  - refine (proj1 (H 1 _ eq_refl) _). reflexivity.
  - refine (proj2 (proj2 (H 2 _ eq_refl) _ eq_refl) Demo.sipsFailed _ _);
      reflexivity.
  - refine (proj1 (H 3 _ eq_refl) _). reflexivity.
Defined.

Lemma turn_image (rt : Runtime) (label : string) (limit : number)
    (b b' : ToolContentBlock) :
  snd (turn rt label limit b) = b' ->
  isImageBlock b' = true ->
  exists image r,
    asImageBlock b = Some image
    /\ JS.trim (img_data image) <> ""
    /\ Eff.result (resizeImageBase64IfNeeded rt (requestFor image limit)) = Ok r
    /\ b' = Obj (withDataMimeType (img_block image) (out_base64 r) (out_mimeType r)).
Proof.
  unfold turn, isImageBlock. intros T I.
  destruct (asImageBlock b) as [image|] eqn:A.
  - destruct (JS.isEmpty (JS.trim (img_data image))) eqn:E.
    + cbn [snd] in T. subst b'. discriminate I.
    + fold (requestFor image limit) in T.
      destruct (resizeImageBase64IfNeeded rt (requestFor image limit))
        as [t [r|e]] eqn:Q; cbn [snd] in T; subst b'.
      * exists image, r. repeat split; [now apply isEmpty_false|].
        now rewrite Q.
      * discriminate I.
  - cbn [snd] in T. subst b'. rewrite A in I. discriminate I.
Qed.

(** C1, as the code has it: an image block of the output stands at the
    position of an input image block with a non-blank payload, and it is
    either (a) that block with its payload trimmed and its declared mimeType
    kept, the probe having found no dimensions or both sides at most the
    limit (nothing is sniffed on this path), or (b) the block with the
    re-encoded bytes as payload, the probe having found a side over the
    limit, and as mimeType the type sniffed from the first 256 re-encoded
    bytes when that is an image type, the declared type when it is not. *)
Theorem sanitized_image_blocks (rt : Runtime) (blocks : list ToolContentBlock)
    (label : string) (opts : SanitizeOpts) (out : list ToolContentBlock)
    (i : nat) (b' : ToolContentBlock) :
  Eff.result (sanitizeContentBlocksImages rt blocks label opts) = Ok out ->
  nth_error out i = Some b' ->
  isImageBlock b' = true ->
  exists b image,
    nth_error blocks i = Some b
    /\ asImageBlock b = Some image
    /\ JS.trim (img_data image) <> ""
    /\ ((b' = forwarded image
         /\ (probe rt image = Ok None
             \/ exists m, probe rt image = Ok (Some m)
                          /\ within m (effectiveMax opts) = true))
        \/ (exists m bytes mime,
              probe rt image = Ok (Some m)
              /\ within m (effectiveMax opts) = false
              /\ Eff.result
                   (reencode rt (Buffer_from_base64 rt (JS.trim (img_data image)))
                      (img_mimeType image) (effectiveMax opts))
                 = Ok bytes
              /\ b' = Obj (withDataMimeType (img_block image)
                             (Buffer_toString_base64 rt bytes) mime)
              /\ ((detectMime rt (firstn 256 bytes) = Ok (Some mime)
                   /\ JS.startsWith mime "image/" = true)
                  \/ (mime = img_mimeType image
                      /\ (detectMime rt (firstn 256 bytes) = Ok None
                          \/ exists s,
                               detectMime rt (firstn 256 bytes) = Ok (Some s)
                               /\ JS.startsWith s "image/" = false))))).
Proof.
  intros R N I. rewrite (sanitize_nth _ _ _ _ _ R) in N.
  destruct (nth_error blocks i) as [b|] eqn:B; [|discriminate].
  cbn [option_map] in N. inversion N as [T]. clear N.
  destruct (turn_image _ _ _ _ T I) as (image & r & A & NE & Q & ->).
  exists b, image. repeat split; try assumption.
  set (limit := effectiveMax opts) in *.
  assert (K : (probe rt image = Ok None
               \/ exists m, probe rt image = Ok (Some m)
                            /\ within m limit = true) ->
              r = {| out_base64 := JS.trim (img_data image);
                     out_mimeType := img_mimeType image;
                     resized := false |}).
  { intro H. rewrite (resize_keep rt (requestFor image limit) H) in Q.
    unfold Eff.result in Q. cbn [snd] in Q. now inversion Q. }
  destruct (probe_cases rt image) as [P | [m P]].
  - left. split; [|now left].
    rewrite T, (K (or_introl P)). reflexivity.
  - destruct (within m limit) eqn:W.
    + left. split; [|right; now exists m].
      rewrite T, (K (or_intror (ex_intro _ m (conj P W)))). reflexivity.
    + right.
      destruct (@resize_over rt (requestFor image limit) m P W r Q)
        as (bytes & E & Hb & _ & Hm).
      exists m, bytes, (out_mimeType r). rewrite T, Hb.
      repeat split; assumption.
Qed.

Lemma sanitized_image_blocks_witness :
  let block := Demo.imageBlock Demo.png4000x3000 "image/png" in
  let out := [Demo.imageBlock (Demo.toBase64 (Demo.pngHeader 2000 1500))
                "image/png"] in
  Eff.result (sanitizeContentBlocksImages Demo.nodeLinux [block] "bash" noOpts)
  = Ok out
  /\ exists b image,
       nth_error [block] 0 = Some b
       /\ asImageBlock b = Some image
       /\ JS.trim (img_data image) <> "".
Proof.
  intros block out.
  assert (R : Eff.result
                (sanitizeContentBlocksImages Demo.nodeLinux [block] "bash" noOpts)
              = Ok out) by reflexivity.
  split; [exact R|].
  destruct (@sanitized_image_blocks Demo.nodeLinux [block] "bash" noOpts out 0
              (Demo.imageBlock (Demo.toBase64 (Demo.pngHeader 2000 1500))
                 "image/png") R eq_refl eq_refl)
    as (b & image & N & A & T & _).
  exists b, image. repeat split; assumption.
Defined.

(** C1 as the claim states it fails: a 10 x 10 PNG declared "image/jpeg" is
    within the limit and leaves the sanitizer as an image block that still
    says "image/jpeg", while its bytes sniff as "image/png". *)
Lemma unverified_mime_forwarded :
  let block := Demo.imageBlock Demo.png10x10 "image/jpeg" in
  Eff.result (sanitizeContentBlocksImages Demo.nodeLinux [block] "bash" noOpts)
  = Ok [block]
  /\ isImageBlock block = true
  /\ sniffMimeFromBase64 Demo.nodeLinux Demo.png10x10 = Some "image/png"
  /\ ~ verified Demo.nodeLinux (effectiveMax noOpts) block.
Proof.
  intro block. repeat split.
  intro V. destruct (V _ eq_refl) as [S _]. discriminate S.
Qed.

(** The pass-through path of one image block, shared by the next two
    theorems. *)
Lemma kept_block (rt : Runtime) (blocks : list ToolContentBlock)
    (label : string) (opts : SanitizeOpts) (i : nat)
    (block : ToolContentBlock) (image : ImageContentBlock) :
  nth_error blocks i = Some block ->
  asImageBlock block = Some image ->
  JS.trim (img_data image) <> "" ->
  (probe rt image = Ok None
   \/ exists m, probe rt image = Ok (Some m)
                /\ within m (effectiveMax opts) = true) ->
  exists out,
    Eff.result (sanitizeContentBlocksImages rt blocks label opts) = Ok out
    /\ nth_error out i = Some (forwarded image)
    /\ (JS.trim (img_data image) = img_data image ->
        nth_error out i = Some block)
    /\ Eff.result
         (resizeImageBase64IfNeeded rt (requestFor image (effectiveMax opts)))
       = Ok {| out_base64 := JS.trim (img_data image);
               out_mimeType := img_mimeType image;
               resized := false |}
    /\ existsb isEncode
         (Eff.calls
            (resizeImageBase64IfNeeded rt (requestFor image (effectiveMax opts))))
       = false.
Proof.
  intros N A NE H.
  pose proof (resize_keep rt (requestFor image (effectiveMax opts)) H) as K.
  eexists. split; [apply sanitize_result|].
  assert (F : nth_error
                (map (fun b => snd (turn rt label (effectiveMax opts) b)) blocks) i
              = Some (forwarded image)).
  { rewrite nth_error_map, N. cbn [option_map]. unfold turn. rewrite A.
    apply isEmpty_false in NE. rewrite NE.
    fold (requestFor image (effectiveMax opts)). rewrite K. reflexivity. }
  split; [exact F|]. split; [|split].
  - intro T. rewrite F. f_equal. now apply forwarded_untrimmed.
  - rewrite K. reflexivity.
  - rewrite K. unfold Eff.calls. cbn [fst]. apply getImageMetadata_no_encode.
Qed.

(** C4, as the code has it: an image block with a non-blank payload whose
    probed width and height are both at most the limit is passed on at its
    position with its mimeType unchanged and its payload trimmed of the white
    space around it, so the block is identical when there is none; nothing
    is re-encoded: the resize step answers [resized: false] and makes no
    encoding call. *)
Theorem small_image_forwarded (rt : Runtime) (blocks : list ToolContentBlock)
    (label : string) (opts : SanitizeOpts) (i : nat)
    (block : ToolContentBlock) (image : ImageContentBlock)
    (m : ImageMetadata) :
  nth_error blocks i = Some block ->
  asImageBlock block = Some image ->
  JS.trim (img_data image) <> "" ->
  probe rt image = Ok (Some m) ->
  within m (effectiveMax opts) = true ->
  exists out,
    Eff.result (sanitizeContentBlocksImages rt blocks label opts) = Ok out
    /\ nth_error out i = Some (forwarded image)
    /\ (JS.trim (img_data image) = img_data image ->
        nth_error out i = Some block)
    /\ Eff.result
         (resizeImageBase64IfNeeded rt (requestFor image (effectiveMax opts)))
       = Ok {| out_base64 := JS.trim (img_data image);
               out_mimeType := img_mimeType image;
               resized := false |}
    /\ existsb isEncode
         (Eff.calls
            (resizeImageBase64IfNeeded rt (requestFor image (effectiveMax opts))))
       = false.
Proof.
  intros N A NE P W. apply kept_block; try assumption.
  right. now exists m.
Qed.

Lemma small_image_forwarded_witness :
  let block := Demo.imageBlock Demo.png640x480 "image/png" in
  exists image,
    asImageBlock block = Some image
    /\ JS.trim (img_data image) <> ""
    /\ probe Demo.nodeLinux image
       = Ok (Some {| width := Fin 640; height := Fin 480 |})
    /\ exists out,
         Eff.result
           (sanitizeContentBlocksImages Demo.nodeLinux
              [textBlock "Read image file [image/png]"; block] "read:a.png" noOpts)
         = Ok out
         /\ nth_error out 1 = Some block.
Proof.
  intro block.
  exists {| img_block := {| type := Str "image"; data := Str Demo.png640x480;
                            mimeType := Str "image/png"; text := Undefined;
                            others := [] |};
            img_data := Demo.png640x480; img_mimeType := "image/png" |}.
  assert (NE : JS.trim Demo.png640x480 <> "") by (vm_compute; discriminate).
  split; [reflexivity|]. split; [exact NE|]. split; [reflexivity|].
  destruct (@small_image_forwarded Demo.nodeLinux
              [textBlock "Read image file [image/png]"; block] "read:a.png"
              noOpts 1 block _ {| width := Fin 640; height := Fin 480 |}
              eq_refl eq_refl NE eq_refl eq_refl)
    as (out & R & _ & Same & _).
  exists out. split; [exact R|]. apply Same. reflexivity.
Defined.

(** C4 as the claim states it fails: a 10 x 10 PNG whose payload ends with a
    line feed is within the limit, and the block that comes out has lost the
    line feed, so it is not the block that went in. *)
Lemma small_image_not_identical :
  let payload := (Demo.png10x10 ++ Demo.newline)%string in
  let block := Demo.imageBlock payload "image/png" in
  exists image out,
    asImageBlock block = Some image
    /\ probe Demo.nodeLinux image
       = Ok (Some {| width := Fin 10; height := Fin 10 |})
    /\ within {| width := Fin 10; height := Fin 10 |} (effectiveMax noOpts) = true
    /\ Eff.result
         (sanitizeContentBlocksImages Demo.nodeLinux [block] "bash" noOpts)
       = Ok out
    /\ nth_error out 0 = Some (Demo.imageBlock Demo.png10x10 "image/png")
    /\ nth_error out 0 <> Some block.
Proof.
  intros payload block.
  eexists. eexists. split; [reflexivity|]. split; [reflexivity|].
  split; [reflexivity|]. split; [reflexivity|]. split; [reflexivity|].
  vm_compute. discriminate.
Qed.

(** C7, as the code has it: [getImageMetadata] never throws; its answer is
    null when loading sharp, sharp's metadata call or the sips query throws;
    an answer that is not null has the width and height the selected back
    end reported, both finite and positive, so a reported size of zero or
    less gives null; and an
    image block with a non-blank payload for which the probe answers null is
    passed on at its position, not resized, with its mimeType unchanged and
    its payload trimmed of the white space around it (the block is identical
    when there is none). *)
Theorem probe_fails_open :
  (forall rt buf, exists r, Eff.result (getImageMetadata rt buf) = Ok r)
  /\ (forall rt buf e,
        prefersSips rt = false ->
        (import_sharp rt = Throw e \/ sharp_metadata rt buf = Throw e) ->
        Eff.result (getImageMetadata rt buf) = Ok None)
  /\ (forall rt buf e,
        prefersSips rt = true -> sips_query rt buf = Throw e ->
        Eff.result (getImageMetadata rt buf) = Ok None)
  /\ (forall rt buf m,
        Eff.result (getImageMetadata rt buf) = Ok (Some m) ->
        (exists x y, width m = Fin x /\ height m = Fin y
                     /\ (0 < x)%Z /\ (0 < y)%Z)
        /\ ((prefersSips rt = false
             /\ exists meta,
                  sharp_metadata rt buf = Ok meta
                  /\ width m = orZero (meta_width meta)
                  /\ height m = orZero (meta_height meta))
            \/ (prefersSips rt = true
                /\ exists stdout w h,
                     sips_query rt buf = Ok stdout
                     /\ matchGroup1 "pixelWidth:" stdout = Some w
                     /\ matchGroup1 "pixelHeight:" stdout = Some h
                     /\ width m = parseInt10 w
                     /\ height m = parseInt10 h)))
  /\ (forall rt blocks label opts i block image,
        nth_error blocks i = Some block ->
        asImageBlock block = Some image ->
        JS.trim (img_data image) <> "" ->
        probe rt image = Ok None ->
        exists out,
          Eff.result (sanitizeContentBlocksImages rt blocks label opts) = Ok out
          /\ nth_error out i = Some (forwarded image)
          /\ (JS.trim (img_data image) = img_data image ->
              nth_error out i = Some block)
          /\ existsb isEncode
               (Eff.calls
                  (resizeImageBase64IfNeeded rt
                     (requestFor image (effectiveMax opts))))
             = false).
Proof.
  split; [exact getImageMetadata_never_throws|].
  split; [|split; [|split]].
  - intros rt buf e P H. unfold getImageMetadata, loadSharp. rewrite P.
    unfold Eff.tryCatch, Eff.bind, Eff.call, Eff.result.
    destruct (import_sharp rt) as [u|e0]; [|reflexivity].
    destruct H as [H|H]; [discriminate|]. rewrite H. reflexivity.
  - intros rt buf e P H. unfold getImageMetadata, sipsMetadataFromBuffer.
    rewrite P. unfold Eff.tryCatch, Eff.bind, Eff.call, Eff.result.
    rewrite H. reflexivity.
  - intros rt buf m H. split.
    + now apply (getImageMetadata_positive rt buf).
    + now apply getImageMetadata_reports.
  - intros rt blocks label opts i block image N A NE P.
    destruct (@kept_block rt blocks label opts i block image N A NE
                (or_introl P)) as (out & R & F & S & _ & C).
    exists out. auto.
Qed.

Lemma probe_fails_open_witness :
  let block := Demo.imageBlock Demo.plainText "image/png" in
  Eff.result (getImageMetadata Demo.nodeLinux (Demo.fromBase64 Demo.plainText))
  = Ok None
  /\ exists out,
       Eff.result
         (sanitizeContentBlocksImages Demo.nodeLinux [block] "bash" noOpts)
       = Ok out
       /\ nth_error out 0 = Some block.
Proof.
  intro block.
  destruct probe_fails_open as (_ & T & _ & _ & K).
  assert (NE : JS.trim Demo.plainText <> "") by (vm_compute; discriminate).
  assert (P : Eff.result
                (getImageMetadata Demo.nodeLinux (Demo.fromBase64 Demo.plainText))
              = Ok None).
  { apply (T Demo.nodeLinux _ Demo.unsupported); [reflexivity|].
    right. reflexivity. }
  split; [exact P|].
  destruct (K Demo.nodeLinux [block] "bash" noOpts 0 block
              {| img_block := {| type := Str "image"; data := Str Demo.plainText;
                                 mimeType := Str "image/png"; text := Undefined;
                                 others := [] |};
                 img_data := Demo.plainText; img_mimeType := "image/png" |}
              eq_refl eq_refl NE eq_refl)
    as (out & R & _ & Same & _).
  exists out. split; [exact R|]. apply Same. reflexivity.
Defined.

(** C7 as the claim states it fails: the probe answers null for a payload
    that starts with a space, and the block that comes out has lost the
    space: its data is not unchanged. *)
Lemma probe_null_not_identical :
  let payload := (" " ++ Demo.plainText)%string in
  let block := Demo.imageBlock payload "image/png" in
  exists image out,
    asImageBlock block = Some image
    /\ probe Demo.nodeLinux image = Ok None
    /\ Eff.result
         (sanitizeContentBlocksImages Demo.nodeLinux [block] "bash" noOpts)
       = Ok out
    /\ nth_error out 0 = Some (Demo.imageBlock Demo.plainText "image/png")
    /\ nth_error out 0 <> Some block.
Proof.
  intros payload block.
  eexists. eexists. split; [reflexivity|]. split; [reflexivity|].
  split; [reflexivity|]. split; [reflexivity|].
  vm_compute. discriminate.
Qed.

(* ================================================================== *)
(** ** The MIME sniffer *)

Lemma slice0_length (n : nat) (s : string) :
  n <= String.length s -> String.length (JS.slice0 n s) = n.
Proof.
  unfold JS.slice0. revert s. induction n as [|n IH]; intros s H.
  - destruct s; reflexivity.
  - destruct s as [|c s]; simpl in *; [lia|].
    rewrite IH; [reflexivity | lia].
Qed.

Lemma slice0_prefix (n : nat) (s : string) :
  n <= String.length s -> String.prefix (JS.slice0 n s) s = true.
Proof.
  intro H. apply prefix_correct. rewrite slice0_length by assumption.
  reflexivity.
Qed.

Lemma aligned_length (len : nat) :
  let take := Nat.min 256 len in
  let sliceLen := take - take mod 4 in
  sliceLen mod 4 = 0 /\ sliceLen <= 256 /\ sliceLen <= len
  /\ take - sliceLen < 4
  /\ (len < 8 -> sliceLen < 8) /\ (8 <= len -> 8 <= sliceLen).
Proof.
  intros take sliceLen.
  assert (D : take = 4 * (take / 4) + take mod 4)
    by (apply Nat.div_mod_eq).
  assert (B : take mod 4 < 4) by (apply Nat.mod_upper_bound; lia).
  assert (E : sliceLen = (take / 4) * 4) by (unfold sliceLen; lia).
  assert (T : take <= 256 /\ take <= len /\ (8 <= len -> 8 <= take))
    by (unfold take; lia).
  split; [rewrite E; apply Nat.Div0.mod_mul|].
  repeat split; try lia.
Qed.

(** C6, as the code has it: the sniffer trims the text, keeps a prefix of it
    of at most 256 characters whose length is the largest multiple of 4 there
    is, decodes that prefix and classifies the decoded bytes; it always
    returns, with unknown when the classifier throws; and it returns unknown
    without decoding whenever that prefix has fewer than 8 base64 characters,
    which is whenever the trimmed text has fewer than 8 characters.  A prefix
    of 8 characters, which decodes to no more than 6 bytes, is classified. *)
Theorem sniff_aligned_prefix (rt : Runtime) (base64 : string) :
  let trimmed := JS.trim base64 in
  (String.length trimmed < 8 -> sniffMimeFromBase64 rt base64 = None)
  /\ (8 <= String.length trimmed ->
      exists n,
        8 <= n /\ n <= 256 /\ n mod 4 = 0
        /\ n <= String.length trimmed
        /\ Nat.min 256 (String.length trimmed) - n < 4
        /\ String.length (JS.slice0 n trimmed) = n
        /\ String.prefix (JS.slice0 n trimmed) trimmed = true
        /\ sniffMimeFromBase64 rt base64
           = match detectMime rt (Buffer_from_base64 rt (JS.slice0 n trimmed)) with
             | Ok r => r
             | Throw _ => None
             end).
Proof.
  intro trimmed.
  destruct (aligned_length (String.length trimmed))
    as (M & U & L & G & Small & Big).
  unfold sniffMimeFromBase64. fold trimmed.
  set (n := Nat.min 256 (String.length trimmed)
            - Nat.min 256 (String.length trimmed) mod 4) in *.
  split.
  - intro H. destruct (JS.isEmpty trimmed); [reflexivity|].
    apply Small in H. apply Nat.ltb_lt in H. now rewrite H.
  - intro H. exists n.
    assert (N : 8 <= n) by auto.
    repeat split; try assumption.
    + now apply slice0_length.
    + now apply slice0_prefix.
    + destruct (JS.isEmpty trimmed) eqn:E.
      * apply isEmpty_true in E. rewrite E in H. simpl in H. lia.
      * assert (F : (n <? 8)%nat = false) by (apply Nat.ltb_ge; exact N).
        rewrite F. reflexivity.
Qed.

Lemma sniff_aligned_prefix_witness :
  8 <= String.length (JS.trim Demo.png10x10)
  /\ sniffMimeFromBase64 Demo.nodeLinux Demo.png10x10 = Some "image/png"
  /\ (String.length (JS.trim "/9j/4A") < 8
      /\ sniffMimeFromBase64 Demo.nodeLinux "/9j/4A" = None).
Proof.
  assert (H : 8 <= String.length (JS.trim Demo.png10x10))
    by (vm_compute; lia).
  split; [exact H|]. split.
  - destruct (proj2 (sniff_aligned_prefix Demo.nodeLinux Demo.png10x10) H)
      as (n & _ & _ & M & L & G & _ & _ & E).
    assert (Len : String.length (JS.trim Demo.png10x10) = 32) by reflexivity.
    rewrite Len in L, G.
    pose proof (Nat.div_mod_eq n 4) as D. rewrite M in D.
    assert (N : n = 32) by lia.
    rewrite E, N. reflexivity.
  - assert (S : String.length (JS.trim "/9j/4A") < 8) by (vm_compute; lia).
    split; [exact S|].
    exact (proj1 (sniff_aligned_prefix Demo.nodeLinux "/9j/4A") S).
Defined.

(** C6 as the claim states it fails: the eight characters "R0lGODlh" decode
    to the six bytes "GIF89a", and "/9j/4AAQ" to six bytes that start with
    the JPEG signature; both are fewer than 8 bytes, and the sniffer does not
    return unknown. *)
Lemma six_bytes_classified :
  JS.slice0 8 (JS.trim Demo.gif6) = Demo.gif6
  /\ List.length (Buffer_from_base64 Demo.nodeLinux Demo.gif6) = 6
  /\ sniffMimeFromBase64 Demo.nodeLinux Demo.gif6 = Some "image/gif"
  /\ List.length (Buffer_from_base64 Demo.nodeLinux "/9j/4AAQ") = 6
  /\ sniffMimeFromBase64 Demo.nodeLinux "/9j/4AAQ" = Some "image/jpeg"
  /\ ~ (List.length (Buffer_from_base64 Demo.nodeLinux Demo.gif6) < 8 ->
        sniffMimeFromBase64 Demo.nodeLinux Demo.gif6 = None).
Proof.
  repeat split.
  intro H. assert (L : 6 < 8) by lia. specialize (H L). discriminate H.
Qed.

(* ================================================================== *)
(** ** The read-result normaliser *)

(** [findImage] answers with the first block that passes the image test. *)
Lemma findImage_first (content : list ToolContentBlock)
    (image : ImageContentBlock) :
  findImage content = Some image ->
  exists i b,
    nth_error content i = Some b
    /\ asImageBlock b = Some image
    /\ forall j b0, j < i -> nth_error content j = Some b0 ->
                    asImageBlock b0 = None.
Proof.
  induction content as [|b rest IH]; simpl; [discriminate|].
  destruct (asImageBlock b) as [im|] eqn:A.
  - intro H. inversion H; subst. exists 0, b. repeat split; try assumption.
    intros j b0 Hj. lia.
  - intro H. destruct (IH H) as (i & b1 & N & A1 & F).
    exists (S i), b1. repeat split; try assumption.
    intros [|j] b0 Hj Hn; simpl in Hn.
    + inversion Hn; subst. exact A.
    + apply (F j); [lia | exact Hn].
Qed.

(** C3: [normalizeReadImageResult] throws exactly when the result has a first
    well-formed image block (the block [findImage] answers with: no block
    before it passes the image test) and either that block's payload is empty
    after trimming, or the sniffer classifies the payload as something that
    is not an image type; the error for the empty payload has the file path
    in its message.  In every other case (no such block, no classification, a
    classification as an image type, equal to the declared type or not) it
    returns. *)
Theorem normalize_raises_exactly (rt : Runtime) (result : AgentToolResult)
    (filePath : string) :
  ((exists e, normalizeReadImageResult rt result filePath = Throw e)
   <->
   (exists image,
      findImage (contentOf result) = Some image
      /\ (JS.trim (img_data image) = ""
          \/ exists s, classifiedAs rt (img_data image) s
                       /\ JS.startsWith s "image/" = false)))
  /\ (forall image,
        findImage (contentOf result) = Some image ->
        exists i b,
          nth_error (contentOf result) i = Some b
          /\ asImageBlock b = Some image
          /\ forall j b0, j < i -> nth_error (contentOf result) j = Some b0 ->
                          asImageBlock b0 = None)
  /\ (forall image,
        findImage (contentOf result) = Some image ->
        JS.trim (img_data image) = "" ->
        exists e, normalizeReadImageResult rt result filePath = Throw e
                  /\ JS.includes (err_message e) filePath)
  /\ (~ (exists image,
           findImage (contentOf result) = Some image
           /\ (JS.trim (img_data image) = ""
               \/ exists s, classifiedAs rt (img_data image) s
                            /\ JS.startsWith s "image/" = false)) ->
      exists r, normalizeReadImageResult rt result filePath = Ok r).
Proof.
  assert (Iff :
    (exists e, normalizeReadImageResult rt result filePath = Throw e)
    <->
    (exists image,
       findImage (contentOf result) = Some image
       /\ (JS.trim (img_data image) = ""
           \/ exists s, classifiedAs rt (img_data image) s
                        /\ JS.startsWith s "image/" = false))).
  { unfold normalizeReadImageResult, classifiedAs.
    destruct (findImage (contentOf result)) as [image|].
    - destruct (JS.isEmpty (JS.trim (img_data image))) eqn:E.
      + apply isEmpty_true in E. split; intros _; eauto.
      + apply isEmpty_false in E.
        destruct (sniffMimeFromBase64 rt (img_data image)) as [s|] eqn:Sn.
        * destruct (JS.isEmpty s) eqn:Es.
          -- apply isEmpty_true in Es. subst s. split.
             ++ intros [e H]. discriminate H.
             ++ intros (im & H & [T | (s & [S NE] & _)]);
                  inversion H; subst; [congruence|].
                rewrite Sn in S. inversion S; subst. congruence.
          -- apply isEmpty_false in Es.
             destruct (JS.startsWith s "image/") eqn:P; cbn [negb].
             ++ split.
                ** intros [e H].
                   destruct (String.eqb s (img_mimeType image)); discriminate H.
                ** intros (im & H & [T | (s' & [S NE] & Q)]);
                     inversion H; subst; [congruence|].
                   rewrite Sn in S. inversion S; subst. congruence.
             ++ split; intros _; [|eauto].
                exists image. split; [reflexivity|]. right. exists s. auto.
        * split.
          -- intros [e H]. discriminate H.
          -- intros (im & H & [T | (s & [S NE] & _)]);
               inversion H; subst; [congruence|].
             rewrite Sn in S. discriminate S.
    - split.
      + intros [e H]. discriminate H.
      + intros (im & H & _). discriminate H. }
  split; [exact Iff|]. split; [|split].
  - intros image F. now apply findImage_first.
  - intros image F T. unfold normalizeReadImageResult. rewrite F, T.
    cbn [JS.isEmpty]. eexists. split; [reflexivity|].
    unfold Error, JS.includes. cbn [err_message].
    exists "read: image payload is empty (", ")". reflexivity.
  - intro H.
    destruct (normalizeReadImageResult rt result filePath) as [r|e] eqn:N;
      [eauto|].
    exfalso. apply H. apply Iff. eauto.
Qed.

Lemma normalize_raises_exactly_witness :
  let result := {| content := Some [textBlock "Read image file [image/png]";
                                    Demo.imageBlock " " "image/png"];
                   details := [] |} in
  (exists image,
     findImage (contentOf result) = Some image /\ JS.trim (img_data image) = "")
  /\ exists e,
       normalizeReadImageResult Demo.nodeLinux result "/tmp/shot.png" = Throw e
       /\ JS.includes (err_message e) "/tmp/shot.png".
Proof.
  intro result.
  assert (F : findImage (contentOf result)
              = Some {| img_block := {| type := Str "image"; data := Str " ";
                                        mimeType := Str "image/png";
                                        text := Undefined; others := [] |};
                        img_data := " "; img_mimeType := "image/png" |})
    by reflexivity.
  split; [eexists; split; [exact F | reflexivity]|].
  exact (proj1 (proj2 (proj2 (normalize_raises_exactly Demo.nodeLinux result
                                "/tmp/shot.png"))) _ F eq_refl).
Defined.

Lemma list_ascii_of_append (a b : string) :
  list_ascii_of_string (a ++ b)
  = (list_ascii_of_string a ++ list_ascii_of_string b)%list.
Proof.
  induction a as [|c a IH]; simpl; [reflexivity | now rewrite IH].
Qed.

Lemma string_of_list_app (l1 l2 : list ascii) :
  string_of_list_ascii (l1 ++ l2)
  = (string_of_list_ascii l1 ++ string_of_list_ascii l2)%string.
Proof.
  induction l1 as [|c l1 IH]; simpl; [reflexivity | now rewrite IH].
Qed.

Lemma reverse_append (a b : string) :
  JS.reverse (a ++ b) = (JS.reverse b ++ JS.reverse a)%string.
Proof.
  unfold JS.reverse.
  now rewrite list_ascii_of_append, rev_app_distr, string_of_list_app.
Qed.

Lemma prefix_append (p s : string) : String.prefix p (p ++ s) = true.
Proof.
  induction p as [|c p IH]; simpl.
  - destruct s; reflexivity.
  - destruct (ascii_dec c c); [exact IH | congruence].
Qed.

Lemma readHeader_matches (mime : string) :
  JS.startsWith (readHeader mime) "Read image file [" = true
  /\ JS.endsWith (readHeader mime) "]" = true.
Proof.
  unfold readHeader, JS.startsWith, JS.endsWith. split.
  - apply prefix_append.
  - rewrite !reverse_append. change (JS.reverse "]") with "]".
    cbn [String.append String.prefix].
    destruct (ascii_dec "]" "]"); [|congruence].
    destruct (JS.reverse mime ++ JS.reverse "Read image file [")%string;
      reflexivity.
Qed.

Lemma propEq_true (v : JsValue) (s : string) :
  propEq v s = true <-> v = Str s.
Proof.
  destruct v as [|x|n]; simpl; try (split; discriminate).
  rewrite String.eqb_eq. split; congruence.
Qed.

Lemma withText_same (o : BlockObject) (t : string) :
  text o = Str t -> withText o t = o.
Proof.
  intro H. unfold withText. rewrite <- H. destruct o; reflexivity.
Qed.

(** C5, as the code has it.  Let the first well-formed image block have a
    non-blank payload.  When the sniffer is inconclusive, or yields an image
    type equal to the declared one, the result is returned unchanged.  When
    it yields an image type that differs from the declared one, a new result
    comes back with the same number of blocks, in which every block whose
    type is "image" has the sniffed mimeType and is otherwise the same; a
    text block is rewritten to "Read image file [<sniffed>]" exactly when its
    text starts with "Read image file [" and ends with "]", whatever stands
    between them, so in particular when it is the header of the old type;
    every other block is unchanged. *)
Theorem normalize_relabels (rt : Runtime) (result : AgentToolResult)
    (filePath : string) (image : ImageContentBlock) :
  findImage (contentOf result) = Some image ->
  JS.trim (img_data image) <> "" ->
  ((sniffMimeFromBase64 rt (img_data image) = None
    \/ sniffMimeFromBase64 rt (img_data image) = Some ""
    \/ (sniffMimeFromBase64 rt (img_data image) = Some (img_mimeType image)
        /\ JS.startsWith (img_mimeType image) "image/" = true)) ->
   normalizeReadImageResult rt result filePath = Ok result)
  /\ (forall s,
        sniffMimeFromBase64 rt (img_data image) = Some s ->
        JS.startsWith s "image/" = true ->
        s <> img_mimeType image ->
        exists next,
          normalizeReadImageResult rt result filePath
          = Ok {| content := Some next; details := details result |}
          /\ List.length next = List.length (contentOf result)
          /\ forall i b,
               nth_error (contentOf result) i = Some b ->
               exists b',
                 nth_error next i = Some b'
                 /\ (forall o, b = Obj o -> type o = Str "image" ->
                               b' = Obj (withMimeType o s))
                 /\ (forall o t,
                       b = Obj o -> type o = Str "text" -> text o = Str t ->
                       (JS.startsWith t "Read image file [" && JS.endsWith t "]"
                        = true ->
                        b' = Obj (withText o (readHeader s)))
                       /\ (JS.startsWith t "Read image file [" && JS.endsWith t "]"
                           = false ->
                           b' = b)
                       /\ (forall old, t = readHeader old ->
                                       b' = Obj (withText o (readHeader s))))
                 /\ ((forall o, b = Obj o -> type o <> Str "image") ->
                     isTextBlock b = false -> b' = b)).
Proof.
  intros F NE. apply isEmpty_false in NE. split.
  - intro H. unfold normalizeReadImageResult. rewrite F, NE.
    destruct H as [-> | [-> | [-> P]]]; try reflexivity.
    rewrite P. cbn [negb]. rewrite String.eqb_refl.
    destruct (JS.isEmpty (img_mimeType image)); reflexivity.
  - intros s S P D. exists (map (relabel s) (contentOf result)).
    split; [|split].
    + unfold normalizeReadImageResult. rewrite F, NE, S, P. cbn [negb].
      apply String.eqb_neq in D. rewrite D.
      destruct s; [discriminate P | reflexivity].
    + apply length_map.
    + intros i b N. exists (relabel s b).
      split; [rewrite nth_error_map, N; reflexivity|].
      split; [|split].
      * intros o -> T. unfold relabel.
        apply propEq_true in T. now rewrite T.
      * intros o t -> T X. unfold relabel, rewriteReadImageHeader.
        assert (Ti : propEq (type o) "image" = false) by (now rewrite T).
        apply propEq_true in T. rewrite Ti, T, X.
        split; [|split].
        -- intros ->. reflexivity.
        -- intros ->. now rewrite withText_same.
        -- intros old ->. destruct (readHeader_matches old) as [-> ->].
           reflexivity.
      * intros NI NT. unfold relabel. destruct b as [o|v]; [|reflexivity].
        destruct (propEq (type o) "image") eqn:Ti.
        -- apply propEq_true in Ti. exfalso. now apply (NI o).
        -- unfold isTextBlock in NT.
           destruct (propEq (type o) "text"); [|reflexivity].
           destruct (text o); try reflexivity. discriminate NT.
Qed.

Lemma normalize_relabels_witness :
  let result := {| content := Some [textBlock "Read image file [image/jpeg]";
                                    Demo.imageBlock Demo.png10x10 "image/jpeg"];
                   details := [] |} in
  sniffMimeFromBase64 Demo.nodeLinux Demo.png10x10 = Some "image/png"
  /\ exists next,
       normalizeReadImageResult Demo.nodeLinux result "shot.jpg"
       = Ok {| content := Some next; details := [] |}
       /\ nth_error next 0 = Some (textBlock "Read image file [image/png]")
       /\ nth_error next 1 = Some (Demo.imageBlock Demo.png10x10 "image/png").
Proof.
  intro result. split; [reflexivity|].
  assert (NE : JS.trim Demo.png10x10 <> "") by (vm_compute; discriminate).
  assert (D : "image/png" <> "image/jpeg") by discriminate.
  destruct (proj2 (@normalize_relabels Demo.nodeLinux result "shot.jpg"
                     {| img_block := {| type := Str "image";
                                        data := Str Demo.png10x10;
                                        mimeType := Str "image/jpeg";
                                        text := Undefined; others := [] |};
                        img_data := Demo.png10x10;
                        img_mimeType := "image/jpeg" |}
                     eq_refl NE)
              "image/png" eq_refl eq_refl D)
    as (next & R & _ & B).
  exists next. split; [exact R|]. split.
  - destruct (B 0 _ eq_refl) as (b' & N & _ & T & _).
    rewrite N. f_equal.
    exact (proj2 (proj2 (T _ _ eq_refl eq_refl eq_refl)) "image/jpeg" eq_refl).
  - destruct (B 1 _ eq_refl) as (b' & N & I & _).
    rewrite N. f_equal. exact (I _ eq_refl eq_refl).
Defined.

(** C5 as the claim states it fails.  A text block that is not the header of
    the old type, but starts with "Read image file [" and ends with "]", is
    rewritten all the same; and when the sniffer yields the declared type and
    that type is no image type, the result is not returned: the call
    throws. *)
Lemma header_rewritten_without_old_mime :
  let note := "Read image file [a.png], see note [1]" in
  let result := {| content := Some [textBlock note;
                                    Demo.imageBlock Demo.png10x10 "image/jpeg"];
                   details := [] |} in
  let mislabelled :=
    {| content := Some [Demo.imageBlock Demo.pdfText "application/pdf"];
       details := [] |} in
  note <> readHeader "image/jpeg"
  /\ normalizeReadImageResult Demo.nodeLinux result "a.jpg"
     = Ok {| content := Some [textBlock "Read image file [image/png]";
                              Demo.imageBlock Demo.png10x10 "image/png"];
             details := [] |}
  /\ sniffMimeFromBase64 Demo.nodeLinux Demo.pdfText = Some "application/pdf"
  /\ normalizeReadImageResult Demo.nodeLinux mislabelled "a.pdf"
     = Throw (Error "read: file looks like application/pdf but was treated as application/pdf (a.pdf)").
Proof.
  intros note result mislabelled.
  split; [vm_compute; discriminate|].
  repeat split.
Qed.

(* ================================================================== *)
(** ** The encoder of the native resize path *)

Lemma sharpResize_format (rt : Runtime) (buf : Buffer) (mime : string)
    (limit : number) :
  import_sharp rt = Ok tt ->
  let r := {| resize_width := limit; resize_height := limit;
              resize_withoutEnlargement := true |} in
  let f := match declaredFamily mime with
           | JPEG => Jpeg (Fin 85) false
           | WEBP => Webp (Fin 85)
           | PNG => Png
           end in
  sharpResize rt buf mime limit
  = ([ImportSharp; SharpToBuffer buf r f], sharp_toBuffer rt buf r f).
Proof.
  intros I r f. unfold sharpResize, Eff.bind, Eff.call. rewrite I.
  unfold f, declaredFamily. fold r.
  destruct (String.eqb mime "image/jpeg"); cbn [orb]; [reflexivity|].
  destruct (String.eqb mime "image/jpg"); [reflexivity|].
  destruct (String.eqb mime "image/webp"); [reflexivity|].
  destruct (String.eqb mime "image/png"); reflexivity.
Qed.

(** C10: on the native path of [resizeImageBase64IfNeeded] the encoder is a
    function of the declared mimeType alone: JPEG for "image/jpeg" and
    "image/jpg" in any letter case, WEBP for "image/webp", PNG for everything
    else.  Whatever the runtime and the payload, once the probe finds a side
    over the limit and sharp loads, the first call after the probe's is
    sharp's resize of the decoded payload into that encoder, and when it
    succeeds nothing else is called and its bytes are the re-encoded
    image.  Those bytes are what comes back: the request returns them
    base64-encoded with [resized] true, under the type sniffed from them when
    that is an image type and the declared type otherwise (and it throws
    what [detectMime] throws), and the sanitizer puts exactly that payload
    and type in the image block's place. *)
Theorem native_encoder_from_declared_type (declared : string) :
  exists f,
    familyOf f = declaredFamily (JS.toLowerCase declared)
    /\ forall rt payload limit m,
         let buf := Buffer_from_base64 rt payload in
         let r := {| resize_width := limit; resize_height := limit;
                     resize_withoutEnlargement := true |} in
         let req := {| base64 := payload; rp_mimeType := declared;
                       maxDimensionPx := limit |} in
         Eff.result (getImageMetadata rt buf) = Ok (Some m) ->
         within m limit = false ->
         import_sharp rt = Ok tt ->
         (exists rest,
            Eff.calls (resizeImageBase64IfNeeded rt req)
            = Eff.calls (getImageMetadata rt buf)
              ++ [ImportSharp; SharpToBuffer buf r f] ++ rest
            /\ (forall bytes, sharp_toBuffer rt buf r f = Ok bytes -> rest = []))
         /\ (forall bytes,
               sharp_toBuffer rt buf r f = Ok bytes ->
               Eff.result (reencode rt buf declared limit) = Ok bytes)
         /\ (forall bytes,
               sharp_toBuffer rt buf r f = Ok bytes ->
               resizeImageBase64IfNeeded rt req
               = (Eff.calls (getImageMetadata rt buf)
                  ++ [ImportSharp; SharpToBuffer buf r f],
                  match detectMime rt (firstn 256 bytes) with
                  | Ok sniffed =>
                      Ok {| out_base64 := Buffer_toString_base64 rt bytes;
                            out_mimeType := MoreProps.relabelled sniffed declared;
                            resized := true |}
                  | Throw e => Throw e
                  end))
         /\ (forall bytes blocks label opts i block image,
               sharp_toBuffer rt buf r f = Ok bytes ->
               nth_error blocks i = Some block ->
               asImageBlock block = Some image ->
               JS.trim (img_data image) = payload ->
               payload <> "" ->
               img_mimeType image = declared ->
               effectiveMax opts = limit ->
               exists out,
                 Eff.result (sanitizeContentBlocksImages rt blocks label opts)
                 = Ok out
                 /\ nth_error out i
                    = Some
                        match detectMime rt (firstn 256 bytes) with
                        | Ok sniffed =>
                            Obj (withDataMimeType (img_block image)
                                   (Buffer_toString_base64 rt bytes)
                                   (MoreProps.relabelled sniffed declared))
                        | Throw e => textBlock (failedPayloadText label e)
                        end).
Proof.
  exists (match declaredFamily (JS.toLowerCase declared) with
          | JPEG => Jpeg (Fin 85) false
          | WEBP => Webp (Fin 85)
          | PNG => Png
          end).
  split; [destruct (declaredFamily (JS.toLowerCase declared)); reflexivity|].
  intros rt payload limit m buf r req M W I.
  pose proof (sharpResize_format rt buf (JS.toLowerCase declared) limit I) as S.
  cbv zeta in S. fold r in S.
  set (f := match declaredFamily (JS.toLowerCase declared) with
            | JPEG => Jpeg (Fin 85) false
            | WEBP => Webp (Fin 85)
            | PNG => Png
            end) in *.
  assert (Q : forall bytes,
             sharp_toBuffer rt buf r f = Ok bytes ->
             resizeImageBase64IfNeeded rt req
             = (Eff.calls (getImageMetadata rt buf)
                ++ [ImportSharp; SharpToBuffer buf r f],
                match detectMime rt (firstn 256 bytes) with
                | Ok sniffed =>
                    Ok {| out_base64 := Buffer_toString_base64 rt bytes;
                          out_mimeType := MoreProps.relabelled sniffed declared;
                          resized := true |}
                | Throw e => Throw e
                end)).
  { intros bytes B.
    unfold resizeImageBase64IfNeeded. cbn [base64 rp_mimeType maxDimensionPx req].
    fold buf. destruct (getImageMetadata rt buf) as [t0 r0].
    unfold Eff.result in M. cbn [snd] in M. subst r0.
    unfold within in W. unfold Eff.bind at 1. rewrite W, S, B.
    unfold Eff.calls, Eff.tryCatch, Eff.bind. cbn [fst snd].
    destruct (detectMime rt (firstn 256 bytes)) as [s|e];
      unfold Eff.ret, Eff.throw, MoreProps.relabelled; cbn [fst snd];
      now rewrite !app_nil_r. }
  split; [|split; [|split]].
  - unfold resizeImageBase64IfNeeded. cbn [base64 rp_mimeType maxDimensionPx req].
    fold buf. destruct (getImageMetadata rt buf) as [t0 r0].
    unfold Eff.result in M. cbn [snd] in M. subst r0.
    unfold within in W. unfold Eff.bind at 1. rewrite W, S.
    unfold Eff.calls. cbn [fst].
    destruct (sharp_toBuffer rt buf r f) as [bytes|e].
    + exists []. split; [|reflexivity].
      unfold Eff.tryCatch, Eff.bind.
      destruct (detectMime rt (firstn 256 bytes)) as [s|e];
        unfold Eff.ret, Eff.throw; cbn [fst]; now rewrite !app_nil_r.
    + unfold Eff.tryCatch.
      destruct (resizeToJpeg rt _) as [t1 [out|e1]].
      * exists t1. split; [|discriminate].
        unfold Eff.bind.
        destruct (detectMime rt (firstn 256 out)) as [s|e2];
          unfold Eff.ret, Eff.throw; cbn [fst]; now rewrite !app_nil_r.
      * exists t1. split; [|discriminate]. reflexivity.
  - intros bytes B. unfold reencode. rewrite S, B. reflexivity.
  - exact Q.
  - intros bytes blocks label opts i block image B N A T NE D L.
    rewrite sanitize_result. eexists. split; [reflexivity|].
    rewrite nth_error_map, N. cbn [option_map]. f_equal.
    unfold turn. rewrite A, T, D, L.
    apply isEmpty_false in NE. rewrite NE.
    fold req. rewrite (Q bytes B).
    destruct (detectMime rt (firstn 256 bytes)); reflexivity.
Qed.

Lemma native_encoder_from_declared_type_witness :
  let rt := Demo.nodeLinux in
  let payload := Demo.png4000x3000 in
  let m := {| width := Fin 4000; height := Fin 3000 |} in
  let block := Demo.imageBlock payload "Image/JPEG" in
  (Eff.result (getImageMetadata rt (Buffer_from_base64 rt payload)) = Ok (Some m)
   /\ within m (Fin 2000) = false
   /\ import_sharp rt = Ok tt)
  /\ exists f,
       familyOf f = JPEG
       /\ Eff.result
            (reencode rt (Buffer_from_base64 rt payload) "Image/JPEG" (Fin 2000))
          = Ok Demo.jpegHeader
       /\ Eff.result
            (resizeImageBase64IfNeeded rt
               {| base64 := payload; rp_mimeType := "Image/JPEG";
                  maxDimensionPx := Fin 2000 |})
          = Ok {| out_base64 := "/9j/4AAQSkZJRgAB";
                  out_mimeType := "image/jpeg";
                  resized := true |}
       /\ exists out,
            Eff.result (sanitizeContentBlocksImages rt [block] "read" noOpts)
            = Ok out
            /\ nth_error out 0
               = Some (Demo.imageBlock "/9j/4AAQSkZJRgAB" "image/jpeg").
Proof.
  intros rt payload m block.
  assert (M : Eff.result (getImageMetadata rt (Buffer_from_base64 rt payload))
              = Ok (Some m)) by (vm_compute; reflexivity).
  assert (W : within m (Fin 2000) = false) by reflexivity.
  assert (I : import_sharp rt = Ok tt) by reflexivity.
  assert (D : declaredFamily (JS.toLowerCase "Image/JPEG") = JPEG)
    by (vm_compute; reflexivity).
  split; [repeat split; assumption|].
  destruct (native_encoder_from_declared_type "Image/JPEG") as (f & F & H).
  rewrite D in F.
  destruct (H rt payload (Fin 2000) m M W I) as (_ & B & Q & S).
  assert (E : sharp_toBuffer rt (Buffer_from_base64 rt payload)
                {| resize_width := Fin 2000; resize_height := Fin 2000;
                   resize_withoutEnlargement := true |} f
              = Ok Demo.jpegHeader)
    by (destruct f; try discriminate F; vm_compute; reflexivity).
  exists f. split; [exact F|]. split; [apply B; exact E|]. split.
  - rewrite (Q _ E). vm_compute. reflexivity.
  - destruct (S Demo.jpegHeader [block] "read" noOpts 0%nat block
                {| img_block := {| type := Str "image"; data := Str payload;
                                   mimeType := Str "Image/JPEG";
                                   text := Undefined; others := [] |};
                   img_data := payload; img_mimeType := "Image/JPEG" |}
                E) as (out & O & N).
    + reflexivity.
    + reflexivity.
    + vm_compute. reflexivity.
    + discriminate.
    + reflexivity.
    + reflexivity.
    + exists out. split; [exact O|]. rewrite N. vm_compute. reflexivity.
Defined.

(* ================================================================== *)
(** ** Further properties of src/media/image-ops.ts *)

Import MoreProps.

Section SipsReportFacts.

Lemma takeDigits_allDigits (s : string) : allDigits (takeDigits s) = true.
Proof.
  induction s as [|c s IH]; simpl; [reflexivity|].
  destruct (isDigit c) eqn:D; simpl; [now rewrite D | reflexivity].
Qed.

Lemma prefix_app (key x : string) :
  String.prefix key (key ++ x)%string = true.
Proof.
  induction key as [|c k IH]; simpl; [destruct x; reflexivity|].
  destruct (ascii_dec c c); [exact IH | congruence].
Qed.

Lemma prefix_split (key q : string) :
  String.prefix key q = true ->
  q = (key ++ drop (String.length key) q)%string.
Proof.
  revert q. induction key as [|c k IH]; intros q H; simpl; [reflexivity|].
  destruct q as [|b q]; simpl in H; [discriminate|].
  destruct (ascii_dec c b); [|discriminate]. subst b.
  f_equal. now apply IH.
Qed.

Lemma drop_app (key x : string) :
  drop (String.length key) (key ++ x)%string = x.
Proof.
  induction key as [|c k IH]; simpl; [reflexivity | exact IH].
Qed.

Lemma digit_not_space (c : ascii) :
  isDigit c = true -> JS.isWhiteSpace c = false.
Proof.
  unfold isDigit, JS.isWhiteSpace. intro H.
  apply andb_true_iff in H. destruct H as [A B].
  apply Nat.leb_le in A, B.
  set (n := nat_of_ascii c) in *.
  assert (E1 : (n <=? 13)%nat = false) by (apply Nat.leb_gt; lia).
  assert (E2 : (n =? 32)%nat = false) by (apply Nat.eqb_neq; lia).
  assert (E3 : (n =? 160)%nat = false) by (apply Nat.eqb_neq; lia).
  now rewrite E1, E2, E3, andb_false_r.
Qed.

Lemma trimStart_ws (sp t : string) :
  JS.allWhiteSpace sp = true ->
  JS.trimStart (sp ++ t)%string = JS.trimStart t.
Proof.
  induction sp as [|c sp IH]; simpl; intro H; [reflexivity|].
  apply andb_true_iff in H. destruct H as [A B]. rewrite A. now apply IH.
Qed.

Lemma trimStart_split (s : string) :
  exists sp, s = (sp ++ JS.trimStart s)%string /\ JS.allWhiteSpace sp = true.
Proof.
  induction s as [|c s (sp & E & W)]; [exists ""%string; split; reflexivity|].
  simpl. destruct (JS.isWhiteSpace c) eqn:C.
  - exists (String c sp). simpl. rewrite C, W.
    split; [f_equal; exact E | reflexivity].
  - exists ""%string. split; reflexivity.
Qed.

Lemma takeDigits_app (d post : string) :
  allDigits d = true -> noDigitAhead post = true ->
  takeDigits (d ++ post)%string = d.
Proof.
  induction d as [|c d IH]; simpl; intros A N.
  - destruct post as [|b post]; [reflexivity|].
    simpl in N. apply negb_true_iff in N. simpl. now rewrite N.
  - apply andb_true_iff in A. destruct A as [A1 A2].
    rewrite A1. f_equal. now apply IH.
Qed.

Lemma takeDigits_split (s : string) :
  exists post, s = (takeDigits s ++ post)%string /\ noDigitAhead post = true.
Proof.
  induction s as [|c s (post & E & N)]; [exists ""%string; split; reflexivity|].
  simpl. destruct (isDigit c) eqn:D.
  - exists post. simpl. split; [f_equal; exact E | exact N].
  - exists (String c s). simpl. rewrite D. split; reflexivity.
Qed.

(** [matchHere] is the pattern anchored at the start of the string. *)
Lemma matchHere_fieldHere (key q d : string) :
  matchHere key q = Some d <-> fieldHere key q d.
Proof.
  unfold matchHere, fieldHere. split.
  - destruct (String.prefix key q) eqn:P; [|discriminate].
    destruct (JS.isEmpty _) eqn:E; [discriminate|].
    intro H. injection H as <-.
    destruct (trimStart_split (drop (String.length key) q)) as (sp & Es & W).
    destruct (takeDigits_split (JS.trimStart (drop (String.length key) q)))
      as (post & Ep & N).
    exists sp, post. repeat split; try assumption.
    + rewrite <- Ep, <- Es. now apply prefix_split.
    + now apply isEmpty_false.
    + apply takeDigits_allDigits.
  - intros (sp & post & -> & W & NE & A & N).
    rewrite prefix_app, drop_app, (@trimStart_ws sp _ W).
    destruct d as [|c d]; [congruence|].
    simpl in A. apply andb_true_iff in A. destruct A as [A1 A2].
    change (String c d ++ post)%string with (String c (d ++ post)%string).
    cbn [JS.trimStart]. rewrite (@digit_not_space c A1).
    cbn [takeDigits]. rewrite A1, (@takeDigits_app d post A2 N). reflexivity.
Qed.

(** [matchGroup1] is the leftmost match of the pattern. *)
Lemma matchGroup1_firstField (key s d : string) :
  matchGroup1 key s = Some d <-> firstField key s d.
Proof.
  split.
  - induction s as [|c s IH]; cbn [matchGroup1].
    + destruct (matchHere key "") eqn:M; [|discriminate].
      intro H. injection H as ->. exists ""%string, ""%string.
      split; [reflexivity|]. split; [now apply matchHere_fieldHere|].
      intros p1 p2 d' E NE. destruct p1; destruct p2; simpl in E; congruence.
    + destruct (matchHere key (String c s)) eqn:M.
      * intro H. injection H as ->. exists ""%string, (String c s).
        split; [reflexivity|]. split; [now apply matchHere_fieldHere|].
        intros p1 p2 d' E NE. destruct p1; destruct p2; simpl in E; congruence.
      * intro H. destruct (IH H) as (pre & q & E & F & G).
        exists (String c pre), q. split; [simpl; now rewrite E|].
        split; [exact F|].
        intros p1 p2 d' Ep NE Fh. destruct p1 as [|b p1].
        -- simpl in Ep. subst p2. apply matchHere_fieldHere in Fh.
           simpl in Fh. rewrite <- E in Fh. congruence.
        -- simpl in Ep. injection Ep as _ Ep. exact (G p1 p2 d' Ep NE Fh).
  - intros (pre & q & -> & F & G). induction pre as [|c pre IH].
    + cbn [String.append]. apply matchHere_fieldHere in F.
      destruct q; cbn [matchGroup1]; now rewrite F.
    + change (String c pre ++ q)%string with (String c (pre ++ q)%string).
      cbn [matchGroup1].
      destruct (matchHere key (String c (pre ++ q))) as [d'|] eqn:M.
      * exfalso. apply matchHere_fieldHere in M.
        apply (G ""%string (String c pre) d');
          [reflexivity | discriminate | exact M].
      * apply IH. intros p1 p2 d' E NE.
        apply (G (String c p1) p2 d'); [simpl; now rewrite E | exact NE].
Qed.

Lemma parseDigits_fold (d : string) (acc : Z) :
  allDigits d = true ->
  parseDigits acc d
  = fold_left (fun acc c => (10 * acc + (Z.of_nat (nat_of_ascii c) - 48))%Z)
      (list_ascii_of_string d) acc.
Proof.
  revert acc. induction d as [|c d IH]; intros acc A;
    cbn [parseDigits list_ascii_of_string fold_left]; [reflexivity|].
  simpl in A. apply andb_true_iff in A. destruct A as [A1 A2].
  rewrite A1, (IH _ A2). f_equal.
  unfold isDigit in A1. apply andb_true_iff in A1. destruct A1 as [L _].
  apply Nat.leb_le in L. lia.
Qed.

Lemma parseInt10_digits (d : string) :
  d <> ""%string -> allDigits d = true ->
  parseInt10 d = Fin (decimalValue d).
Proof.
  intros NE A. unfold decimalValue. rewrite <- (@parseDigits_fold d 0%Z A).
  destruct d as [|c d]; [congruence|].
  simpl in A. apply andb_true_iff in A. destruct A as [D _].
  unfold parseInt10. now rewrite D.
Qed.

Lemma firstField_parse (key s d : string) :
  firstField key s d ->
  matchGroup1 key s = Some d
  /\ JS.isEmpty d = false
  /\ parseInt10 d = Fin (decimalValue d).
Proof.
  intro F. pose proof F as (pre & q & _ & (sp & post & _ & _ & NE & A & _) & _).
  split; [now apply matchGroup1_firstField|].
  split; [now apply isEmpty_false | now apply parseInt10_digits].
Qed.

End SipsReportFacts.

(** X1: once the sips query has printed something, [sipsMetadataFromBuffer]
    returns after that one call.  When the output has a "pixelWidth:" and a
    "pixelHeight:" field (the key, optional white space, then digits; the
    leftmost such place counts) of at most 15 digits each, the answer is the
    size made of the two numbers if both are positive, and null if one is 0.
    When one of the two fields is nowhere in the output the answer is null,
    so that a size is only ever answered when both fields are there. *)
Theorem sips_report_answer (rt : Runtime) (buf : Buffer) (stdout : string) :
  sips_query rt buf = Ok stdout ->
  exists r,
    sipsMetadataFromBuffer rt buf = ([SipsQuery buf], Ok r)
    /\ (forall w h,
          firstField "pixelWidth:" stdout w ->
          firstField "pixelHeight:" stdout h ->
          (String.length w <= 15)%nat ->
          (String.length h <= 15)%nat ->
          r = if (0 <? decimalValue w)%Z && (0 <? decimalValue h)%Z
              then Some {| width := Fin (decimalValue w);
                           height := Fin (decimalValue h) |}
              else None)
    /\ ((forall w, ~ firstField "pixelWidth:" stdout w)
        \/ (forall h, ~ firstField "pixelHeight:" stdout h) ->
        r = None)
    /\ (forall m,
          r = Some m ->
          exists w h,
            firstField "pixelWidth:" stdout w
            /\ firstField "pixelHeight:" stdout h).
Proof.
  intro Q. unfold sipsMetadataFromBuffer, Eff.bind, Eff.call. rewrite Q.
  destruct (matchGroup1 "pixelWidth:" stdout) as [w|] eqn:Mw.
  2:{ exists None. split; [reflexivity|]. split; [|split].
      - intros w h Fw _ _ _. apply matchGroup1_firstField in Fw. congruence.
      - reflexivity.
      - discriminate. }
  destruct (matchGroup1 "pixelHeight:" stdout) as [h|] eqn:Mh.
  2:{ exists None. split; [reflexivity|]. split; [|split].
      - intros w0 h _ Fh _ _. apply matchGroup1_firstField in Fh. congruence.
      - reflexivity.
      - discriminate. }
  pose proof (proj1 (matchGroup1_firstField _ _ _) Mw) as Fw.
  pose proof (proj1 (matchGroup1_firstField _ _ _) Mh) as Fh.
  destruct (firstField_parse Fw) as (_ & Ew & Pw).
  destruct (firstField_parse Fh) as (_ & Eh & Ph).
  rewrite Ew, Eh, Pw, Ph. cbn [orb Num.isFinite negb Num.leb].
  exists (if (decimalValue w <=? 0)%Z || (decimalValue h <=? 0)%Z
          then None
          else Some {| width := Fin (decimalValue w);
                       height := Fin (decimalValue h) |}).
  split.
  { unfold Eff.ret.
    destruct ((decimalValue w <=? 0)%Z || (decimalValue h <=? 0)%Z);
      cbn [fst snd app]; reflexivity. }
  split; [|split].
  - intros w0 h0 Fw0 Fh0 _ _.
    apply matchGroup1_firstField in Fw0, Fh0.
    rewrite Mw in Fw0. rewrite Mh in Fh0.
    injection Fw0 as <-. injection Fh0 as <-.
    destruct (decimalValue w <=? 0)%Z eqn:Zw;
      destruct (decimalValue h <=? 0)%Z eqn:Zh;
      destruct (0 <? decimalValue w)%Z eqn:Gw;
      destruct (0 <? decimalValue h)%Z eqn:Gh;
      cbn [orb andb snd]; try reflexivity; exfalso;
      repeat match goal with
             | H : (_ <=? _)%Z = true |- _ => apply Z.leb_le in H
             | H : (_ <=? _)%Z = false |- _ => apply Z.leb_gt in H
             | H : (_ <? _)%Z = true |- _ => apply Z.ltb_lt in H
             | H : (_ <? _)%Z = false |- _ => apply Z.ltb_ge in H
             end; lia.
  - intros [N | N]; exfalso; [exact (N w Fw) | exact (N h Fh)].
  - intros m _. exists w, h. split; assumption.
Qed.

Lemma sips_report_answer_witness :
  let rt := Demo.bunDarwin in
  let buf := Buffer_from_base64 rt Demo.png640x480 in
  let stdout :=
    ("/tmp/clawdis-img-x/in.img" ++ Demo.newline
     ++ "  pixelWidth: 640" ++ Demo.newline
     ++ "  pixelHeight: 480" ++ Demo.newline)%string in
  sips_query rt buf = Ok stdout
  /\ sipsMetadataFromBuffer rt buf
     = ([SipsQuery buf],
        Ok (Some {| width := Fin 640; height := Fin 480 |})).
Proof.
  intros rt buf stdout.
  assert (Q : sips_query rt buf = Ok stdout) by (vm_compute; reflexivity).
  split; [exact Q|].
  destruct (@sips_report_answer rt buf stdout Q) as (r & E & A & _).
  rewrite E. f_equal. f_equal.
  apply (A "640"%string "480"%string).
  - apply matchGroup1_firstField. vm_compute. reflexivity.
  - apply matchGroup1_firstField. vm_compute. reflexivity.
  - vm_compute. lia.
  - vm_compute. lia.
Defined.

Section ResizeToJpegFacts.

Variable rt : Runtime.
Variable p : ResizeToJpegParams.

Let q : number :=
  Num.max (Fin 1) (Num.min (Fin 100) (Num.round (quality p))).

(** One sips run for the side [side]. *)
Let run (pre : list Call) (side : number) : Eff Buffer :=
  (pre ++ [SipsResize (buffer p) (Num.max (Fin 1) (Num.round side)) q],
   sips_resize rt (buffer p) (Num.max (Fin 1) (Num.round side)) q).

Lemma resizeToJpeg_sips_cases :
  prefersSips rt = true ->
  (notFalse (withoutEnlargement p) = false
   /\ resizeToJpeg rt p = run [] (maxSide p))
  \/ (notFalse (withoutEnlargement p) = true
      /\ Eff.result (getImageMetadata rt (buffer p)) = Ok None
      /\ resizeToJpeg rt p = run [SipsQuery (buffer p)] (maxSide p))
  \/ (notFalse (withoutEnlargement p) = true
      /\ exists m,
           Eff.result (getImageMetadata rt (buffer p)) = Ok (Some m)
           /\ ((Num.ltb (Fin 0) (Num.max (width m) (height m))
                && Num.leb (Num.max (width m) (height m)) (maxSide p) = true
                /\ resizeToJpeg rt p
                   = run [SipsQuery (buffer p)] (Num.max (width m) (height m)))
               \/ (Num.ltb (Fin 0) (Num.max (width m) (height m))
                   && Num.leb (Num.max (width m) (height m)) (maxSide p) = false
                   /\ resizeToJpeg rt p
                      = run [SipsQuery (buffer p)] (maxSide p)))).
Proof.
  intro P. unfold resizeToJpeg. rewrite P.
  destruct (notFalse (withoutEnlargement p)) eqn:NF.
  - right.
    pose proof (getImageMetadata_calls_sips rt (buffer p) P) as C.
    destruct (getImageMetadata_never_throws rt (buffer p)) as [r R].
    destruct (getImageMetadata rt (buffer p)) as [t r0].
    unfold Eff.calls, Eff.result in C, R. cbn [fst snd] in C, R. subst t r0.
    unfold Eff.bind. destruct r as [m|].
    + right. split; [reflexivity|]. exists m. split; [reflexivity|].
      destruct (Num.ltb (Fin 0) (Num.max (width m) (height m))
                && Num.leb (Num.max (width m) (height m)) (maxSide p)).
      * left. split; reflexivity.
      * right. split; reflexivity.
    + left. repeat split; reflexivity.
  - left. split; reflexivity.
Qed.

End ResizeToJpegFacts.

Lemma within_false_max (m : ImageMetadata) (limit : number) (x y : Z) :
  width m = Fin x -> height m = Fin y ->
  within m limit = false ->
  Num.leb (Num.max (width m) (height m)) limit = false.
Proof.
  intros Ex Ey W. unfold within in W. rewrite Ex, Ey in *.
  destruct limit as [l| | |]; simpl in *; try reflexivity.
  - destruct (x <=? y)%Z eqn:E.
    + apply andb_false_iff in W. destruct W as [W|W]; [|exact W].
      apply Z.leb_gt in W. apply Z.leb_le in E. apply Z.leb_gt. lia.
    + apply andb_false_iff in W. destruct W as [W|W]; [exact W|].
      apply Z.leb_gt in W. apply Z.leb_gt in E. apply Z.leb_gt. lia.
  - discriminate W.
  - destruct (x <=? y)%Z; reflexivity.
  - destruct (x <=? y)%Z; reflexivity.
Qed.

(** X2: with the external tool selected and a [maxSide] that rounds to a
    finite number, [resizeToJpeg] makes exactly one sips resize, as its last
    call, after at most the one probe; the target it passes is at least 1
    and at most max(1, round(maxSide)), whatever the probe answers and
    whatever [withoutEnlargement] says; the outcome is the outcome of that
    run. *)
Theorem resizeToJpeg_sips_target_bounded (rt : Runtime)
    (p : ResizeToJpegParams) (s : Z) :
  prefersSips rt = true ->
  Num.round (maxSide p) = Fin s ->
  let q := Num.max (Fin 1) (Num.min (Fin 100) (Num.round (quality p))) in
  exists pre side,
    resizeToJpeg rt p
    = (pre ++ [SipsResize (buffer p) (Fin side) q],
       sips_resize rt (buffer p) (Fin side) q)
    /\ (pre = [] \/ pre = [SipsQuery (buffer p)])
    /\ (1 <= side <= Z.max 1 s)%Z.
Proof.
  intros P S q.
  assert (Req : Num.max (Fin 1) (Num.round (maxSide p)) = Fin (Z.max 1 s)).
  { rewrite S. cbn [Num.max Num.leb].
    destruct (1 <=? s)%Z eqn:E.
    - apply Z.leb_le in E. f_equal. lia.
    - apply Z.leb_gt in E. f_equal. lia. }
  destruct (resizeToJpeg_sips_cases rt p P)
    as [[_ E] | [(_ & _ & E) | (_ & m & M & [[C E] | [_ E]])]].
  - exists [], (Z.max 1 s). rewrite E, Req. split; [reflexivity|].
    split; [now left | lia].
  - exists [SipsQuery (buffer p)], (Z.max 1 s). rewrite E, Req.
    split; [reflexivity|]. split; [now right | lia].
  - destruct (getImageMetadata_positive _ _ M) as (x & y & Ex & Ey & Hx & Hy).
    destruct (max_of_positive Hx Hy) as (z & Ez & Hz & _ & _ & _).
    rewrite Ex, Ey, Ez in E, C. unfold Num.round in S. rewrite S in C.
    apply andb_true_iff in C. destruct C as [_ C].
    cbn [Num.leb] in C. apply Z.leb_le in C.
    exists [SipsQuery (buffer p)], z. rewrite E, (at_least_one Hz).
    split; [reflexivity|]. split; [now right | lia].
  - exists [SipsQuery (buffer p)], (Z.max 1 s). rewrite E, Req.
    split; [reflexivity|]. split; [now right | lia].
Qed.

Lemma resizeToJpeg_sips_target_bounded_witness :
  let rt := Demo.bunDarwin in
  let p := {| buffer := Buffer_from_base64 rt Demo.png4000x3000;
              maxSide := Fin 2000;
              quality := Fin 250;
              withoutEnlargement := None |} in
  (prefersSips rt = true /\ Num.round (maxSide p) = Fin 2000)
  /\ exists pre side,
       Eff.calls (resizeToJpeg rt p)
       = pre ++ [SipsResize (buffer p) (Fin side) (Fin 100)]
       /\ (1 <= side <= 2000)%Z.
Proof.
  intros rt p.
  assert (P : prefersSips rt = true) by reflexivity.
  assert (S : Num.round (maxSide p) = Fin 2000) by reflexivity.
  split; [split; assumption|].
  destruct (@resizeToJpeg_sips_target_bounded rt p 2000 P S)
    as (pre & side & E & _ & B).
  exists pre, side. split; [|exact B].
  rewrite E. reflexivity.
Defined.

(** X3: with the external tool selected, [resizeToJpeg] asks sips for the
    requested [maxSide] (at least 1) in three situations: when
    [withoutEnlargement] is false, and then it does not probe at all; when
    the probe answers null; and when the probe finds the larger side of the
    image over [maxSide]. *)
Theorem resizeToJpeg_sips_requested (rt : Runtime) (p : ResizeToJpegParams) :
  prefersSips rt = true ->
  let q := Num.max (Fin 1) (Num.min (Fin 100) (Num.round (quality p))) in
  let side := Num.max (Fin 1) (Num.round (maxSide p)) in
  let run := sips_resize rt (buffer p) side q in
  (withoutEnlargement p = Some false ->
   resizeToJpeg rt p = ([SipsResize (buffer p) side q], run))
  /\ (notFalse (withoutEnlargement p) = true ->
      Eff.result (getImageMetadata rt (buffer p)) = Ok None ->
      resizeToJpeg rt p
      = ([SipsQuery (buffer p); SipsResize (buffer p) side q], run))
  /\ (forall m,
        notFalse (withoutEnlargement p) = true ->
        Eff.result (getImageMetadata rt (buffer p)) = Ok (Some m) ->
        Num.leb (Num.max (width m) (height m)) (maxSide p) = false ->
        resizeToJpeg rt p
        = ([SipsQuery (buffer p); SipsResize (buffer p) side q], run)).
Proof.
  intros P q side run.
  destruct (resizeToJpeg_sips_cases rt p P)
    as [[NF E] | [(NF & N & E) | (NF & m & M & [[C E] | [C E]])]].
  - repeat split.
    + intros _. exact E.
    + intro H. congruence.
    + intros m0 H. congruence.
  - repeat split.
    + intro W. rewrite W in NF. discriminate NF.
    + intros _ _. exact E.
    + intros m0 _ H. congruence.
  - repeat split.
    + intro W. rewrite W in NF. discriminate NF.
    + intros _ H. congruence.
    + intros m0 _ H L. rewrite M in H. inversion H; subst m0.
      rewrite L, andb_false_r in C. discriminate C.
  - repeat split.
    + intro W. rewrite W in NF. discriminate NF.
    + intros _ H. congruence.
    + intros m0 _ _ _. exact E.
Qed.

Lemma resizeToJpeg_sips_requested_witness :
  let rt := Demo.bunDarwin in
  let p := {| buffer := Buffer_from_base64 rt Demo.png640x480;
              maxSide := Fin 2000;
              quality := Fin 85;
              withoutEnlargement := Some false |} in
  prefersSips rt = true
  /\ resizeToJpeg rt p
     = ([SipsResize (buffer p) (Fin 2000) (Fin 85)], Ok Demo.jpegHeader).
Proof.
  intros rt p.
  assert (P : prefersSips rt = true) by reflexivity.
  split; [exact P|].
  exact (proj1 (@resizeToJpeg_sips_requested rt p P) eq_refl).
Defined.

(** X4: [resizeToJpeg] only ever asks for a JPEG: each of its encoding calls
    is a sips resize or a sharp pipeline ending in [.jpeg], it makes at most
    one encoding call, and when it returns bytes it made exactly one. *)
Theorem resizeToJpeg_only_jpeg (rt : Runtime) (p : ResizeToJpegParams) :
  forallb (fun c => negb (isEncode c) || isJpegEncode c)
    (Eff.calls (resizeToJpeg rt p)) = true
  /\ List.length (filter isEncode (Eff.calls (resizeToJpeg rt p))) <= 1
  /\ (forall bytes,
        Eff.result (resizeToJpeg rt p) = Ok bytes ->
        List.length (filter isJpegEncode (Eff.calls (resizeToJpeg rt p))) = 1).
Proof.
  destruct (prefersSips rt) eqn:P.
  - pose proof (resizeToJpeg_sips_cases rt p P) as H. cbv zeta in H.
    destruct H as [[_ E] | [(_ & _ & E) | (_ & m & _ & [[_ E] | [_ E]])]];
      rewrite E; unfold Eff.calls, Eff.result; cbn [fst snd];
      repeat split; cbn; auto.
  - unfold resizeToJpeg, loadSharp, Eff.bind, Eff.call. rewrite P.
    destruct (import_sharp rt) as [u|e]; unfold Eff.calls, Eff.result;
      cbn [fst snd]; repeat split; cbn; auto.
    intros bytes H. discriminate H.
Qed.

(** X5: the probe and [resizeToJpeg] use the selected back end and no other:
    with the external tool preferred they make no call to sharp, not even the
    import, and with the native library preferred they never run sips. *)
Theorem selected_backend_only (rt : Runtime) (buf : Buffer)
    (p : ResizeToJpegParams) :
  (prefersSips rt = true ->
   existsb isSharpCall (Eff.calls (getImageMetadata rt buf)) = false
   /\ existsb isSharpCall (Eff.calls (resizeToJpeg rt p)) = false)
  /\ (prefersSips rt = false ->
      existsb isSipsCall (Eff.calls (getImageMetadata rt buf)) = false
      /\ existsb isSipsCall (Eff.calls (resizeToJpeg rt p)) = false).
Proof.
  split; intro P; split.
  - rewrite (getImageMetadata_calls_sips rt buf P). reflexivity.
  - pose proof (resizeToJpeg_sips_cases rt p P) as H. cbv zeta in H.
    destruct H as [[_ E] | [(_ & _ & E) | (_ & m & _ & [[_ E] | [_ E]])]];
      rewrite E; reflexivity.
  - destruct (getImageMetadata_calls_sharp rt buf P) as [-> | ->]; reflexivity.
  - unfold resizeToJpeg, loadSharp, Eff.bind, Eff.call. rewrite P.
    destruct (import_sharp rt); reflexivity.
Qed.

Lemma selected_backend_only_witness :
  prefersSips Demo.bunDarwin = true
  /\ prefersSips Demo.nodeLinux = false
  /\ existsb isSharpCall
       (Eff.calls (getImageMetadata Demo.bunDarwin Demo.jpegHeader)) = false
  /\ existsb isSipsCall
       (Eff.calls (getImageMetadata Demo.nodeLinux Demo.jpegHeader)) = false.
Proof.
  assert (P : prefersSips Demo.bunDarwin = true) by reflexivity.
  assert (N : prefersSips Demo.nodeLinux = false) by reflexivity.
  split; [exact P|]. split; [exact N|]. split.
  - exact (proj1 (proj1 (@selected_backend_only Demo.bunDarwin Demo.jpegHeader
                           {| buffer := Demo.jpegHeader; maxSide := Fin 1;
                              quality := Fin 1; withoutEnlargement := None |})
                    P)).
  - exact (proj1 (proj2 (@selected_backend_only Demo.nodeLinux Demo.jpegHeader
                           {| buffer := Demo.jpegHeader; maxSide := Fin 1;
                              quality := Fin 1; withoutEnlargement := None |})
                    N)).
Defined.

(* ================================================================== *)
(** ** Further properties of the resize step and the sanitizer *)

(** X6: when the probe finds a side over the limit,
    [resizeImageBase64IfNeeded] imports sharp right after the probe, whatever
    back end is preferred: an override [CLAWDIS_IMAGE_BACKEND=sips] does not
    keep the sanitizer from trying sharp first. *)
Theorem resize_tries_sharp_first (rt : Runtime) (params : ResizeParams)
    (m : ImageMetadata) :
  let buf := Buffer_from_base64 rt (base64 params) in
  Eff.result (getImageMetadata rt buf) = Ok (Some m) ->
  within m (maxDimensionPx params) = false ->
  exists rest,
    Eff.calls (resizeImageBase64IfNeeded rt params)
    = Eff.calls (getImageMetadata rt buf) ++ ImportSharp :: rest.
Proof.
  intros buf M W. unfold resizeImageBase64IfNeeded. fold buf.
  destruct (getImageMetadata rt buf) as [t0 r0].
  unfold Eff.result in M. cbn [snd] in M. subst r0.
  unfold within in W. unfold Eff.bind at 1. rewrite W.
  unfold Eff.calls. cbn [fst].
  unfold sharpResize.
  match goal with
  | |- context [Eff.tryCatch (Eff.bind ?a ?k) ?h] =>
      assert (S : exists rest r, Eff.tryCatch (Eff.bind a k) h
                                 = (ImportSharp :: rest, r))
  end.
  { unfold Eff.tryCatch, Eff.bind, Eff.call.
    destruct (import_sharp rt) as [u|e].
    - repeat split_match; pair_eq; cbn [app]; eauto.
    - destruct (resizeToJpeg rt _) as [t r]. cbn [app]. eauto. }
  destruct S as (rest & r & ->).
  unfold Eff.bind. destruct r as [out|e].
  - destruct (detectMime rt (firstn 256 out));
      unfold Eff.ret, Eff.throw; cbn [fst]; rewrite app_nil_r; eauto.
  - cbn [fst]. eauto.
Qed.

Lemma resize_tries_sharp_first_witness :
  let rt := Demo.bunDarwin in
  let params := {| base64 := Demo.png4000x3000; rp_mimeType := "image/png";
                   maxDimensionPx := Fin 2000 |} in
  let m := {| width := Fin 4000; height := Fin 3000 |} in
  (prefersSips rt = true
   /\ Eff.result (getImageMetadata rt (Buffer_from_base64 rt (base64 params)))
      = Ok (Some m)
   /\ within m (maxDimensionPx params) = false)
  /\ exists rest,
       Eff.calls (resizeImageBase64IfNeeded rt params)
       = Eff.calls (getImageMetadata rt (Buffer_from_base64 rt (base64 params)))
         ++ ImportSharp :: rest.
Proof.
  intros rt params m.
  assert (M : Eff.result
                (getImageMetadata rt (Buffer_from_base64 rt (base64 params)))
              = Ok (Some m)) by (vm_compute; reflexivity).
  assert (W : within m (maxDimensionPx params) = false) by reflexivity.
  split; [repeat split; assumption|].
  exact (@resize_tries_sharp_first rt params m M W).
Defined.

Lemma resizeToJpeg_only_jpeg_witness :
  let rt := Demo.bunDarwin in
  let p := {| buffer := Buffer_from_base64 rt Demo.png4000x3000;
              maxSide := Fin 2000; quality := Fin 85;
              withoutEnlargement := Some true |} in
  Eff.result (resizeToJpeg rt p) = Ok Demo.jpegHeader
  /\ List.length (filter isJpegEncode (Eff.calls (resizeToJpeg rt p))) = 1.
Proof.
  intros rt p.
  assert (R : Eff.result (resizeToJpeg rt p) = Ok Demo.jpegHeader)
    by (vm_compute; reflexivity).
  split; [exact R|].
  exact (proj2 (proj2 (resizeToJpeg_only_jpeg rt p)) _ R).
Defined.

Lemma sharpResize_import_fails (rt : Runtime) (buf : Buffer) (mime : string)
    (limit : number) (e : JsError) :
  import_sharp rt = Throw e ->
  sharpResize rt buf mime limit = ([ImportSharp], Throw e).
Proof.
  intro I. unfold sharpResize, Eff.bind, Eff.call. now rewrite I.
Qed.

(** X7: the fallback.  With the external tool preferred and a sharp that
    does not load, an image with a side over the limit is probed through
    sips, the import of sharp is tried and fails, and [resizeToJpeg] probes
    the image a second time and runs one sips resize for the rounded limit
    (at least 1) at quality 85; when that run gives bytes, they come back
    base64-encoded and marked as resized, with the type sniffed from their
    first 256 bytes if it is an image type and the declared type
    otherwise. *)
Theorem resize_falls_back_to_sips (rt : Runtime) (payload declared : string)
    (limit : number) (m : ImageMetadata) (e : JsError) (bytes : Buffer)
    (sniffed : option string) :
  let buf := Buffer_from_base64 rt payload in
  let side := Num.max (Fin 1) (Num.round limit) in
  prefersSips rt = true ->
  import_sharp rt = Throw e ->
  Eff.result (getImageMetadata rt buf) = Ok (Some m) ->
  within m limit = false ->
  sips_resize rt buf side (Fin 85) = Ok bytes ->
  detectMime rt (firstn 256 bytes) = Ok sniffed ->
  resizeImageBase64IfNeeded rt
    {| base64 := payload; rp_mimeType := declared; maxDimensionPx := limit |}
  = ([SipsQuery buf; ImportSharp; SipsQuery buf; SipsResize buf side (Fin 85)],
     Ok {| out_base64 := Buffer_toString_base64 rt bytes;
           out_mimeType := relabelled sniffed declared;
           resized := true |}).
Proof.
  intros buf side P I M W R D.
  destruct (getImageMetadata_positive _ _ M) as (x & y & Ex & Ey & _ & _).
  pose proof (within_false_max m limit Ex Ey W) as L.
  set (p := {| buffer := buf; maxSide := limit; quality := Fin 85;
               withoutEnlargement := Some true |}).
  assert (J : resizeToJpeg rt p
              = ([SipsQuery buf; SipsResize buf side (Fin 85)],
                 sips_resize rt buf side (Fin 85))).
  { destruct (resizeToJpeg_sips_cases rt p P)
      as [[NF _] | [(_ & N & _) | (_ & m' & M' & [[C _] | [_ E]])]].
    - discriminate NF.
    - cbn [buffer p] in N. rewrite M in N. discriminate N.
    - cbn [buffer maxSide p] in M', C. rewrite M in M'.
      injection M' as <-. rewrite L, andb_false_r in C. discriminate C.
    - exact E. }
  unfold resizeImageBase64IfNeeded.
  cbn [base64 rp_mimeType maxDimensionPx]. fold buf.
  pose proof (getImageMetadata_calls_sips rt buf P) as C.
  destruct (getImageMetadata rt buf) as [t0 r0].
  unfold Eff.result, Eff.calls in M, C. cbn [fst snd] in M, C. subst t0 r0.
  unfold within in W. unfold Eff.bind at 1. rewrite W.
  rewrite (sharpResize_import_fails rt buf _ limit I).
  unfold Eff.tryCatch. fold p. rewrite J, R.
  unfold Eff.bind. rewrite D. unfold Eff.ret, relabelled. reflexivity.
Qed.

Lemma resize_falls_back_to_sips_witness :
  let rt := Demo.bunDarwin in
  let payload := Demo.png4000x3000 in
  let buf := Buffer_from_base64 rt payload in
  resizeImageBase64IfNeeded rt
    {| base64 := payload; rp_mimeType := "image/png";
       maxDimensionPx := Fin 2000 |}
  = ([SipsQuery buf; ImportSharp; SipsQuery buf;
      SipsResize buf (Fin 2000) (Fin 85)],
     Ok {| out_base64 := "/9j/4AAQSkZJRgAB";
           out_mimeType := "image/jpeg";
           resized := true |}).
Proof.
  intros rt payload buf.
  apply (@resize_falls_back_to_sips rt payload "image/png" (Fin 2000)
           {| width := Fin 4000; height := Fin 3000 |}
           (Error "Cannot find module sharp") Demo.jpegHeader
           (Some "image/jpeg")).
  - reflexivity.
  - reflexivity.
  - vm_compute. reflexivity.
  - reflexivity.
  - reflexivity.
  - vm_compute. reflexivity.
Defined.

Lemma getImageMetadata_no_sharp (rt : Runtime) (buf : Buffer) (e : JsError) :
  prefersSips rt = false -> import_sharp rt = Throw e ->
  getImageMetadata rt buf = ([ImportSharp], Ok None).
Proof.
  intros P I. unfold getImageMetadata, loadSharp. rewrite P.
  unfold Eff.tryCatch, Eff.bind, Eff.call. now rewrite I.
Qed.

Lemma failOpen_turn (rt : Runtime) (label : string) (limit : number)
    (e : JsError) (b : ToolContentBlock) :
  prefersSips rt = false -> import_sharp rt = Throw e ->
  snd (turn rt label limit b) = failOpen label b
  /\ (fst (turn rt label limit b) = []
      \/ fst (turn rt label limit b) = [ImportSharp]).
Proof.
  intros P I. unfold turn, failOpen.
  destruct (asImageBlock b) as [image|]; [|split; [reflexivity | now left]].
  rewrite trim_isEmpty.
  destruct (JS.allWhiteSpace (img_data image));
    [split; [reflexivity | now left]|].
  fold (requestFor image limit).
  assert (N : Eff.result
                (getImageMetadata rt
                   (Buffer_from_base64 rt (base64 (requestFor image limit))))
              = Ok None)
    by (now rewrite (getImageMetadata_no_sharp rt _ P I)).
  rewrite (resize_keep rt (requestFor image limit) (or_introl N)).
  rewrite (getImageMetadata_no_sharp rt _ P I).
  unfold Eff.calls. cbn [fst snd]. split; [reflexivity | now right].
Qed.

(** X8: when the native library is the preferred back end and sharp does not
    load, the sanitizer measures nothing and resizes nothing: every image
    block with a non-blank payload is forwarded with its payload trimmed and
    its mimeType unchanged, however large the image is; blank ones get their
    placeholder, the other blocks pass, and the only back-end calls are
    failed imports of sharp. *)
Theorem sanitize_without_backend (rt : Runtime)
    (blocks : list ToolContentBlock) (label : string) (opts : SanitizeOpts)
    (e : JsError) :
  prefersSips rt = false ->
  import_sharp rt = Throw e ->
  Eff.result (sanitizeContentBlocksImages rt blocks label opts)
  = Ok (map (failOpen label) blocks)
  /\ forall c,
       In c (Eff.calls (sanitizeContentBlocksImages rt blocks label opts)) ->
       c = ImportSharp.
Proof.
  intros P I. unfold sanitizeContentBlocksImages.
  rewrite sanitizeLoop_turns. unfold Eff.result, Eff.calls. cbn [fst snd app].
  split.
  - f_equal. apply map_ext. intro b.
    exact (proj1 (failOpen_turn rt label (effectiveMax opts) b P I)).
  - intros c H. apply in_flat_map in H. destruct H as (b & _ & H).
    destruct (proj2 (failOpen_turn rt label (effectiveMax opts) b P I))
      as [E | E]; rewrite E in H.
    + destruct H.
    + destruct H as [H | []]. now symmetry.
Qed.

Lemma sanitize_without_backend_witness :
  let rt := Samples.bunLinux in
  let blocks := [Demo.imageBlock Demo.png4000x3000 "image/png";
                 Demo.imageBlock " " "image/png"] in
  (prefersSips rt = false
   /\ import_sharp rt = Throw (Error "Cannot find module sharp"))
  /\ Eff.result (sanitizeContentBlocksImages rt blocks "bash" noOpts)
     = Ok [Demo.imageBlock Demo.png4000x3000 "image/png";
           textBlock "[bash] omitted empty image payload"].
Proof.
  intros rt blocks.
  assert (P : prefersSips rt = false) by reflexivity.
  assert (I : import_sharp rt = Throw (Error "Cannot find module sharp"))
    by reflexivity.
  split; [split; assumption|].
  rewrite (proj1 (@sanitize_without_backend rt blocks "bash" noOpts _ P I)).
  vm_compute. reflexivity.
Defined.

(* ================================================================== *)
(** ** Further properties of the sniffer and the read-result normaliser *)

Section TrimFacts.

Lemma reverse_involutive (s : string) : JS.reverse (JS.reverse s) = s.
Proof.
  unfold JS.reverse.
  now rewrite list_ascii_of_string_of_list_ascii, rev_involutive,
    string_of_list_ascii_of_string.
Qed.

Lemma trimStart_idempotent (s : string) :
  JS.trimStart (JS.trimStart s) = JS.trimStart s.
Proof.
  induction s as [|c s IH]; simpl; [reflexivity|].
  destruct (JS.isWhiteSpace c) eqn:E; [exact IH|].
  simpl. now rewrite E.
Qed.

Lemma trimEnd_idempotent (s : string) :
  JS.trimEnd (JS.trimEnd s) = JS.trimEnd s.
Proof.
  unfold JS.trimEnd. now rewrite reverse_involutive, trimStart_idempotent.
Qed.

Lemma trimStart_last (a : string) (c : ascii) :
  JS.isWhiteSpace c = false ->
  exists a', JS.trimStart (a ++ String c "") = (a' ++ String c "")%string.
Proof.
  intro E. induction a as [|x a IH]; simpl.
  - rewrite E. now exists ""%string.
  - destruct (JS.isWhiteSpace x); [exact IH|].
    now exists (String x a).
Qed.

Lemma reverse_cons (c : ascii) (s : string) :
  JS.reverse (String c s) = (JS.reverse s ++ String c "")%string.
Proof.
  change (String c s) with (String c "" ++ s)%string.
  now rewrite reverse_append.
Qed.

Lemma reverse_snoc (c : ascii) (s : string) :
  JS.reverse (s ++ String c "") = String c (JS.reverse s).
Proof. now rewrite reverse_append. Qed.

Lemma trimEnd_head (c : ascii) (s : string) :
  JS.isWhiteSpace c = false ->
  exists u, JS.trimEnd (String c s) = String c u.
Proof.
  intro E. unfold JS.trimEnd. rewrite reverse_cons.
  destruct (@trimStart_last (JS.reverse s) c E) as [a' ->].
  rewrite reverse_snoc. now exists (JS.reverse a').
Qed.

Lemma trimStart_head (s : string) :
  JS.trimStart s = ""
  \/ exists c u, JS.trimStart s = String c u /\ JS.isWhiteSpace c = false.
Proof.
  induction s as [|c s IH]; simpl; [now left|].
  destruct (JS.isWhiteSpace c) eqn:E; [exact IH|].
  right. now exists c, s.
Qed.

(** [s.trim().trim()] is [s.trim()]. *)
Lemma trim_idempotent (s : string) : JS.trim (JS.trim s) = JS.trim s.
Proof.
  unfold JS.trim.
  destruct (trimStart_head s) as [-> | (c & u & -> & E)]; [reflexivity|].
  destruct (@trimEnd_head c u E) as [v V].
  rewrite V at 1. simpl JS.trimStart at 1. rewrite E, <- V.
  apply trimEnd_idempotent.
Qed.

End TrimFacts.

(** X9: the sniffer looks at the trimmed text only: two payloads that differ
    in the white space around them get the same answer, and so does a payload
    and its trimmed form. *)
Theorem sniff_ignores_outer_space (rt : Runtime) (s s' : string) :
  (JS.trim s = JS.trim s' ->
   sniffMimeFromBase64 rt s = sniffMimeFromBase64 rt s')
  /\ sniffMimeFromBase64 rt (JS.trim s) = sniffMimeFromBase64 rt s.
Proof.
  split.
  - intro H. unfold sniffMimeFromBase64. now rewrite H.
  - unfold sniffMimeFromBase64. now rewrite trim_idempotent.
Qed.

Lemma sniff_ignores_outer_space_witness :
  let padded := (" " ++ Demo.png10x10 ++ Demo.newline)%string in
  JS.trim padded = JS.trim Demo.png10x10
  /\ sniffMimeFromBase64 Demo.nodeLinux padded
     = sniffMimeFromBase64 Demo.nodeLinux Demo.png10x10.
Proof.
  intro padded.
  assert (T : JS.trim padded = JS.trim Demo.png10x10)
    by (vm_compute; reflexivity).
  split; [exact T|].
  exact (proj1 (sniff_ignores_outer_space Demo.nodeLinux padded Demo.png10x10) T).
Defined.

(** X10: rewriting a header twice is rewriting it once with the last type:
    [rewriteReadImageHeader] either leaves the text alone or answers with the
    header of the given type, and a text it left alone is left alone again. *)
Theorem rewriteReadImageHeader_twice (t m m' : string) :
  rewriteReadImageHeader (rewriteReadImageHeader t m) m'
  = rewriteReadImageHeader t m'
  /\ (rewriteReadImageHeader t m = t
      \/ rewriteReadImageHeader t m = readHeader m).
Proof.
  unfold rewriteReadImageHeader at 2 3 4 5.
  destruct (JS.startsWith t "Read image file [" && JS.endsWith t "]") eqn:E.
  - split; [|now right].
    unfold rewriteReadImageHeader. fold (readHeader m).
    destruct (readHeader_matches m) as [-> ->]. reflexivity.
  - split; [|now left].
    unfold rewriteReadImageHeader. now rewrite E.
Qed.

Lemma normalize_ok_cases (rt : Runtime) (result r' : AgentToolResult)
    (filePath : string) :
  normalizeReadImageResult rt result filePath = Ok r' ->
  r' = result
  \/ exists image s,
       findImage (contentOf result) = Some image
       /\ JS.trim (img_data image) <> ""
       /\ sniffMimeFromBase64 rt (img_data image) = Some s
       /\ s <> ""
       /\ JS.startsWith s "image/" = true
       /\ s <> img_mimeType image
       /\ r' = {| content := Some (map (relabel s) (contentOf result));
                  details := details result |}.
Proof.
  unfold normalizeReadImageResult.
  destruct (findImage (contentOf result)) as [image|] eqn:F;
    [|intro H; inversion H; now left].
  destruct (JS.isEmpty (JS.trim (img_data image))) eqn:E; [discriminate|].
  destruct (sniffMimeFromBase64 rt (img_data image)) as [s|] eqn:S;
    [|intro H; inversion H; now left].
  destruct (JS.isEmpty s) eqn:Es; [intro H; inversion H; now left|].
  destruct (JS.startsWith s "image/") eqn:P; cbn [negb]; [|discriminate].
  destruct (String.eqb s (img_mimeType image)) eqn:Q;
    [intro H; inversion H; now left|].
  intro H. inversion H; subst. right. exists image, s.
  apply isEmpty_false in E. apply isEmpty_false in Es.
  apply String.eqb_neq in Q. repeat split; auto.
Qed.

Lemma relabel_shape (s : string) (b : ToolContentBlock) :
  (forall v, b = NotObject v -> relabel s b = b)
  /\ (forall o,
        b = Obj o ->
        exists o',
          relabel s b = Obj o'
          /\ type o' = type o /\ data o' = data o /\ others o' = others o
          /\ (mimeType o' = mimeType o \/ type o = Str "image")
          /\ (text o' = text o
              \/ (type o = Str "text" /\ exists t, text o = Str t))).
Proof.
  split.
  - intros v ->. reflexivity.
  - intros o ->. unfold relabel.
    destruct (propEq (type o) "image") eqn:I.
    + apply propEq_true in I. exists (withMimeType o s).
      repeat split; auto.
    + destruct (propEq (type o) "text") eqn:T.
      * apply propEq_true in T. destruct (text o) as [|t|n] eqn:X.
        -- exists o. repeat split; auto.
        -- exists (withText o (rewriteReadImageHeader t s)).
           repeat split; auto. right. split; [exact T|]. now exists t.
        -- exists o. repeat split; auto.
      * exists o. repeat split; auto.
Qed.

(** X11: when [normalizeReadImageResult] returns, the result has the same
    [details] and the same number of blocks, each at its position; a block
    that is not an object is untouched, and an object keeps its [type], its
    [data] and its other properties: the normaliser changes nothing but the
    [mimeType] of blocks of type "image" and the [text] of text blocks, and
    never an image payload. *)
Theorem normalize_keeps_shape (rt : Runtime) (result r' : AgentToolResult)
    (filePath : string) :
  normalizeReadImageResult rt result filePath = Ok r' ->
  details r' = details result
  /\ List.length (contentOf r') = List.length (contentOf result)
  /\ forall i b,
       nth_error (contentOf result) i = Some b ->
       exists b',
         nth_error (contentOf r') i = Some b'
         /\ (forall v, b = NotObject v -> b' = b)
         /\ (forall o,
               b = Obj o ->
               exists o',
                 b' = Obj o'
                 /\ type o' = type o /\ data o' = data o
                 /\ others o' = others o
                 /\ (mimeType o' = mimeType o \/ type o = Str "image")
                 /\ (text o' = text o
                     \/ (type o = Str "text" /\ exists t, text o = Str t))).
Proof.
  intro H.
  destruct (normalize_ok_cases _ _ _ H)
    as [-> | (image & s & _ & _ & _ & _ & _ & _ & ->)].
  - split; [reflexivity|]. split; [reflexivity|].
    intros i b N. exists b. split; [exact N|]. split; [reflexivity|].
    intros o ->. exists o. repeat split; auto.
  - remember (contentOf result) as c eqn:Hc.
    cbn [contentOf content details].
    split; [reflexivity|]. split; [apply length_map|].
    intros i b N. exists (relabel s b).
    split; [rewrite nth_error_map, N; reflexivity|].
    apply relabel_shape.
Qed.

Lemma normalize_keeps_shape_witness :
  let result := {| content := Some [textBlock "Read image file [image/jpeg]";
                                    Demo.imageBlock Demo.png10x10 "image/jpeg"];
                   details := [("path", Str "shot.jpg")] |} in
  exists r',
    normalizeReadImageResult Demo.nodeLinux result "shot.jpg" = Ok r'
    /\ details r' = details result
    /\ List.length (contentOf r') = 2.
Proof.
  intro result.
  destruct (normalizeReadImageResult Demo.nodeLinux result "shot.jpg")
    as [r'|e] eqn:N; [|vm_compute in N; discriminate N].
  destruct (normalize_keeps_shape _ _ _ N) as (D & L & _).
  exists r'. split; [reflexivity|]. split; [exact D | exact L].
Defined.

Lemma relabel_not_image (s : string) (b : ToolContentBlock) :
  (forall o, b = Obj o -> type o = Str "image" -> isImageBlock b = true) ->
  asImageBlock b = None ->
  asImageBlock (relabel s b) = None.
Proof.
  intros W A. destruct b as [o|v]; [|reflexivity].
  unfold relabel. destruct (propEq (type o) "image") eqn:I.
  - apply propEq_true in I. specialize (W o eq_refl I).
    unfold isImageBlock in W. rewrite A in W. discriminate W.
  - destruct (propEq (type o) "text"); [|exact A].
    destruct (text o); try exact A.
    unfold asImageBlock, withText. cbn [type data mimeType]. now rewrite I.
Qed.

Lemma relabel_image (s : string) (b : ToolContentBlock)
    (image : ImageContentBlock) :
  asImageBlock b = Some image ->
  asImageBlock (relabel s b)
  = Some {| img_block := withMimeType (img_block image) s;
            img_data := img_data image;
            img_mimeType := s |}.
Proof.
  intro A. destruct (asImageBlock_shape _ A) as (-> & T & D & _).
  unfold relabel. rewrite T. cbn [propEq]. rewrite String.eqb_refl.
  unfold asImageBlock, withMimeType. cbn [type data mimeType].
  rewrite T, D. cbn [propEq]. now rewrite String.eqb_refl.
Qed.

Lemma findImage_relabel (s : string) (content : list ToolContentBlock)
    (image : ImageContentBlock) :
  imagesWellFormed content ->
  findImage content = Some image ->
  findImage (map (relabel s) content)
  = Some {| img_block := withMimeType (img_block image) s;
            img_data := img_data image;
            img_mimeType := s |}.
Proof.
  induction content as [|b rest IH]; intros W F; [discriminate|].
  cbn [findImage map] in *.
  destruct (asImageBlock b) as [im|] eqn:A.
  - inversion F; subst im. now rewrite (relabel_image s _ A).
  - rewrite relabel_not_image; [|intros o E T; apply (W b o); simpl; auto|exact A].
    apply IH; [|exact F].
    intros b0 o Hin. apply W. now right.
Qed.

(** X12: on a result in which every block of type "image" is a well-formed
    image block, the normaliser is idempotent: a result it returned is
    returned unchanged when it is normalised again, for any file path. *)
Theorem normalize_idempotent (rt : Runtime) (result r' : AgentToolResult)
    (filePath filePath' : string) :
  imagesWellFormed (contentOf result) ->
  normalizeReadImageResult rt result filePath = Ok r' ->
  normalizeReadImageResult rt r' filePath' = Ok r'.
Proof.
  intros W H.
  destruct (normalize_ok_cases _ _ _ H)
    as [-> | (image & s & F & NE & S & Es & P & D & ->)].
  - unfold normalizeReadImageResult in *.
    destruct (findImage (contentOf result)) as [image|]; [|exact H].
    destruct (JS.isEmpty (JS.trim (img_data image))); [discriminate H|].
    destruct (sniffMimeFromBase64 rt (img_data image)) as [s|]; [|exact H].
    destruct (JS.isEmpty s); [exact H|].
    destruct (JS.startsWith s "image/"); cbn [negb] in *; [|discriminate H].
    destruct (String.eqb s (img_mimeType image)); [reflexivity|].
    exact H.
  - unfold normalizeReadImageResult.
    remember (contentOf result) as c eqn:Hc.
    cbn [contentOf content details].
    rewrite (findImage_relabel s W F). cbn [img_data img_mimeType].
    apply isEmpty_false in NE. apply isEmpty_false in Es.
    rewrite NE, S, Es, P. cbn [negb]. now rewrite String.eqb_refl.
Qed.

Lemma normalize_idempotent_witness :
  let result := {| content := Some [textBlock "Read image file [image/jpeg]";
                                    Demo.imageBlock Demo.png10x10 "image/jpeg"];
                   details := [] |} in
  let r' := {| content := Some [textBlock "Read image file [image/png]";
                                Demo.imageBlock Demo.png10x10 "image/png"];
               details := [] |} in
  imagesWellFormed (contentOf result)
  /\ normalizeReadImageResult Demo.nodeLinux result "shot.jpg" = Ok r'
  /\ normalizeReadImageResult Demo.nodeLinux r' "shot.jpg" = Ok r'.
Proof.
  intros result r'.
  assert (W : imagesWellFormed (contentOf result)).
  { intros b o [<- | [<- | []]] E T; [|reflexivity].
    inversion E; subst. discriminate T. }
  assert (N : normalizeReadImageResult Demo.nodeLinux result "shot.jpg" = Ok r')
    by (vm_compute; reflexivity).
  split; [exact W|]. split; [exact N|].
  exact (@normalize_idempotent Demo.nodeLinux result r' "shot.jpg" "shot.jpg" W N).
Defined.

(* ================================================================== *)
(** ** Further properties of the sanitizer *)

Lemma turn_not_image (rt : Runtime) (label : string) (limit : number)
    (b : ToolContentBlock) :
  isImageBlock b = false -> turn rt label limit b = ([], b).
Proof.
  unfold isImageBlock, turn. destruct (asImageBlock b); [discriminate|].
  reflexivity.
Qed.

Lemma sanitize_no_images (rt : Runtime) (blocks : list ToolContentBlock)
    (label : string) (opts : SanitizeOpts) :
  (forall b, In b blocks -> isImageBlock b = false) ->
  sanitizeContentBlocksImages rt blocks label opts = ([], Ok blocks).
Proof.
  intro H. unfold sanitizeContentBlocksImages. rewrite sanitizeLoop_turns.
  cbn [app]. f_equal.
  - induction blocks as [|b rest IH]; [reflexivity|].
    cbn [flat_map]. rewrite (turn_not_image rt label _ b); [|apply H; now left].
    cbn [fst app]. apply IH. intros b0 Hin. apply H. now right.
  - f_equal. rewrite <- (map_id blocks) at 2. apply map_ext_in.
    intros b Hin. now rewrite (turn_not_image rt label _ b) by (now apply H).
Qed.

(** X13: a tool result without a well-formed image block comes back from
    [sanitizeToolResultImages] as it went in, and no back end is called:
    whether its content is not an array, holds no image and no text block
    (the short cut), or holds text blocks that the loop copies. *)
Theorem sanitize_result_without_images (rt : Runtime)
    (result : AgentToolResult) (label : string) (opts : SanitizeOpts) :
  (forall b, In b (contentOf result) -> isImageBlock b = false) ->
  sanitizeToolResultImages rt result label opts = ([], Ok result).
Proof.
  intro H. unfold sanitizeToolResultImages.
  destruct (existsb _ (contentOf result)) eqn:E; cbn [negb]; [|reflexivity].
  rewrite (sanitize_no_images rt _ label opts H).
  unfold Eff.bind, Eff.ret. cbn [app].
  destruct result as [[c|] d]; [reflexivity|].
  discriminate E.
Qed.

Lemma sanitize_result_without_images_witness :
  let result := {| content := Some [textBlock "total 0"; NotObject Undefined];
                   details := [("exitCode", Opaque 0)] |} in
  (forall b, In b (contentOf result) -> isImageBlock b = false)
  /\ sanitizeToolResultImages Demo.nodeLinux result "bash" noOpts
     = ([], Ok result).
Proof.
  intro result.
  assert (H : forall b, In b (contentOf result) -> isImageBlock b = false).
  { intros b [<- | [<- | []]]; reflexivity. }
  split; [exact H|].
  exact (@sanitize_result_without_images Demo.nodeLinux result "bash" noOpts H).
Defined.

Lemma sanitizeToolResultImages_returns (rt : Runtime)
    (result : AgentToolResult) (label : string) (opts : SanitizeOpts) :
  exists out,
    Eff.result (sanitizeToolResultImages rt result label opts) = Ok out
    /\ details out = details result
    /\ Eff.result
         (sanitizeContentBlocksImages rt (contentOf result) label opts)
       = Ok (contentOf out)
    /\ List.length (contentOf out) = List.length (contentOf result).
Proof.
  pose proof (sanitize_result rt (contentOf result) label opts) as R.
  unfold sanitizeToolResultImages.
  destruct (existsb _ (contentOf result)) eqn:E; cbn [negb].
  - destruct (sanitizeContentBlocksImages rt (contentOf result) label opts)
      as [t r].
    unfold Eff.result in R. cbn [snd] in R. subst r.
    eexists. unfold Eff.bind, Eff.ret, Eff.result. cbn [fst snd].
    repeat split. cbn [contentOf content]. apply length_map.
  - exists result. rewrite R. unfold Eff.ret, Eff.result. cbn [snd].
    assert (K : map (fun b => snd (turn rt label (effectiveMax opts) b))
                  (contentOf result)
                = contentOf result).
    { rewrite <- (map_id (contentOf result)) at 2.
      apply map_ext_in. intros b Hin. unfold turn.
      destruct (asImageBlock b) as [image|] eqn:A; [|reflexivity].
      exfalso.
      assert (X : existsb (fun b => isImageBlock b || isTextBlock b)
                    (contentOf result) = true).
      { apply existsb_exists. exists b. split; [exact Hin|].
        unfold isImageBlock. now rewrite A. }
      rewrite X in E. discriminate E. }
    rewrite K. repeat split.
Qed.

(** X14: [sanitizeToolResultImages] always returns; the result it returns
    has the [details] of the one it was given, and as content what
    [sanitizeContentBlocksImages] makes of the given content, one block per
    block; its back-end calls are the calls of that run or none. *)
Theorem sanitize_result_never_raises (rt : Runtime)
    (result : AgentToolResult) (label : string) (opts : SanitizeOpts) :
  exists out,
    Eff.result (sanitizeToolResultImages rt result label opts) = Ok out
    /\ details out = details result
    /\ Eff.result
         (sanitizeContentBlocksImages rt (contentOf result) label opts)
       = Ok (contentOf out)
    /\ List.length (contentOf out) = List.length (contentOf result)
    /\ (Eff.calls (sanitizeToolResultImages rt result label opts) = []
        \/ Eff.calls (sanitizeToolResultImages rt result label opts)
           = Eff.calls
               (sanitizeContentBlocksImages rt (contentOf result) label opts)).
Proof.
  unfold sanitizeToolResultImages.
  destruct (existsb _ (contentOf result)) eqn:E; cbn [negb].
  - pose proof (sanitize_result rt (contentOf result) label opts) as R.
    destruct (sanitizeContentBlocksImages rt (contentOf result) label opts)
      as [t r].
    unfold Eff.result in R. cbn [snd] in R. subst r.
    eexists. unfold Eff.bind, Eff.ret, Eff.result, Eff.calls. cbn [fst snd].
    split; [reflexivity|]. cbn [details contentOf content].
    split; [reflexivity|]. split; [reflexivity|].
    split; [apply length_map | right; apply app_nil_r].
  - exists result. unfold Eff.ret, Eff.result, Eff.calls. cbn [fst snd].
    split; [reflexivity|]. split; [reflexivity|].
    assert (H : forall b, In b (contentOf result) -> isImageBlock b = false).
    { intros b Hin.
      destruct (isImageBlock b) eqn:I; [|reflexivity].
      assert (X : existsb (fun b => isImageBlock b || isTextBlock b)
                    (contentOf result) = true).
      { apply existsb_exists. exists b. split; [exact Hin|]. now rewrite I. }
      rewrite X in E. discriminate E. }
    rewrite (sanitize_no_images rt _ label opts H).
    split; [reflexivity|]. split; [reflexivity | now left].
Qed.

(** X15: the sanitizer treats each block on its own: the output for a
    sequence [xs ++ ys] is the output for [xs] followed by the output for
    [ys], and the back-end calls are those for [xs] followed by those for
    [ys]. *)
Theorem sanitize_append (rt : Runtime) (xs ys : list ToolContentBlock)
    (label : string) (opts : SanitizeOpts) :
  exists ox oy,
    Eff.result (sanitizeContentBlocksImages rt xs label opts) = Ok ox
    /\ Eff.result (sanitizeContentBlocksImages rt ys label opts) = Ok oy
    /\ sanitizeContentBlocksImages rt (xs ++ ys) label opts
       = (Eff.calls (sanitizeContentBlocksImages rt xs label opts)
          ++ Eff.calls (sanitizeContentBlocksImages rt ys label opts),
          Ok (ox ++ oy)).
Proof.
  unfold sanitizeContentBlocksImages. rewrite !sanitizeLoop_turns.
  unfold Eff.result, Eff.calls. cbn [fst snd app].
  eexists. eexists. split; [reflexivity|]. split; [reflexivity|].
  now rewrite flat_map_app, map_app.
Qed.

Section EncodeFacts.

Variable rt : Runtime.

Lemma sharpResize_ok_encodes (buf : Buffer) (mime : string) (limit : number)
    (bytes : Buffer) :
  Eff.result (sharpResize rt buf mime limit) = Ok bytes ->
  existsb isEncode (Eff.calls (sharpResize rt buf mime limit)) = true.
Proof.
  unfold sharpResize, Eff.bind, Eff.call.
  destruct (import_sharp rt); [|discriminate].
  intros _. repeat split_match; pair_eq; reflexivity.
Qed.

Lemma resizeToJpeg_ok_encodes (p : ResizeToJpegParams) (bytes : Buffer) :
  Eff.result (resizeToJpeg rt p) = Ok bytes ->
  existsb isEncode (Eff.calls (resizeToJpeg rt p)) = true.
Proof.
  destruct (prefersSips rt) eqn:P.
  - pose proof (resizeToJpeg_sips_cases rt p P) as H. cbv zeta in H.
    destruct H as [[_ E] | [(_ & _ & E) | (_ & m & _ & [[_ E] | [_ E]])]];
      rewrite E; reflexivity.
  - unfold resizeToJpeg, loadSharp, Eff.bind, Eff.call. rewrite P.
    destruct (import_sharp rt); [reflexivity | discriminate].
Qed.

Lemma reencode_ok_encodes (buf : Buffer) (declared : string) (limit : number)
    (bytes : Buffer) :
  Eff.result (reencode rt buf declared limit) = Ok bytes ->
  existsb isEncode (Eff.calls (reencode rt buf declared limit)) = true.
Proof.
  unfold reencode.
  pose proof (@sharpResize_ok_encodes buf (JS.toLowerCase declared) limit) as S.
  destruct (sharpResize rt buf (JS.toLowerCase declared) limit) as [t [b|e]].
  - unfold Eff.tryCatch. intros _. now apply (S b).
  - unfold Eff.tryCatch.
    match goal with
    | |- context [resizeToJpeg rt ?p] =>
        pose proof (@resizeToJpeg_ok_encodes p) as J;
        destruct (resizeToJpeg rt p) as [t' r']
    end.
    unfold Eff.result, Eff.calls in *. cbn [fst snd] in *.
    intro H. rewrite existsb_app, (J _ H). apply orb_true_r.
Qed.

(** A request that comes back either comes back as it was, or went through
    an encoding call. *)
Lemma resize_ok_cases (params : ResizeParams) (r : Resized) :
  Eff.result (resizeImageBase64IfNeeded rt params) = Ok r ->
  resizeImageBase64IfNeeded rt params
  = (Eff.calls (getImageMetadata rt (Buffer_from_base64 rt (base64 params))),
     Ok {| out_base64 := base64 params;
           out_mimeType := rp_mimeType params;
           resized := false |})
  \/ existsb isEncode (Eff.calls (resizeImageBase64IfNeeded rt params)) = true.
Proof.
  intro H.
  set (buf := Buffer_from_base64 rt (base64 params)) in *.
  destruct (getImageMetadata_never_throws rt buf) as [[m|] M].
  - destruct (within m (maxDimensionPx params)) eqn:W.
    + left. apply resize_keep. right. now exists m.
    + right. revert H. unfold resizeImageBase64IfNeeded. fold buf.
      destruct (getImageMetadata rt buf) as [t0 r0].
      unfold Eff.result in M. cbn [snd] in M. subst r0.
      unfold within in W. unfold Eff.bind at 1 2. rewrite W.
      fold (reencode rt buf (rp_mimeType params) (maxDimensionPx params)).
      pose proof (@reencode_ok_encodes buf (rp_mimeType params)
                    (maxDimensionPx params)) as R.
      destruct (reencode rt buf (rp_mimeType params) (maxDimensionPx params))
        as [t1 [out|e]]; unfold Eff.result, Eff.calls in *; cbn [fst snd] in *.
      * intros _. unfold Eff.bind. rewrite W.
        destruct (detectMime rt (firstn 256 out));
          unfold Eff.ret, Eff.throw; cbn [fst];
          rewrite !existsb_app, (R out eq_refl); cbn [orb];
          apply orb_true_r.
      * unfold Eff.bind. cbn [snd]. discriminate.
  - left. apply resize_keep. now left.
Qed.

End EncodeFacts.

Lemma asImageBlock_forwarded (block : ToolContentBlock)
    (image : ImageContentBlock) :
  asImageBlock block = Some image ->
  asImageBlock (forwarded image)
  = Some {| img_block := withDataMimeType (img_block image)
                           (JS.trim (img_data image)) (img_mimeType image);
            img_data := JS.trim (img_data image);
            img_mimeType := img_mimeType image |}.
Proof.
  intro A. destruct (asImageBlock_shape _ A) as (_ & T & _ & _).
  unfold forwarded, asImageBlock, withDataMimeType.
  cbn [type data mimeType]. rewrite T. cbn [propEq].
  now rewrite String.eqb_refl.
Qed.

Lemma turn_stable (rt : Runtime) (label : string) (limit : number)
    (b : ToolContentBlock) :
  existsb isEncode (fst (turn rt label limit b)) = false ->
  snd (turn rt label limit (snd (turn rt label limit b)))
  = snd (turn rt label limit b).
Proof.
  unfold turn at 1 3 4.
  destruct (asImageBlock b) as [image|] eqn:A.
  - destruct (JS.isEmpty (JS.trim (img_data image))) eqn:E.
    + intros _. reflexivity.
    + fold (requestFor image limit).
      pose proof (@resize_ok_cases rt (requestFor image limit)) as C.
      destruct (resizeImageBase64IfNeeded rt (requestFor image limit))
        as [t [r|e]] eqn:Q.
      * cbn [fst snd]. intro NoEnc.
        destruct (C r eq_refl) as [K | K];
          [|unfold Eff.calls in K; cbn [fst] in K; congruence].
        inversion K; subst t r. cbn [out_base64 out_mimeType].
        cbn [requestFor base64 rp_mimeType].
        change (Obj (withDataMimeType (img_block image)
                       (JS.trim (img_data image)) (img_mimeType image)))
          with (forwarded image).
        unfold turn. rewrite (asImageBlock_forwarded _ A).
        cbn [img_data img_mimeType img_block].
        rewrite trim_idempotent, E.
        fold (requestFor image limit). rewrite Q. reflexivity.
      * intros _. reflexivity.
  - intros _. cbn [snd]. unfold turn. now rewrite A.
Qed.

Lemma no_encode_each (rt : Runtime) (label : string) (limit : number)
    (blocks : list ToolContentBlock) :
  existsb isEncode (flat_map (fun b => fst (turn rt label limit b)) blocks)
  = false ->
  forall b, In b blocks -> existsb isEncode (fst (turn rt label limit b)) = false.
Proof.
  induction blocks as [|x rest IH]; intros H b Hin; [destruct Hin|].
  cbn [flat_map] in H. rewrite existsb_app in H.
  apply orb_false_iff in H. destruct H as [Hx Hr].
  destruct Hin as [<- | Hin]; [exact Hx | now apply IH].
Qed.

(** X16: when a run of the sanitizer made no encoding call, its output is a
    fixed point: sanitizing the output again, in the same runtime and with
    the same label and limit, returns it unchanged.  The blocks it forwarded
    trimmed stay as they are, and so do its placeholders. *)
Theorem sanitize_twice (rt : Runtime) (blocks out : list ToolContentBlock)
    (label : string) (opts : SanitizeOpts) :
  existsb isEncode
    (Eff.calls (sanitizeContentBlocksImages rt blocks label opts)) = false ->
  Eff.result (sanitizeContentBlocksImages rt blocks label opts) = Ok out ->
  Eff.result (sanitizeContentBlocksImages rt out label opts) = Ok out.
Proof.
  intros N R. rewrite sanitize_result in R. inversion R; subst out. clear R.
  rewrite sanitize_result. f_equal. rewrite map_map. apply map_ext_in.
  intros b Hin. apply turn_stable.
  unfold sanitizeContentBlocksImages in N. rewrite sanitizeLoop_turns in N.
  unfold Eff.calls in N. cbn [fst] in N.
  now apply (no_encode_each rt label (effectiveMax opts) blocks).
Qed.

Lemma sanitize_twice_witness :
  let rt := Demo.nodeLinux in
  let blocks := [Demo.imageBlock (Demo.png10x10 ++ Demo.newline) "image/jpeg";
                 Demo.imageBlock "  " "image/png";
                 textBlock "done"] in
  let out := [Demo.imageBlock Demo.png10x10 "image/jpeg";
              textBlock "[bash] omitted empty image payload";
              textBlock "done"] in
  (existsb isEncode
     (Eff.calls (sanitizeContentBlocksImages rt blocks "bash" noOpts)) = false
   /\ Eff.result (sanitizeContentBlocksImages rt blocks "bash" noOpts) = Ok out)
  /\ Eff.result (sanitizeContentBlocksImages rt out "bash" noOpts) = Ok out.
Proof.
  intros rt blocks out.
  assert (N : existsb isEncode
                (Eff.calls (sanitizeContentBlocksImages rt blocks "bash" noOpts))
              = false) by (vm_compute; reflexivity).
  assert (R : Eff.result (sanitizeContentBlocksImages rt blocks "bash" noOpts)
              = Ok out) by (vm_compute; reflexivity).
  split; [split; assumption|].
  exact (@sanitize_twice rt blocks out "bash" noOpts N R).
Defined.

(* ================================================================== *)
(** ** Properties of the tool wrappers *)

Section ToolFacts.

Variable rt : Runtime.
Variable base : Tools.AnyAgentTool.
Variable toolCallId : string.
Variable params : Tools.ToolParams.
Variable signal : JsValue.

Let filePath : string := Tools.filePathOf params.

Lemma read_tool_after_base (t : list Call) (result : AgentToolResult) :
  Tools.execute base toolCallId params signal = (t, Ok result) ->
  Tools.execute (Tools.createClawdisReadTool rt base) toolCallId params signal
  = match normalizeReadImageResult rt result filePath with
    | Ok normalized =>
        (t ++ Eff.calls (sanitizeToolResultImages rt normalized
                           ("read:" ++ filePath) noOpts),
         Eff.result (sanitizeToolResultImages rt normalized
                       ("read:" ++ filePath) noOpts))
    | Throw e => (t, Throw e)
    end.
Proof.
  intro B. unfold Tools.createClawdisReadTool. cbn [Tools.execute].
  rewrite B. unfold Eff.bind at 1. unfold Tools.liftResult. fold filePath.
  destruct (normalizeReadImageResult rt result filePath) as [n|e].
  - unfold Eff.bind. cbn [app].
    destruct (sanitizeToolResultImages rt n _ noOpts) as [t' r'].
    reflexivity.
  - unfold Eff.bind. now rewrite app_nil_r.
Qed.

End ToolFacts.

(** X17: the wrapped read tool rejects in two cases only: the base tool
    rejected, with the same error, or [normalizeReadImageResult] threw on
    the base tool's result for the path taken from [params.path] ("<unknown>"
    when [params] has no string [path]); in both cases no back end has been
    called beyond what the base tool did.  In particular a first image block
    with a blank payload is rejected with the message
    "read: image payload is empty (<path>)". *)
Theorem read_tool_rejections (rt : Runtime) (base : Tools.AnyAgentTool)
    (toolCallId : string) (params : Tools.ToolParams) (signal : JsValue) :
  let wrapped :=
    Tools.execute (Tools.createClawdisReadTool rt base) toolCallId params signal in
  let called := Tools.execute base toolCallId params signal in
  (forall e,
     Eff.result wrapped = Throw e <->
     (Eff.result called = Throw e
      \/ exists result,
           Eff.result called = Ok result
           /\ normalizeReadImageResult rt result (Tools.filePathOf params)
              = Throw e))
  /\ (forall e, Eff.result wrapped = Throw e ->
                Eff.calls wrapped = Eff.calls called)
  /\ (forall result image,
        Eff.result called = Ok result ->
        findImage (contentOf result) = Some image ->
        JS.trim (img_data image) = "" ->
        Eff.result wrapped
        = Throw (Error ("read: image payload is empty ("
                        ++ Tools.filePathOf params ++ ")"))).
Proof.
  intros wrapped called.
  destruct called as [t [result|e0]] eqn:B; unfold called in B.
  - pose proof (read_tool_after_base rt base toolCallId params signal B) as W.
    cbv zeta in W. fold wrapped in W.
    unfold Eff.result at 2 3 5, Eff.calls at 2. cbn [fst snd].
    destruct (normalizeReadImageResult rt result (Tools.filePathOf params))
      as [n|en] eqn:N.
    + destruct (sanitizeToolResultImages_returns rt n
                  ("read:" ++ Tools.filePathOf params) noOpts)
        as (out & R & _).
      rewrite R in W. rewrite W. unfold Eff.result, Eff.calls. cbn [fst snd].
      split; [|split].
      * intro e. split; [discriminate|].
        intros [H | (r0 & H & H')]; [discriminate H|].
        inversion H; subst r0. rewrite N in H'. discriminate H'.
      * intros e H. discriminate H.
      * intros r0 image H F T. inversion H; subst r0.
        unfold normalizeReadImageResult in N. rewrite F, T in N.
        discriminate N.
    + rewrite W. unfold Eff.result, Eff.calls. cbn [fst snd].
      split; [|split].
      * intro e. split.
        -- intro H. inversion H; subst. right. exists result. now split.
        -- intros [H | (r0 & H & H')]; [discriminate H|].
           inversion H; subst r0. rewrite N in H'. now inversion H'.
      * intros e _. reflexivity.
      * intros r0 image H F T. inversion H; subst r0.
        unfold normalizeReadImageResult in N. rewrite F, T in N.
        cbn [JS.isEmpty] in N. now inversion N.
  - assert (W : wrapped = (t, Throw e0)).
    { unfold wrapped, Tools.createClawdisReadTool. cbn [Tools.execute].
      rewrite B. reflexivity. }
    rewrite W. unfold Eff.result, Eff.calls. cbn [fst snd].
    split; [|split].
    + intro e. split; [intro H; now left|].
      intros [H | (r0 & H & _)]; [exact H | discriminate H].
    + intros e _. reflexivity.
    + intros r0 image H. discriminate H.
Qed.

Lemma read_tool_rejections_witness :
  let base := Samples.readToolOf
                {| content := Some [Demo.imageBlock "  " "image/png"];
                   details := [] |} in
  Eff.result
    (Tools.execute (Tools.createClawdisReadTool Demo.nodeLinux base)
       "call-1" (Tools.ParamsNotObject Undefined) Undefined)
  = Throw (Error "read: image payload is empty (<unknown>)").
Proof.
  intro base.
  exact (proj2 (proj2 (@read_tool_rejections Demo.nodeLinux base "call-1"
                         (Tools.ParamsNotObject Undefined) Undefined))
           _ _ eq_refl eq_refl eq_refl).
Defined.

(** X18: the wrapped bash tool rejects exactly when the base tool does, with
    the same error; when the base tool resolves, the wrapped tool resolves
    with the same [details] and one block per block of the base result. *)
Theorem bash_tool_never_adds_rejection (rt : Runtime)
    (base : Tools.AnyAgentTool) (toolCallId : string)
    (params : Tools.ToolParams) (signal : JsValue) :
  let wrapped :=
    Tools.execute (Tools.createClawdisBashTool rt base) toolCallId params signal in
  let called := Tools.execute base toolCallId params signal in
  (forall e, Eff.result wrapped = Throw e <-> Eff.result called = Throw e)
  /\ (forall result,
        Eff.result called = Ok result ->
        exists out,
          Eff.result wrapped = Ok out
          /\ details out = details result
          /\ List.length (contentOf out) = List.length (contentOf result)
          /\ Eff.result
               (sanitizeContentBlocksImages rt (contentOf result) "bash" noOpts)
             = Ok (contentOf out)).
Proof.
  intros wrapped called.
  unfold wrapped, Tools.createClawdisBashTool. cbn [Tools.execute].
  fold called. destruct called as [t [result|e0]].
  - destruct (sanitizeToolResultImages_returns rt result "bash" noOpts)
      as (out & R & D & S & L).
    unfold Eff.bind.
    destruct (sanitizeToolResultImages rt result "bash" noOpts) as [t' r'].
    unfold Eff.result in *. cbn [snd] in *. subst r'.
    split.
    + intro e. split; discriminate.
    + intros r0 H. inversion H; subst r0. exists out. repeat split; assumption.
  - unfold Eff.bind, Eff.result. cbn [snd]. split.
    + intro e. reflexivity.
    + intros r0 H. discriminate H.
Qed.

Lemma bash_tool_never_adds_rejection_witness :
  let result := {| content := Some [Demo.imageBlock "  " "image/png"];
                   details := [("exitCode", Opaque 0)] |} in
  let base := Samples.bashToolOf result in
  exists out,
    Eff.result
      (Tools.execute (Tools.createClawdisBashTool Demo.nodeLinux base)
         "call-2" (Tools.ParamsNotObject Undefined) Undefined)
    = Ok out
    /\ details out = details result.
Proof.
  intros result base.
  destruct (proj2 (@bash_tool_never_adds_rejection Demo.nodeLinux base "call-2"
                     (Tools.ParamsNotObject Undefined) Undefined)
              result eq_refl)
    as (out & R & D & _).
  exists out. split; [exact R | exact D].
Defined.

Lemma normalized_first_image (rt : Runtime) (result : AgentToolResult)
    (filePath : string) (image : ImageContentBlock) (s : string)
    (i : nat) (b : ToolContentBlock) :
  nth_error (contentOf result) i = Some b ->
  asImageBlock b = Some image ->
  findImage (contentOf result) = Some image ->
  JS.trim (img_data image) <> "" ->
  sniffMimeFromBase64 rt (img_data image) = Some s ->
  JS.startsWith s "image/" = true ->
  exists normalized b1 image1,
    normalizeReadImageResult rt result filePath = Ok normalized
    /\ nth_error (contentOf normalized) i = Some b1
    /\ asImageBlock b1 = Some image1
    /\ img_data image1 = img_data image
    /\ img_mimeType image1 = s.
Proof.
  intros N A F NE S P.
  assert (Es : JS.isEmpty s = false) by (destruct s; [discriminate P | reflexivity]).
  apply isEmpty_false in NE.
  unfold normalizeReadImageResult. rewrite F, NE, S, Es, P. cbn [negb].
  destruct (String.eqb s (img_mimeType image)) eqn:Q.
  - apply String.eqb_eq in Q. exists result, b, image.
    repeat split; auto.
  - eexists. exists (relabel s b). eexists.
    split; [reflexivity|]. cbn [contentOf content].
    split; [rewrite nth_error_map, N; reflexivity|].
    split; [apply (relabel_image s _ A)|]. split; reflexivity.
Qed.

(** X19: what the read tool does for the first image.  When the base tool
    resolves, the first well-formed image block of its result has a
    non-blank payload that the sniffer classifies as an image type, and the
    probe finds no size or a size within 2000 pixels on both sides, then the
    wrapped tool resolves and the block at that position is an image block
    with the trimmed payload and the sniffed type as its mimeType, whatever
    type was declared. *)
Theorem read_tool_first_image_type (rt : Runtime) (base : Tools.AnyAgentTool)
    (toolCallId : string) (params : Tools.ToolParams) (signal : JsValue)
    (result : AgentToolResult) (image : ImageContentBlock) (s : string) :
  Eff.result (Tools.execute base toolCallId params signal) = Ok result ->
  findImage (contentOf result) = Some image ->
  JS.trim (img_data image) <> "" ->
  sniffMimeFromBase64 rt (img_data image) = Some s ->
  JS.startsWith s "image/" = true ->
  (probe rt image = Ok None
   \/ exists m, probe rt image = Ok (Some m)
                /\ within m MAX_IMAGE_DIMENSION_PX = true) ->
  exists out i b b' image',
    Eff.result
      (Tools.execute (Tools.createClawdisReadTool rt base)
         toolCallId params signal) = Ok out
    /\ nth_error (contentOf result) i = Some b
    /\ asImageBlock b = Some image
    /\ nth_error (contentOf out) i = Some b'
    /\ asImageBlock b' = Some image'
    /\ img_data image' = JS.trim (img_data image)
    /\ img_mimeType image' = s.
Proof.
  intros B F NE S P Pr.
  destruct (findImage_first _ F) as (i & b & N & A & _).
  destruct (normalized_first_image rt result (Tools.filePathOf params)
              i N A F NE S P)
    as (normalized & b1 & image1 & Nz & N1 & A1 & D1 & M1).
  destruct (Tools.execute base toolCallId params signal) as [t r] eqn:E.
  unfold Eff.result in B. cbn [snd] in B. subst r.
  rewrite (read_tool_after_base rt base toolCallId params signal E), Nz.
  unfold Eff.result at 1. cbn [snd].
  assert (NE1 : JS.trim (img_data image1) <> "") by (now rewrite D1).
  assert (Pr1 : probe rt image1 = Ok None
                \/ exists m, probe rt image1 = Ok (Some m)
                             /\ within m (effectiveMax noOpts) = true).
  { unfold probe in *. rewrite D1. exact Pr. }
  destruct (@kept_block rt (contentOf normalized)
              ("read:" ++ Tools.filePathOf params) noOpts i b1 image1
              N1 A1 NE1 Pr1) as (blocks & R & K & _).
  assert (X : existsb (fun b => isImageBlock b || isTextBlock b)
                (contentOf normalized) = true).
  { apply existsb_exists. exists b1. split; [now apply (nth_error_In _ i)|].
    unfold isImageBlock. now rewrite A1. }
  unfold sanitizeToolResultImages. rewrite X. cbn [negb].
  destruct (sanitizeContentBlocksImages rt (contentOf normalized) _ noOpts)
    as [t' r'].
  unfold Eff.result in R. cbn [snd] in R. subst r'.
  unfold Eff.bind, Eff.ret, Eff.result. cbn [snd].
  eexists. exists i, b, (forwarded image1). eexists.
  split; [reflexivity|]. cbn [contentOf content].
  split; [exact N|]. split; [exact A|]. split; [exact K|].
  split; [apply (asImageBlock_forwarded _ A1)|].
  cbn [img_data img_mimeType]. split; [now rewrite D1 | exact M1].
Qed.

Lemma read_tool_first_image_type_witness :
  let rt := Demo.nodeLinux in
  let result := {| content := Some [textBlock "Read image file [image/jpeg]";
                                    Demo.imageBlock Demo.png10x10 "image/jpeg"];
                   details := [] |} in
  let base := Samples.readToolOf result in
  let args := Tools.ParamsObject (Str "shot.jpg") [] in
  exists out b' image',
    Eff.result
      (Tools.execute (Tools.createClawdisReadTool rt base) "call-3" args
         Undefined) = Ok out
    /\ nth_error (contentOf out) 1 = Some b'
    /\ asImageBlock b' = Some image'
    /\ img_mimeType image' = "image/png".
Proof.
  intros rt result base args.
  pose (image := {| img_block := {| type := Str "image";
                                    data := Str Demo.png10x10;
                                    mimeType := Str "image/jpeg";
                                    text := Undefined; others := [] |};
                    img_data := Demo.png10x10;
                    img_mimeType := "image/jpeg" |}).
  assert (NE : JS.trim (img_data image) <> "") by (vm_compute; discriminate).
  assert (S : sniffMimeFromBase64 rt (img_data image) = Some "image/png")
    by (vm_compute; reflexivity).
  assert (Pr : probe rt image = Ok None
               \/ exists m, probe rt image = Ok (Some m)
                            /\ within m MAX_IMAGE_DIMENSION_PX = true).
  { right. exists {| width := Fin 10; height := Fin 10 |}.
    split; vm_compute; reflexivity. }
  destruct (@read_tool_first_image_type rt base "call-3" args Undefined
              result image "image/png" eq_refl eq_refl NE S eq_refl Pr)
    as (out & i & b & b' & image' & R & N & A & N' & A' & _ & M').
  assert (I : i = 1).
  { destruct i as [|[|i]]; [|reflexivity|].
    - cbn in N. inversion N; subst b. discriminate A.
    - cbn in N. destruct i; discriminate N. }
  subst i. exists out, b', image'. repeat split; assumption.
Defined.

(** X20: [createClawdisCodingTools] keeps the list of tools as it is but for
    the [execute] of the read and the bash tool: the names come back in the
    same order, every tool keeps its other properties, and a tool whose name
    is neither the read tool's nor the bash tool's stands unchanged at its
    position. *)
Theorem coding_tools_kept (rt : Runtime) (codingTools : list Tools.AnyAgentTool)
    (readTool bashTool : Tools.AnyAgentTool) :
  let wrapped := Tools.createClawdisCodingTools rt codingTools readTool bashTool in
  map Tools.name wrapped = map Tools.name codingTools
  /\ map Tools.tool_rest wrapped = map Tools.tool_rest codingTools
  /\ forall i tool,
       nth_error codingTools i = Some tool ->
       Tools.name tool <> Tools.name readTool ->
       Tools.name tool <> Tools.name bashTool ->
       nth_error wrapped i = Some tool.
Proof.
  intro wrapped. unfold wrapped, Tools.createClawdisCodingTools.
  split; [|split].
  - rewrite map_map. apply map_ext. intro tool.
    destruct (String.eqb _ _); [reflexivity|].
    destruct (String.eqb _ _); reflexivity.
  - rewrite map_map. apply map_ext. intro tool.
    destruct (String.eqb _ _); [reflexivity|].
    destruct (String.eqb _ _); reflexivity.
  - intros i tool N R B. rewrite nth_error_map, N. cbn [option_map].
    apply String.eqb_neq in R. apply String.eqb_neq in B.
    now rewrite R, B.
Qed.

Lemma coding_tools_kept_witness :
  let result := {| content := Some []; details := [] |} in
  let tools := [Samples.readToolOf result; Samples.editTool;
                Samples.bashToolOf result] in
  let wrapped :=
    Tools.createClawdisCodingTools Demo.nodeLinux tools
      (Samples.readToolOf result) (Samples.bashToolOf result) in
  map Tools.name wrapped = ["read"; "edit"; "bash"]
  /\ nth_error wrapped 1 = Some Samples.editTool.
Proof.
  intros result tools wrapped.
  destruct (@coding_tools_kept Demo.nodeLinux tools (Samples.readToolOf result)
              (Samples.bashToolOf result)) as (Names & _ & Same).
  split; [exact Names|].
  apply Same; [reflexivity | discriminate | discriminate].
Defined.

(* ================================================================== *)
(** ** The temporary directory of the sips runs *)

Section TempDirFacts.

Variable h : TempFiles.Host.

Let prefix : string := TempFiles.tempPrefix h.

Lemma withTempDir_unfold (T : Type) (fn : string -> TempFiles.Fs T)
    (past : list TempFiles.FsOp) :
  TempFiles.withTempDir h fn past
  = match TempFiles.fs_mkdtemp h past prefix with
    | Ok dir =>
        (fst (fn dir (past ++ [TempFiles.Mkdtemp prefix])) ++ [TempFiles.Rm dir],
         snd (fn dir (past ++ [TempFiles.Mkdtemp prefix])))
    | Throw e => (past ++ [TempFiles.Mkdtemp prefix], Throw e)
    end.
Proof.
  unfold TempFiles.withTempDir, TempFiles.bind, TempFiles.perform. fold prefix.
  destruct (TempFiles.fs_mkdtemp h past prefix) as [dir|e]; [|reflexivity].
  unfold TempFiles.tryFinally, TempFiles.swallow.
  destruct (fn dir (past ++ [TempFiles.Mkdtemp prefix])) as [past' r].
  reflexivity.
Qed.

End TempDirFacts.

(** X21: [withTempDir] always cleans up.  When [mkdtemp] fails, the callback
    does not run and the error is the outcome.  When it gives a directory,
    the callback runs once, then the directory is removed, as the last
    operation, and the outcome is the callback's, whether the callback
    returned or threw and whether the removal itself succeeded. *)
Theorem withTempDir_cleans_up (T : Type) (h : TempFiles.Host)
    (fn : string -> TempFiles.Fs T) (past : list TempFiles.FsOp) :
  let made := (past ++ [TempFiles.Mkdtemp (TempFiles.tempPrefix h)])%list in
  (forall e,
     TempFiles.fs_mkdtemp h past (TempFiles.tempPrefix h) = Throw e ->
     TempFiles.withTempDir h fn past = (made, Throw e))
  /\ (forall dir,
        TempFiles.fs_mkdtemp h past (TempFiles.tempPrefix h) = Ok dir ->
        TempFiles.withTempDir h fn past
        = (fst (fn dir made) ++ [TempFiles.Rm dir], snd (fn dir made))).
Proof.
  intro made. split.
  - intros e M. rewrite withTempDir_unfold, M. reflexivity.
  - intros dir M. rewrite withTempDir_unfold, M. reflexivity.
Qed.

Lemma withTempDir_cleans_up_witness :
  let failing : string -> TempFiles.Fs unit :=
    fun dir =>
      TempFiles.perform (TempFiles.ReadFile (dir ++ "/missing"))
        (fun _ => Throw (Error "ENOENT")) in
  TempFiles.fs_mkdtemp Samples.macHost [] (TempFiles.tempPrefix Samples.macHost)
  = Ok "/tmp/clawdis-img-x7Gk2q"
  /\ TempFiles.withTempDir Samples.macHost failing []
     = ([TempFiles.Mkdtemp "/tmp/clawdis-img-";
         TempFiles.ReadFile "/tmp/clawdis-img-x7Gk2q/missing";
         TempFiles.Rm "/tmp/clawdis-img-x7Gk2q"],
        Throw (Error "ENOENT")).
Proof.
  intro failing.
  assert (M : TempFiles.fs_mkdtemp Samples.macHost []
                (TempFiles.tempPrefix Samples.macHost)
              = Ok "/tmp/clawdis-img-x7Gk2q") by reflexivity.
  split; [exact M|].
  rewrite (proj2 (@withTempDir_cleans_up unit Samples.macHost failing [])
             _ M).
  reflexivity.
Defined.

(** X23: the file operations of the sips query.  Once [mkdtemp] has given a
    directory, [sipsMetadataFromBuffer] writes the buffer to in.img in that
    directory, runs [/usr/bin/sips -g pixelWidth -g pixelHeight] on that
    file with a 10 s timeout and a 512 KiB output limit unless the write
    failed, and removes the directory as its last operation; it touches no
    other path, and it throws exactly when the write or the run did. *)
Theorem sips_query_operations (h : TempFiles.Host) (buffer : Buffer)
    (past : list TempFiles.FsOp) (dir : string) :
  TempFiles.fs_mkdtemp h past (TempFiles.tempPrefix h) = Ok dir ->
  let made := (past ++ [TempFiles.Mkdtemp (TempFiles.tempPrefix h)])%list in
  let input := TempFiles.path_join h dir "in.img" in
  let write := TempFiles.WriteFile input buffer in
  let run := TempFiles.RunExec "/usr/bin/sips"
               ["-g"; "pixelWidth"; "-g"; "pixelHeight"; input]
               10000 524288 in
  (exists e,
     TempFiles.fs_writeFile h made input buffer = Throw e
     /\ TempFiles.sipsMetadataFromBuffer h buffer past
        = (made ++ [write; TempFiles.Rm dir], Throw e))
  \/ (exists e,
        TempFiles.runExec h (made ++ [write]) "/usr/bin/sips"
          ["-g"; "pixelWidth"; "-g"; "pixelHeight"; input] 10000 524288
        = Throw e
        /\ TempFiles.sipsMetadataFromBuffer h buffer past
           = (made ++ [write; run; TempFiles.Rm dir], Throw e))
  \/ (exists stdout,
        TempFiles.runExec h (made ++ [write]) "/usr/bin/sips"
          ["-g"; "pixelWidth"; "-g"; "pixelHeight"; input] 10000 524288
        = Ok stdout
        /\ TempFiles.sipsMetadataFromBuffer h buffer past
           = (made ++ [write; run; TempFiles.Rm dir],
              Ok (TempFiles.parseReport stdout))).
Proof.
  intros M made input write run.
  unfold TempFiles.sipsMetadataFromBuffer. rewrite withTempDir_unfold, M.
  fold made. unfold TempFiles.runQuery, TempFiles.bind, TempFiles.perform,
    TempFiles.ret, TempFiles.queryArgs.
  fold input. fold write.
  destruct (TempFiles.fs_writeFile h made input buffer) as [u|e] eqn:W.
  - right. change (512 * 1024)%Z with 524288%Z. fold run.
    destruct (TempFiles.runExec h (made ++ [write]) _ _ _ _) as [stdout|e] eqn:X.
    + right. exists stdout. split; [reflexivity|]. cbn [fst snd].
      now rewrite <- !app_assoc.
    + left. exists e. split; [reflexivity|]. cbn [fst snd].
      now rewrite <- !app_assoc.
  - left. exists e. split; [reflexivity|]. cbn [fst snd].
    now rewrite <- !app_assoc.
Qed.

Lemma sips_query_operations_witness :
  let buffer := Demo.fromBase64 Demo.png640x480 in
  TempFiles.fs_mkdtemp Samples.macHost [] (TempFiles.tempPrefix Samples.macHost)
  = Ok "/tmp/clawdis-img-x7Gk2q"
  /\ TempFiles.sipsMetadataFromBuffer Samples.macHost buffer []
     = ([TempFiles.Mkdtemp "/tmp/clawdis-img-";
         TempFiles.WriteFile "/tmp/clawdis-img-x7Gk2q/in.img" buffer;
         TempFiles.RunExec "/usr/bin/sips"
           ["-g"; "pixelWidth"; "-g"; "pixelHeight";
            "/tmp/clawdis-img-x7Gk2q/in.img"] 10000 524288;
         TempFiles.Rm "/tmp/clawdis-img-x7Gk2q"],
        Ok (Some {| width := Fin 640; height := Fin 480 |})).
Proof.
  intro buffer.
  assert (M : TempFiles.fs_mkdtemp Samples.macHost []
                (TempFiles.tempPrefix Samples.macHost)
              = Ok "/tmp/clawdis-img-x7Gk2q") by reflexivity.
  split; [exact M|].
  destruct (@sips_query_operations Samples.macHost buffer [] _ M)
    as [(e & W & _) | [(e & X & _) | (stdout & X & E)]].
  - vm_compute in W. discriminate W.
  - vm_compute in X. discriminate X.
  - rewrite E. vm_compute in X. inversion X; subst stdout.
    vm_compute. reflexivity.
Defined.

(** X24: the file operations of the sips resize.  Once [mkdtemp] has given a
    directory, [sipsResizeToJpeg] writes the buffer to in.img there, runs
    sips with [-Z] the target side (at least 1), format jpeg and the quality
    clamped to 1..100, from in.img to out.jpg in the same directory, with a
    20 s timeout and a 1 MiB output limit, reads out.jpg, and removes the
    directory as its last operation; a step that fails ends the sequence,
    but for the removal, and its error is the outcome; otherwise the outcome
    is the content of out.jpg. *)
Theorem sips_resize_operations (h : TempFiles.Host) (params : SipsResizeParams)
    (past : list TempFiles.FsOp) (dir : string) :
  TempFiles.fs_mkdtemp h past (TempFiles.tempPrefix h) = Ok dir ->
  let made := (past ++ [TempFiles.Mkdtemp (TempFiles.tempPrefix h)])%list in
  let input := TempFiles.path_join h dir "in.img" in
  let output := TempFiles.path_join h dir "out.jpg" in
  let side := Num.max (Fin 1) (Num.round (sr_maxSide params)) in
  let q := Num.max (Fin 1) (Num.min (Fin 100) (Num.round (sr_quality params))) in
  let args := ["-Z"; TempFiles.String_of_number h side;
               "-s"; "format"; "jpeg";
               "-s"; "formatOptions"; TempFiles.String_of_number h q;
               input; "--out"; output] in
  let write := TempFiles.WriteFile input (sr_buffer params) in
  let run := TempFiles.RunExec "/usr/bin/sips" args 20000 1048576 in
  let read := TempFiles.ReadFile output in
  let remove := TempFiles.Rm dir in
  (exists e,
     TempFiles.fs_writeFile h made input (sr_buffer params) = Throw e
     /\ TempFiles.sipsResizeToJpeg h params past
        = (made ++ [write; remove], Throw e))
  \/ (exists e,
        TempFiles.runExec h (made ++ [write]) "/usr/bin/sips" args 20000 1048576
        = Throw e
        /\ TempFiles.sipsResizeToJpeg h params past
           = (made ++ [write; run; remove], Throw e))
  \/ (TempFiles.sipsResizeToJpeg h params past
      = (made ++ [write; run; read; remove],
         TempFiles.fs_readFile h (made ++ [write; run]) output)).
Proof.
  intros M made input output side q args write run read remove.
  unfold TempFiles.sipsResizeToJpeg. rewrite withTempDir_unfold, M.
  fold made. unfold TempFiles.bind, TempFiles.perform, TempFiles.resizeArgs.
  fold input. fold output. fold side. fold q. fold args. fold write.
  change (1024 * 1024)%Z with 1048576%Z. fold run.
  destruct (TempFiles.fs_writeFile h made input (sr_buffer params))
    as [u|e] eqn:W.
  - right.
    destruct (TempFiles.runExec h (made ++ [write]) _ _ _ _) as [stdout|e] eqn:X.
    + right. cbn [fst snd]. now rewrite <- !app_assoc.
    + left. exists e. split; [reflexivity|]. cbn [fst snd].
      now rewrite <- !app_assoc.
  - left. exists e. split; [reflexivity|]. cbn [fst snd].
    now rewrite <- !app_assoc.
Qed.

Lemma sips_resize_operations_witness :
  let params := {| sr_buffer := Demo.fromBase64 Demo.png4000x3000;
                   sr_maxSide := Fin 2000; sr_quality := Fin 250 |} in
  TempFiles.fs_mkdtemp Samples.macHost [] (TempFiles.tempPrefix Samples.macHost)
  = Ok "/tmp/clawdis-img-x7Gk2q"
  /\ TempFiles.sipsResizeToJpeg Samples.macHost params []
     = ([TempFiles.Mkdtemp "/tmp/clawdis-img-";
         TempFiles.WriteFile "/tmp/clawdis-img-x7Gk2q/in.img" (sr_buffer params);
         TempFiles.RunExec "/usr/bin/sips"
           ["-Z"; "2000"; "-s"; "format"; "jpeg"; "-s"; "formatOptions"; "100";
            "/tmp/clawdis-img-x7Gk2q/in.img"; "--out";
            "/tmp/clawdis-img-x7Gk2q/out.jpg"] 20000 1048576;
         TempFiles.ReadFile "/tmp/clawdis-img-x7Gk2q/out.jpg";
         TempFiles.Rm "/tmp/clawdis-img-x7Gk2q"],
        Ok Demo.jpegHeader).
Proof.
  intro params.
  assert (M : TempFiles.fs_mkdtemp Samples.macHost []
                (TempFiles.tempPrefix Samples.macHost)
              = Ok "/tmp/clawdis-img-x7Gk2q") by reflexivity.
  split; [exact M|].
  destruct (@sips_resize_operations Samples.macHost params [] _ M)
    as [(e & W & _) | [(e & X & _) | E]].
  - vm_compute in W. discriminate W.
  - vm_compute in X. discriminate X.
  - rewrite E. vm_compute. reflexivity.
Defined.

(* ================================================================== *)
(** ** Properties of src/version.ts and of the command line reader *)

(** X25: [VERSION] is never the empty string.  It is the first non-empty one
    of the define [__CLAWDIS_VERSION__], the environment variable
    [CLAWDIS_BUNDLED_VERSION] and the version of package.json, in that
    order, and "0.0.0" when there is none; a package.json that cannot be
    loaded counts like one without a version. *)
Theorem version_never_empty (b : Version.BuildInputs) :
  Version.VERSION b <> ""
  /\ Version.VERSION b
     = match firstNonEmpty [Version.define_CLAWDIS_VERSION b;
                            Version.env_CLAWDIS_BUNDLED_VERSION b;
                            Version.readVersionFromPackageJson b] with
       | Some v => v
       | None => "0.0.0"
       end
  /\ (forall e,
        Version.package_version b = Throw e ->
        Version.VERSION b
        = Version.VERSION
            {| Version.define_CLAWDIS_VERSION := Version.define_CLAWDIS_VERSION b;
               Version.env_CLAWDIS_BUNDLED_VERSION :=
                 Version.env_CLAWDIS_BUNDLED_VERSION b;
               Version.package_version := Ok None |}).
Proof.
  unfold Version.VERSION, Version.orDefault, Version.orElse,
    Version.readVersionFromPackageJson, firstNonEmpty.
  split; [|split].
  - destruct (Version.define_CLAWDIS_VERSION b) as [[|c s]|];
      destruct (Version.env_CLAWDIS_BUNDLED_VERSION b) as [[|c' s']|];
      destruct (Version.package_version b) as [[[|c'' s'']|]|e];
      cbn; discriminate.
  - destruct (Version.define_CLAWDIS_VERSION b) as [[|c s]|];
      destruct (Version.env_CLAWDIS_BUNDLED_VERSION b) as [[|c' s']|];
      destruct (Version.package_version b) as [[[|c'' s'']|]|e];
      reflexivity.
  - intros e ->. reflexivity.
Qed.

Lemma version_never_empty_witness :
  let b := {| Version.define_CLAWDIS_VERSION := None;
              Version.env_CLAWDIS_BUNDLED_VERSION := Some "";
              Version.package_version := Throw (Error "Cannot find module") |} in
  Version.package_version b = Throw (Error "Cannot find module")
  /\ Version.VERSION b = "0.0.0".
Proof.
  intro b. split; [reflexivity|].
  rewrite (proj2 (proj2 (version_never_empty b)) _ eq_refl). reflexivity.
Defined.

Lemma indexOf_first (args : list string) (flag : string) (i : nat) :
  GatewayDaemon.indexOf args flag = Some i <->
  exists pre rest,
    args = pre ++ flag :: rest /\ List.length pre = i /\ ~ In flag pre.
Proof.
  revert i. induction args as [|a args IH]; intro i; simpl.
  - split; [discriminate|]. intros (pre & rest & E & _).
    destruct pre; discriminate E.
  - destruct (String.eqb a flag) eqn:Q.
    + apply String.eqb_eq in Q. subst a. split.
      * intro H. inversion H; subst. exists [], args. repeat split. intros [].
      * intros (pre & rest & E & L & NI). destruct pre as [|x pre].
        -- simpl in L. now subst.
        -- inversion E; subst. exfalso. apply NI. now left.
    + apply String.eqb_neq in Q.
      destruct (GatewayDaemon.indexOf args flag) as [j|] eqn:J.
      * split.
        -- intro H. inversion H; subst.
           destruct (proj1 (IH j) eq_refl) as (pre & rest & E & L & NI).
           exists (a :: pre), rest. subst. repeat split.
           intros [H1 | H1]; [congruence | now apply NI].
        -- intros (pre & rest & E & L & NI). destruct pre as [|x pre].
           ++ inversion E; subst. congruence.
           ++ inversion E; subst. f_equal. simpl. f_equal.
              assert (H : Some j = Some (List.length pre)).
              { apply IH. exists pre, rest. repeat split.
                intro H1. apply NI. now right. }
              now inversion H.
      * split; [discriminate|].
        intros (pre & rest & E & L & NI). destruct pre as [|x pre].
        -- inversion E; subst. congruence.
        -- inversion E; subst.
           assert (H : None = Some (List.length pre)).
           { apply IH. exists pre, rest. repeat split.
             intro H1. apply NI. now right. }
           discriminate H.
Qed.

(** X26: [argValue] answers with a value exactly when the first occurrence
    of the flag is followed by an argument that is not empty and does not
    start with "-", and the value is that argument.  A later occurrence of
    the flag is never looked at, and a value such as "-1" counts as
    missing. *)
Theorem argValue_first_occurrence (args : list string) (flag v : string) :
  GatewayDaemon.argValue args flag = Some v <->
  exists pre rest,
    args = pre ++ flag :: v :: rest
    /\ ~ In flag pre
    /\ v <> ""
    /\ JS.startsWith v "-" = false.
Proof.
  unfold GatewayDaemon.argValue. split.
  - destruct (GatewayDaemon.indexOf args flag) as [i|] eqn:I; [|discriminate].
    apply indexOf_first in I. destruct I as (pre & rest & -> & L & NI).
    subst i. rewrite nth_error_app2 by lia.
    replace (List.length pre + 1 - List.length pre) with 1 by lia.
    destruct rest as [|value rest]; [discriminate|]. cbn [nth_error].
    destruct (JS.isEmpty value) eqn:E; cbn [negb andb]; [discriminate|].
    destruct (JS.startsWith value "-") eqn:S; cbn [negb]; [discriminate|].
    intro H. inversion H; subst. exists pre, rest.
    apply isEmpty_false in E. repeat split; assumption.
  - intros (pre & rest & -> & NI & NE & S).
    assert (I : GatewayDaemon.indexOf (pre ++ flag :: v :: rest) flag
                = Some (List.length pre)).
    { apply indexOf_first. exists pre, (v :: rest). repeat split. exact NI. }
    rewrite I. rewrite nth_error_app2 by lia.
    replace (List.length pre + 1 - List.length pre) with 1 by lia.
    cbn [nth_error]. apply isEmpty_false in NE. now rewrite NE, S.
Qed.

Lemma argValue_first_occurrence_witness :
  GatewayDaemon.argValue ["--verbose"; "--port"; "18790"; "--port"; "1"] "--port"
  = Some "18790"
  /\ GatewayDaemon.argValue ["--port"; "-1"; "--port"; "18790"] "--port" = None
  /\ GatewayDaemon.portRaw ["--port"; "-1"; "--port"; "18790"] None = "18789".
Proof.
  split; [|split; reflexivity].
  apply argValue_first_occurrence.
  exists ["--verbose"], ["--port"; "1"].
  split; [reflexivity|]. split; [|split; [discriminate | reflexivity]].
  intros [H | []]. discriminate H.
Defined.

(* ================================================================== *)
(** ** The [resized] flag *)

(** X27: the [resized] flag of [resizeImageBase64IfNeeded] tells whether an
    encoding call was made: when the request comes back with
    [resized: false], no encoding call was made and the payload and the
    mimeType are the ones given; when it comes back with [resized: true], an
    encoding call was made and the payload is the base64 text of the bytes
    the re-encoding returned. *)
Theorem resized_flag_is_honest (rt : Runtime) (params : ResizeParams)
    (r : Resized) :
  Eff.result (resizeImageBase64IfNeeded rt params) = Ok r ->
  (resized r = false ->
   existsb isEncode (Eff.calls (resizeImageBase64IfNeeded rt params)) = false
   /\ out_base64 r = base64 params
   /\ out_mimeType r = rp_mimeType params)
  /\ (resized r = true ->
      existsb isEncode (Eff.calls (resizeImageBase64IfNeeded rt params)) = true
      /\ exists bytes,
           Eff.result
             (reencode rt (Buffer_from_base64 rt (base64 params))
                (rp_mimeType params) (maxDimensionPx params)) = Ok bytes
           /\ out_base64 r = Buffer_toString_base64 rt bytes).
Proof.
  intro H.
  set (buf := Buffer_from_base64 rt (base64 params)) in *.
  assert (Keep :
    (Eff.result (getImageMetadata rt buf) = Ok None
     \/ exists m, Eff.result (getImageMetadata rt buf) = Ok (Some m)
                  /\ within m (maxDimensionPx params) = true) ->
    resized r = false
    /\ existsb isEncode (Eff.calls (resizeImageBase64IfNeeded rt params)) = false
    /\ out_base64 r = base64 params
    /\ out_mimeType r = rp_mimeType params).
  { intro K. pose proof (resize_keep rt params K) as E. fold buf in E.
    rewrite E in H. unfold Eff.result in H. cbn [snd] in H.
    inversion H; subst r. rewrite E. unfold Eff.calls at 1. cbn [fst].
    repeat split. apply getImageMetadata_no_encode. }
  destruct (getImageMetadata_never_throws rt buf) as [[m|] M].
  - destruct (within m (maxDimensionPx params)) eqn:W.
    + destruct Keep as (F & N & B & T); [right; now exists m|].
      split; [intros _; auto | intro X; congruence].
    + destruct (@resize_over rt params m M W r H) as (bytes & E & B & F & _).
      split; [intro X; congruence|]. intros _. split.
      * destruct (resize_ok_cases rt params H) as [K | K]; [|exact K].
        rewrite K in H. unfold Eff.result in H. cbn [snd] in H.
        inversion H; subst r. discriminate F.
      * exists bytes. now split.
  - destruct Keep as (F & N & B & T); [now left|].
    split; [intros _; auto | intro X; congruence].
Qed.

Lemma resized_flag_is_honest_witness :
  let rt := Demo.nodeLinux in
  let params := {| base64 := Demo.png4000x3000; rp_mimeType := "image/png";
                   maxDimensionPx := Fin 2000 |} in
  exists r,
    Eff.result (resizeImageBase64IfNeeded rt params) = Ok r
    /\ resized r = true
    /\ existsb isEncode (Eff.calls (resizeImageBase64IfNeeded rt params)) = true.
Proof.
  intros rt params.
  destruct (resizeImageBase64IfNeeded rt params) as [t [r|e]] eqn:Q;
    [|vm_compute in Q; discriminate Q].
  assert (R : Eff.result (resizeImageBase64IfNeeded rt params) = Ok r)
    by (now rewrite Q).
  assert (F : resized r = true).
  { vm_compute in Q. inversion Q. reflexivity. }
  exists r. split; [reflexivity|]. split; [exact F|].
  rewrite <- Q. exact (proj1 (proj2 (resized_flag_is_honest rt params R) F)).
Defined.
